(** * Verification of the concept-extraction pipeline of Recall

    Shallow embedding of the Python service in [api/v1/extract_concepts.py]
    (class [ConceptExtractor], class [CategoryLearning], the FastAPI route
    [extract_concepts]) and of the sibling route in
    [pyservice/concept_extractor.py].

    Strings are modelled as [String.string] (byte strings).  The texts the
    pipeline inspects are ASCII, where Python's [str.lower], [str.upper],
    [len], slicing and the regular-expression class [\w] act byte by byte;
    the development states everything for that case. *)

From Stdlib Require Import String Ascii List Bool Arith ZArith QArith Lia Lqa.
From stdpp Require Import base gmap strings.
Import ListNotations.
Open Scope string_scope.
Set Warnings "-register-all".

(* ------------------------------------------------------------------ *)
(** ** Python string primitives *)

Module Py.

Definition is_upper (c : ascii) : bool :=
  ((65 <=? nat_of_ascii c) && (nat_of_ascii c <=? 90))%nat.
Definition is_lower (c : ascii) : bool :=
  ((97 <=? nat_of_ascii c) && (nat_of_ascii c <=? 122))%nat.
Definition is_digit (c : ascii) : bool :=
  ((48 <=? nat_of_ascii c) && (nat_of_ascii c <=? 57))%nat.

(** [\w] on ASCII text: letters, digits and the underscore. *)
Definition is_word_char (c : ascii) : bool :=
  is_upper c || is_lower c || is_digit c || Ascii.eqb c "_"%char.

(** [str.isspace] on ASCII text, which is also what [\s] matches and
    what [str.strip] removes. *)
Definition is_space (c : ascii) : bool :=
  match nat_of_ascii c with
  | 32 | 9 | 10 | 11 | 12 | 13 | 28 | 29 | 30 | 31 => true
  | _ => false
  end.

Definition char_lower (c : ascii) : ascii :=
  if is_upper c then ascii_of_nat (nat_of_ascii c + 32) else c.
Definition char_upper (c : ascii) : ascii :=
  if is_lower c then ascii_of_nat (nat_of_ascii c - 32) else c.

Fixpoint lower (s : string) : string :=
  match s with
  | EmptyString => EmptyString
  | String c t => String (char_lower c) (lower t)
  end.

Fixpoint upper (s : string) : string :=
  match s with
  | EmptyString => EmptyString
  | String c t => String (char_upper c) (upper t)
  end.

(** [needle in hay] for two strings: substring test. *)
Fixpoint contains (needle hay : string) : bool :=
  String.prefix needle hay ||
  match hay with
  | EmptyString => false
  | String _ t => contains needle t
  end.

(** [x in xs] for a list of strings. *)
Definition mem (x : string) (xs : list string) : bool :=
  existsb (String.eqb x) xs.

(** [s[:n]]. *)
Definition take (n : nat) (s : string) : string := substring 0 n s.

(** [any(w in s for w in ws)]. *)
Definition any_in (ws : list string) (s : string) : bool :=
  existsb (fun w => contains w s) ws.

(** [re.findall(r'\b\w{4,}\b', s)] on ASCII text: the maximal runs of word
    characters, kept when at least four characters long.  A match of
    [\w{4,}] must start where [\b] holds, i.e. at the start of a run, and
    its greedy body then ends at the end of that run, where [\b] holds. *)
Fixpoint word_runs_aux (cur : string) (s : string) : list string :=
  match s with
  | EmptyString => if String.eqb cur "" then [] else [cur]
  | String c t =>
      if is_word_char c then word_runs_aux (String.append cur (String c EmptyString)) t
      else if String.eqb cur "" then word_runs_aux "" t
      else cur :: word_runs_aux "" t
  end.

Definition words4 (s : string) : list string :=
  List.filter (fun w => (4 <=? String.length w)%nat) (word_runs_aux "" s).

(** [set(xs)] as a duplicate-free list, first occurrences kept. *)
Fixpoint dedup (xs : list string) : list string :=
  match xs with
  | [] => []
  | x :: t => x :: List.filter (fun y => negb (String.eqb x y)) (dedup t)
  end.

(** [len(set(xs).intersection(set(ys)))]. *)
Definition overlap_count (xs ys : list string) : nat :=
  List.length (List.filter (fun w => mem w ys) (dedup xs)).

(** [s.lstrip()]. *)
Fixpoint lstrip (s : string) : string :=
  match s with
  | EmptyString => EmptyString
  | String c t => if is_space c then lstrip t else s
  end.

Fixpoint rev_str (s : string) (acc : string) : string :=
  match s with
  | EmptyString => acc
  | String c t => rev_str t (String c acc)
  end.

(** [s.strip()]. *)
Definition strip (s : string) : string :=
  rev_str (lstrip (rev_str (lstrip s) "")) "".

(** [s.split(sep)] for a non-empty separator: the pieces between the
    non-overlapping occurrences of [sep], scanning left to right.  [skip]
    counts the characters of an occurrence still to be passed over. *)
Fixpoint split_aux (sep : string) (s : string) (cur : string) (skip : nat)
    : list string :=
  match s with
  | EmptyString => [cur]
  | String c t =>
      match skip with
      | S k => split_aux sep t cur k
      | O =>
          if String.prefix sep s
          then cur :: split_aux sep t "" (String.length sep - 1)
          else split_aux sep t (String.append cur (String c EmptyString)) 0
      end
  end.

Definition split (s sep : string) : list string := split_aux sep s "" 0.

(** The text before the first newline (or all of it). *)
Fixpoint line (s : string) : string :=
  match s with
  | EmptyString => EmptyString
  | String c t => if Ascii.eqb c "010"%char then EmptyString else String c (line t)
  end.

(** The text after the first occurrence of [sep], if any. *)
Fixpoint after (sep : string) (s : string) : option string :=
  if String.prefix sep s then Some (substring (String.length sep)
                                               (String.length s) s)
  else match s with
       | EmptyString => None
       | String _ t => after sep t
       end.

End Py.

(* ------------------------------------------------------------------ *)
(** ** CategoryLearning: the persisted learned-mapping store *)

Module Learning.

(** One entry of [learned_mappings]; the timestamp and the fixed
    confidence 1.0 are not inspected by any lookup. *)
Record entry := mkEntry {
  content_preview : string;
  old_category : string;
  new_category : string
}.

(** [self.learned_mappings]: a Python dict keyed by the 16-hex-digit
    content key; insertion order is its iteration order. *)
Definition store := list (string * entry).

(** Dict assignment [d[k] = v]: an existing key keeps its position. *)
Fixpoint dict_set (d : store) (k : string) (v : entry) : store :=
  match d with
  | [] => [(k, v)]
  | (k', v') :: t =>
      if String.eqb k k' then (k, v) :: t else (k', v') :: dict_set t k v
  end.

Section WithKey.

(** [hashlib.md5(s.encode()).hexdigest()[:16]]. *)
Variable md5_hex16 : string -> string.

(** [CategoryLearning.record_manual_update] (the file write is the
    persistence of the whole resulting store). *)
Definition record_manual_update (d : store)
    (content_snippet old_cat new_cat : string) : store :=
  let content_key := md5_hex16 (Py.lower content_snippet) in
  dict_set d content_key
    (mkEntry (Py.take 100 content_snippet) old_cat new_cat).

End WithKey.

(** The test of one stored mapping inside
    [suggest_category_from_learning]. *)
Definition entry_matches (e : entry) (content : string) : bool :=
  let content_lower := Py.lower content in
  let content_preview := Py.lower (content_preview e) in
  if negb (String.eqb content_preview "") &&
     (20 <? String.length content_preview)%nat then
    let learned_words := Py.words4 content_preview in
    let current_words := Py.words4 content_lower in
    (2 <=? Py.overlap_count learned_words current_words)%nat
  else false.

(** [CategoryLearning.suggest_category_from_learning]. *)
Fixpoint suggest_category_from_learning (d : store) (content : string)
    : option string :=
  match d with
  | [] => None
  | (_, e) :: t =>
      if entry_matches e content then Some (new_category e)
      else suggest_category_from_learning t content
  end.

(** The mappings that come before the one under key [k] in store order
    (all of them when [k] is absent). *)
Fixpoint entries_before (k : string) (d : store) : store :=
  match d with
  | [] => []
  | (k', e) :: t => if String.eqb k k' then [] else (k', e) :: entries_before k t
  end.

End Learning.

(* ------------------------------------------------------------------ *)
(** ** ConceptExtractor._normalize_category *)

Module Category.

(** The default list returned by [_fetch_categories] when the remote
    categories endpoint is unavailable. *)
Definition default_categories : list string := [
    "Data Structures and Algorithms";
    "Data Structures";
    "Algorithms";
    "Algorithm Technique";
    "LeetCode Problems";
    "Backend Engineering";
    "Backend Engineering > Authentication";
    "Backend Engineering > Storage";
    "Backend Engineering > APIs";
    "Backend Engineering > Databases";
    "Frontend Engineering";
    "Frontend Engineering > React";
    "Frontend Engineering > Next.js";
    "Frontend Engineering > CSS";
    "Cloud Engineering";
    "Cloud Engineering > AWS";
    "DevOps";
    "JavaScript";
    "TypeScript";
    "Python";
    "System Design";
    "Machine Learning";
    "General";
    "Finance";
    "Finance > Investment";
    "Finance > Personal Finance";
    "Finance > Business Finance";
    "Finance > Stock Analysis";
    "Psychology";
    "Psychology > Behavioral";
    "Psychology > Cognitive";
    "Business";
    "Business > Strategy";
    "Business > Management";
    "Business > Marketing";
    "Health";
    "Health > Nutrition";
    "Health > Fitness";
    "Education";
    "Education > Learning Methods";
    "Science";
    "Science > Physics";
    "Science > Biology";
    "Philosophy";
    "History";
    "Politics";
    "Economics";
    "Arts";
    "Literature";
    "Travel";
    "Lifestyle";
    "Miscellaneous"
].

(** [category_mapping], in dict (insertion) order. *)
Definition category_mapping : list (string * string) := [
    ("dsa", "Data Structures and Algorithms");
    ("data structure", "Data Structures");
    ("algorithm", "Algorithms");
    ("technique", "Algorithm Technique");
    ("leetcode", "LeetCode Problems");
    ("coding challenge", "LeetCode Problems");
    ("problem solving", "LeetCode Problems");
    ("python", "Python");
    ("sets in python", "Python");
    ("python set", "Python");
    ("python list", "Python");
    ("python dict", "Python");
    ("python string", "Python");
    ("python tuple", "Python");
    ("python class", "Python");
    ("python function", "Python");
    ("python module", "Python");
    ("python package", "Python");
    ("python syntax", "Python");
    ("python feature", "Python");
    ("python data structure", "Python");
    ("python collection", "Python");
    ("python standard library", "Python");
    ("python built-in", "Python");
    ("javascript", "JavaScript");
    ("js", "JavaScript");
    ("javascript array", "JavaScript");
    ("javascript object", "JavaScript");
    ("javascript function", "JavaScript");
    ("javascript method", "JavaScript");
    ("javascript syntax", "JavaScript");
    ("es6", "JavaScript");
    ("javascript feature", "JavaScript");
    ("typescript", "TypeScript");
    ("ts", "TypeScript");
    ("typescript type", "TypeScript");
    ("typescript interface", "TypeScript");
    ("typescript generic", "TypeScript");
    ("backend", "Backend Engineering");
    ("api", "Backend Engineering > APIs");
    ("rest", "Backend Engineering > APIs");
    ("graphql", "Backend Engineering > APIs");
    ("database", "Backend Engineering > Databases");
    ("sql", "Backend Engineering > Databases");
    ("nosql", "Backend Engineering > Databases");
    ("auth", "Backend Engineering > Authentication");
    ("storage", "Backend Engineering > Storage");
    ("s3", "Backend Engineering > Storage");
    ("frontend", "Frontend Engineering");
    ("react", "Frontend Engineering > React");
    ("next", "Frontend Engineering > Next.js");
    ("css", "Frontend Engineering > CSS");
    ("html", "Frontend Engineering");
    ("cloud", "Cloud Engineering");
    ("aws", "Cloud Engineering > AWS");
    ("docker", "DevOps");
    ("kubernetes", "DevOps");
    ("devops", "DevOps");
    ("system", "System Design");
    ("ml", "Machine Learning");
    ("ai", "Machine Learning");
    ("machine learning", "Machine Learning");
    ("artificial intelligence", "Machine Learning");
    ("money", "Finance");
    ("investment", "Finance > Investment");
    ("investing", "Finance > Investment");
    ("stock", "Finance > Stock Analysis");
    ("stocks", "Finance > Stock Analysis");
    ("trading", "Finance > Stock Analysis");
    ("portfolio", "Finance > Investment");
    ("budget", "Finance > Personal Finance");
    ("budgeting", "Finance > Personal Finance");
    ("savings", "Finance > Personal Finance");
    ("retirement", "Finance > Personal Finance");
    ("financial planning", "Finance > Personal Finance");
    ("business finance", "Finance > Business Finance");
    ("corporate finance", "Finance > Business Finance");
    ("psychology", "Psychology");
    ("behavior", "Psychology > Behavioral");
    ("behavioral", "Psychology > Behavioral");
    ("cognitive", "Psychology > Cognitive");
    ("mental health", "Psychology");
    ("therapy", "Psychology");
    ("mindset", "Psychology");
    ("business", "Business");
    ("strategy", "Business > Strategy");
    ("management", "Business > Management");
    ("marketing", "Business > Marketing");
    ("leadership", "Business > Management");
    ("entrepreneurship", "Business > Strategy");
    ("startup", "Business > Strategy");
    ("health", "Health");
    ("nutrition", "Health > Nutrition");
    ("diet", "Health > Nutrition");
    ("fitness", "Health > Fitness");
    ("exercise", "Health > Fitness");
    ("workout", "Health > Fitness");
    ("wellness", "Health");
    ("learning", "Education > Learning Methods");
    ("education", "Education");
    ("teaching", "Education");
    ("study", "Education > Learning Methods");
    ("academic", "Education");
    ("science", "Science");
    ("physics", "Science > Physics");
    ("biology", "Science > Biology");
    ("chemistry", "Science");
    ("research", "Science");
    ("philosophy", "Philosophy");
    ("history", "History");
    ("politics", "Politics");
    ("government", "Politics");
    ("economics", "Economics");
    ("economy", "Economics");
    ("literature", "Literature");
    ("art", "Arts");
    ("music", "Arts");
    ("travel", "Travel");
    ("lifestyle", "Lifestyle");
    ("personal development", "Lifestyle");
    ("self improvement", "Lifestyle");
    ("productivity", "Lifestyle")
].

(** The inner loop [for valid_cat in valid_categories] of one keyword. *)
Definition find_ci (target : string) (valid_categories : list string)
    : option string :=
  find (fun c => String.eqb (Py.lower target) (Py.lower c)) valid_categories.

(** The [for keyword, mapped_category in category_mapping.items()] loop. *)
Fixpoint keyword_lookup (m : list (string * string)) (suggested_lower : string)
    (valid_categories : list string) : option string :=
  match m with
  | [] => None
  | (keyword, mapped) :: t =>
      if Py.contains keyword suggested_lower then
        match find_ci mapped valid_categories with
        | Some v => Some v
        | None => keyword_lookup t suggested_lower valid_categories
        end
      else keyword_lookup t suggested_lower valid_categories
  end.

(** The final keyword fallback of [_normalize_category]. *)
Definition context_fallback (suggested_lower : string) : string :=
  if Py.any_in ["technical"; "code"; "programming"; "algorithm"; "software"]
       suggested_lower then "General"
  else if Py.any_in ["business"; "finance"; "money"; "investment"]
       suggested_lower then "Finance"
  else if Py.any_in ["psychology"; "mental"; "behavior"; "cognitive"]
       suggested_lower then "Psychology"
  else if Py.any_in ["health"; "fitness"; "nutrition"; "wellness"]
       suggested_lower then "Health"
  else "General".

(** [ConceptExtractor._normalize_category]; [learned] is
    [self.category_learning.learned_mappings], and [None] is Python's
    [None]. *)
Definition normalize_category (learned : Learning.store)
    (suggested_category : string) (valid_categories : list string)
    : option string :=
  if String.eqb suggested_category "" ||
     String.eqb (Py.upper suggested_category) "UNCATEGORIZED" then None
  else if Py.mem suggested_category valid_categories then Some suggested_category
  else
    let suggested_lower := Py.lower suggested_category in
    match find (fun c => String.eqb (Py.lower c) suggested_lower)
               valid_categories with
    | Some c => Some c
    | None =>
        match keyword_lookup category_mapping suggested_lower valid_categories with
        | Some c => Some c
        | None =>
            match Learning.suggest_category_from_learning learned
                    suggested_category with
            | Some l =>
                if negb (String.eqb l "") && Py.mem l valid_categories
                then Some l
                else Some (context_fallback suggested_lower)
            | None => Some (context_fallback suggested_lower)
            end
        end
    end.

End Category.

(* ------------------------------------------------------------------ *)
(** ** JSON values as [json.loads] returns them *)

Module Json.

(** A parsed JSON document: Python [None], [bool], [int]/[float],
    [str], [list] and [dict].  Object members are kept in document order
    with distinct keys, as [json.loads] builds its dicts. *)
Inductive json : Type :=
| JNull
| JBool (b : bool)
| JNum (q : Q)
| JStr (s : string)
| JArr (l : list json)
| JObj (kvs : list (string * json)).

(** [d.get(k)] on a dict. *)
Fixpoint get (kvs : list (string * json)) (k : string) : option json :=
  match kvs with
  | [] => None
  | (k', v) :: t => if String.eqb k k' then Some v else get t k
  end.

(** [k in d] on a dict. *)
Definition has (kvs : list (string * json)) (k : string) : bool :=
  match get kvs k with Some _ => true | None => false end.

(** [d.get(k, default)]. *)
Definition get_or (kvs : list (string * json)) (k : string) (dflt : json) : json :=
  match get kvs k with Some v => v | None => dflt end.

(** [d[k] = v] on a dict: an existing key keeps its position. *)
Fixpoint set (kvs : list (string * json)) (k : string) (v : json)
    : list (string * json) :=
  match kvs with
  | [] => [(k, v)]
  | (k', v') :: t => if String.eqb k k' then (k, v) :: t else (k', v') :: set t k v
  end.

(** Python truthiness, [bool(v)]. *)
Definition truthy (v : json) : bool :=
  match v with
  | JNull => false
  | JBool b => b
  | JNum q => negb (Qeq_bool q 0)
  | JStr s => negb (String.eqb s "")
  | JArr l => match l with [] => false | _ => true end
  | JObj kvs => match kvs with [] => false | _ => true end
  end.

End Json.

Import Json (json, JNull, JBool, JNum, JStr, JArr, JObj).

(* ------------------------------------------------------------------ *)
(** ** Exceptions, the result cache and the request entry points *)

Module Orchestrator.

(** [ConversationRequest]: the route's request body. *)
Record request := mkRequest {
  conversation_text : string;
  context : option json;
  category_guidance : option json;
  custom_api_key : option string
}.

(** Python exceptions reaching the entry points: FastAPI's
    [HTTPException] and any other exception, by type name and message. *)
Inductive error :=
| HTTPException (status_code : Z) (detail : string)
| OtherException (type_name : string) (message : string).

(** [str(e)]; Starlette formats an [HTTPException] as
    ["<status>: <detail>"]. *)
Definition err_str (e : error) : string :=
  match e with
  | HTTPException code d =>
      match code with
      | 500%Z => "500: " ++ d
      | _ => d
      end
  | OtherException _ m => m
  end.

(** A call either returns a value or raises. *)
Inductive outcome (A : Type) :=
| Ok (v : A)
| Raise (e : error).
Arguments Ok {A} v.
Arguments Raise {A} e.

(** [self.cache]: the process-wide dict from cache key to result. *)
Definition cache := gmap string json.

Section Pipeline.

(** [hashlib.md5(text.encode()).hexdigest()]. *)
Variable md5_hex : string -> string.

(** The answers of the external model, which differ from call to call. *)
Variable Oracle : Type.

(** Everything [analyze_conversation] runs after a cache miss (single-pass
    analysis, the simple fallback, segmentation and per-segment analysis):
    its result or the exception it raises, and the number of model calls
    it made.  Each of its three returning paths stores the result under
    the cache key immediately before returning it. *)
Variable pipeline : Oracle -> request -> outcome json * nat.

(** [ConceptExtractor._generate_cache_key]. *)
Definition generate_cache_key (text : string) : string := md5_hex text.

(** [ConceptExtractor.analyze_conversation] in [api/v1]: the result or
    exception, the cache afterwards, and the number of model calls made. *)
Definition analyze_conversation (c : cache) (o : Oracle) (req : request)
    : outcome json * cache * nat :=
  let cache_key := generate_cache_key (conversation_text req) in
  let run :=
    match pipeline o req with
    | (Ok result, n) => (Ok result, <[cache_key := result]> c, n)
    | (Raise e, n) => (Raise (HTTPException 500 (err_str e)), c, n)
    end in
  match c !! cache_key with
  | Some cached => if Json.truthy cached then (Ok cached, c, 0) else run
  | None => run
  end.


End Pipeline.

(** What the HTTP client receives. *)
Inductive response :=
| Response200 (body : json)
| Response500 (detail : string).

Section Routes.

(** The rest of the route's [try] block after [analyze_conversation]:
    [standardize_response_format] and the logging of the standardized
    result, which can raise as well. *)
Variable finish : json -> outcome json.

(** The [extract_concepts] route of [api/v1]. *)
Definition route_v1 (analysis : outcome json) : response :=
  let fail e :=
    Response500 ("An internal error occurred during analysis: " ++ err_str e) in
  match analysis with
  | Raise e => fail e
  | Ok result =>
      match finish result with
      | Ok standardized => Response200 standardized
      | Raise e => fail e
      end
  end.

(** [datetime.now().isoformat()] at the time of the failure. *)
Variable now : string.

(** The [emergency_fallback] dict of the [pyservice] route. *)
Definition emergency_fallback (e : error) : json :=
  JObj [
    ("concepts", JArr [JObj [
        ("title", JStr "Programming Concept");
        ("category", JStr "General");
        ("summary", JStr "General programming discussion");
        ("keyPoints", JArr [JStr "Extracted from conversation"]);
        ("details", JStr "Programming concepts discussed in the conversation");
        ("relatedConcepts", JArr []);
        ("confidence_score", JNum (1 # 2));
        ("last_updated", JStr now)]]);
    ("conversation_title", JStr "Programming Discussion");
    ("conversation_summary", JStr "Discussion about programming topics");
    ("summary", JStr "Discussion about programming topics");
    ("metadata", JObj [
        ("extraction_time", JStr now);
        ("model_used", JStr "emergency_fallback");
        ("extraction_method", JStr "fallback");
        ("error", JStr (err_str e));
        ("error_type", JStr (match e with
                             | HTTPException _ _ => "HTTPException"
                             | OtherException t _ => t end))])].

(** The [extract_concepts] route of [pyservice/concept_extractor.py]. *)
Definition route_pyservice (analysis : outcome json) : response :=
  match analysis with
  | Raise e => Response200 (emergency_fallback e)
  | Ok result =>
      match finish result with
      | Ok standardized => Response200 standardized
      | Raise e => Response200 (emergency_fallback e)
      end
  end.

End Routes.

End Orchestrator.

(* ------------------------------------------------------------------ *)
(** ** Python operations on parsed JSON values *)

Module PyJson.

(** Decimal digits of a natural number. *)
Fixpoint digits_aux (fuel : nat) (n : N) (acc : string) : string :=
  match fuel with
  | O => acc
  | S f =>
      let acc' := String (ascii_of_N (48 + N.modulo n 10)) acc in
      if (N.div n 10 =? 0)%N then acc' else digits_aux f (N.div n 10) acc'
  end.

Definition n_to_string (n : N) : string := digits_aux (S (N.size_nat n)) n "".

Definition z_to_string (z : Z) : string :=
  if (z <? 0)%Z then "-" ++ n_to_string (Z.to_N (- z)) else n_to_string (Z.to_N z).

(** Text of a number: exact for integers; a non-integral value is shown as
    a fraction (Python would print its shortest float repr; no property
    below inspects that text). *)
Definition num_str (q : Q) : string :=
  if (Zpos (Qden q) =? 1)%Z then z_to_string (Qnum q)
  else z_to_string (Qnum q) ++ "/" ++ n_to_string (Npos (Qden q)).

Fixpoint join (sep : string) (xs : list string) : string :=
  match xs with
  | [] => ""
  | [x] => x
  | x :: t => x ++ sep ++ join sep t
  end.

(** [repr(v)] (strings are shown in single quotes, without escaping). *)
Fixpoint repr (v : json) : string :=
  match v with
  | JNull => "None"
  | JBool true => "True"
  | JBool false => "False"
  | JNum q => num_str q
  | JStr s => "'" ++ s ++ "'"
  | JArr l => "[" ++ join ", " (map repr l) ++ "]"
  | JObj kvs =>
      "{" ++ join ", " (map (fun kv => "'" ++ fst kv ++ "': " ++ repr (snd kv)) kvs)
      ++ "}"
  end.

(** [str(v)], as an f-string inserts a value. *)
Definition str (v : json) : string :=
  match v with JStr s => s | _ => repr v end.

Fixpoint chars (s : string) : list json :=
  match s with
  | EmptyString => []
  | String c t => JStr (String c EmptyString) :: chars t
  end.

(** [iter(v)]: a string yields its characters, a list its items, a dict
    its keys; anything else raises [TypeError] ([None]). *)
Definition iter (v : json) : option (list json) :=
  match v with
  | JStr s => Some (chars s)
  | JArr l => Some l
  | JObj kvs => Some (map (fun kv => JStr (fst kv)) kvs)
  | _ => None
  end.

(** [len(v)]; [None] when it raises [TypeError]. *)
Definition len (v : json) : option nat :=
  match v with
  | JStr s => Some (String.length s)
  | JArr l => Some (List.length l)
  | JObj kvs => Some (List.length kvs)
  | _ => None
  end.

(** [type(v).__name__]. *)
Definition type_name (v : json) : string :=
  match v with
  | JNull => "NoneType"
  | JBool _ => "bool"
  | JNum q => if Z.eqb (Zpos (Qden q)) 1 then "int" else "float"
  | JStr _ => "str"
  | JArr _ => "list"
  | JObj _ => "dict"
  end.

(** [v == JStr s]. *)
Definition eq_str (v : json) (s : string) : bool :=
  match v with JStr s' => String.eqb s' s | _ => false end.

End PyJson.

(* ------------------------------------------------------------------ *)
(** ** The serverless entry point of [api/v1/extract-concepts.py] *)

Module Serverless.

Import Orchestrator (outcome, Ok, Raise, error, OtherException, err_str).

(** The runtime's request object: its method, and its body ([None] when
    it has no [body] attribute). *)
Record request := mkRequest {
  method : string;
  body : option string
}.

(** The dict [handler] returns; [body] is the value before [json.dumps]. *)
Record response := mkResponse {
  statusCode : Z;
  headers : list (string * string);
  resp_body : json
}.

Definition cors_headers : list (string * string) := [
  ("Content-Type", "application/json");
  ("Access-Control-Allow-Origin", "*");
  ("Access-Control-Allow-Methods", "POST, OPTIONS");
  ("Access-Control-Allow-Headers", "Content-Type")
].

Section Handler.

(** [json.loads]; it raises [JSONDecodeError] on malformed text. *)
Variable json_loads : string -> outcome json.

(** [os.getenv('OPENAI_API_KEY')]. *)
Variable openai_api_key : option string.

(** [ConceptExtractor(OpenAI(api_key=k)).analyze_conversation(text,
    context, category_guidance)] of this file: the result or the
    exception that escapes it. *)
Variable analyze_conversation : string -> json -> json -> json -> outcome json.

(** [standardize_response_format(result)] and the logging of the
    standardized result that follows it. *)
Variable finish : json -> outcome json.

(** What [conversation_text[:200]] raises on a dict ([TypeError] before
    Python 3.12, [KeyError] from 3.12 on). *)
Variable dict_slice_error : error.

(** [datetime.now().isoformat()]. *)
Variable now : string.

(** The [try] block of [handler], after the method check: the response
    it returns, or the exception it raises. *)
Definition handler_try (rq : request) : outcome response :=
  let parsed :=
    match body rq with
    | Some b => if String.eqb b "" then Ok (JObj []) else json_loads b
    | None => Ok (JObj [])
    end in
  match parsed with
  | Raise e => Raise e
  | Ok (JObj b) =>
      let conversation_text := Json.get_or b "conversation_text" (JStr "") in
      let context := Json.get_or b "context" JNull in
      let category_guidance := Json.get_or b "category_guidance" JNull in
      (* the log lines take [len(conversation_text)] and
         [conversation_text[:200]] *)
      match PyJson.len conversation_text with
      | None =>
          Raise (OtherException "TypeError"
                   ("object of type '" ++ PyJson.type_name conversation_text ++
                    "' has no len()"))
      | Some _ =>
          match conversation_text with
          | JObj _ => Raise dict_slice_error
          | _ =>
              if negb (Json.truthy conversation_text) then
                Ok (mkResponse 400 []
                      (JObj [("error", JStr "conversation_text is required")]))
              else
                match openai_api_key with
                | Some api_key =>
                    if String.eqb api_key "" then
                      Ok (mkResponse 500 []
                            (JObj [("error", JStr "OpenAI API key not configured")]))
                    else
                      match analyze_conversation api_key conversation_text context
                              category_guidance with
                      | Raise e => Raise e
                      | Ok result =>
                          match finish result with
                          | Raise e => Raise e
                          | Ok standardized =>
                              Ok (mkResponse 200 cors_headers standardized)
                          end
                      end
                | None =>
                    Ok (mkResponse 500 []
                          (JObj [("error", JStr "OpenAI API key not configured")]))
                end
          end
      end
  | Ok v =>
      Raise (OtherException "AttributeError"
               ("'" ++ PyJson.type_name v ++ "' object has no attribute 'get'"))
  end.

(** The [emergency_fallback] dict of the [except] handler. *)
Definition emergency_fallback (e : error) : json :=
  JObj [
    ("concepts", JArr [JObj [
        ("title", JStr "Programming Concept");
        ("category", JStr "General");
        ("summary", JStr "General programming discussion");
        ("keyPoints", JArr [JStr "Extracted from conversation"]);
        ("details", JStr "Programming concepts discussed in the conversation");
        ("relatedConcepts", JArr []);
        ("confidence_score", JNum (1 # 2));
        ("last_updated", JStr now)]]);
    ("conversation_title", JStr "Programming Discussion");
    ("conversation_summary", JStr "Discussion about programming topics");
    ("summary", JStr "Discussion about programming topics");
    ("metadata", JObj [
        ("extraction_time", JStr now);
        ("model_used", JStr "emergency_fallback");
        ("extraction_method", JStr "fallback");
        ("error_occurred", JStr (err_str e))])].

(** [handler(request)]. *)
Definition handler (rq : request) : response :=
  if negb (String.eqb (method rq) "POST") then
    mkResponse 405 [] (JObj [("error", JStr "Method not allowed")])
  else
    match handler_try rq with
    | Ok r => r
    | Raise e => mkResponse 200 cors_headers (emergency_fallback e)
    end.

End Handler.

End Serverless.

(* ------------------------------------------------------------------ *)
(** ** ConceptExtractor._segment_conversation *)

Module Segmenter.

(** A [(topic, segment_text)] pair; a segment's content is whatever JSON
    value the model put under ["content"]. *)
Definition segment := (string * json)%type.

(** One iteration of the [for i, segment in enumerate(raw_segments)] loop:
    [None] when it raises, otherwise the kept segment, if any. *)
Definition process_segment (conversation_type : json) (seg : json)
    : option (option segment) :=
  match seg with
  | JObj kvs =>
      let topic := Json.get_or kvs "topic" (JStr "Uncategorized") in
      let content := Json.get_or kvs "content" (JStr "") in
      let main_technique := Json.get_or kvs "main_technique" (JStr "") in
      (* the debug f-string evaluates [len(content)] *)
      match PyJson.len content with
      | None => None
      | Some _ =>
          if Json.truthy content then
            let tagged_topic :=
              if PyJson.eq_str conversation_type "PROBLEM_SOLVING" &&
                 Json.truthy main_technique
              then "[" ++ PyJson.str conversation_type ++ "] " ++
                   PyJson.str topic ++ " [TECHNIQUE:" ++
                   PyJson.str main_technique ++ "]"
              else "[" ++ PyJson.str conversation_type ++ "] " ++ PyJson.str topic in
            Some (Some (tagged_topic, content))
          else Some None
      end
  | _ => None   (* [segment.get] raises [AttributeError] *)
  end.

Fixpoint process_segments (conversation_type : json) (raw : list json)
    : option (list segment) :=
  match raw with
  | [] => Some []
  | s :: t =>
      match process_segment conversation_type s with
      | None => None
      | Some kept =>
          match process_segments conversation_type t with
          | None => None
          | Some rest =>
              Some (match kept with Some sg => sg :: rest | None => rest end)
          end
      end
  end.

(** The [try] body after [json.loads], up to the collapse: the kept
    segments, or [None] when an exception is raised. *)
Definition collect_segments (segmentation_data : json) : option (list segment) :=
  match segmentation_data with
  | JObj kvs =>
      let conversation_type := Json.get_or kvs "conversation_type" (JStr "UNKNOWN") in
      let raw_segments := Json.get_or kvs "segments" (JArr []) in
      match PyJson.len raw_segments, PyJson.iter raw_segments with
      | Some _, Some raw => process_segments conversation_type raw
      | _, _ => None
      end
  | _ => None
  end.

(** What the segmentation model call produced: a transport failure, a
    reply that is not parseable JSON ([json.loads] raises), or the parsed
    document. *)
Inductive reply :=
| TransportError
| Unparseable
| Parsed (data : json).

(** [ConceptExtractor._segment_conversation]. *)
Definition segment_conversation (conversation_text : string) (r : reply)
    : list segment :=
  let full := [("Full Conversation", JStr conversation_text)] in
  match r with
  | TransportError => full
  | Unparseable => full
  | Parsed data =>
      match collect_segments data with
      | None => full
      | Some segments =>
          if (List.length segments =? 0)%nat then
            [("[UNKNOWN] Full Conversation", JStr conversation_text)]
          else if (5 <? List.length segments)%nat then
            [("[UNKNOWN] Full Conversation", JStr conversation_text)]
          else segments
      end
  end.

End Segmenter.

(* ------------------------------------------------------------------ *)
(** ** ConceptExtractor._fallback_extraction *)

Module Fallback.

Definition model : string := "gpt-4o".

(** Group 1 of each match of [re.finditer(r"Title:\s*(.*?)(?=Title:|$)",
    text, re.DOTALL)].  A match starts at an occurrence of ["Title:"];
    [\s*] takes the whitespace after it; the lazy group then stops at the
    first position where the next ["Title:"] starts, or where [$] holds:
    the end of the text, or just before a newline ending the text. *)
Definition title_groups (text : string) : list string :=
  let pieces := tl (Py.split text "Title:") in
  let n := List.length pieces in
  let ends_nl := match Py.rev_str text "" with
                 | String c _ => Ascii.eqb c "010"%char
                 | EmptyString => false
                 end in
  map (fun ip =>
         let g := Py.lstrip (snd ip) in
         if (S (fst ip) =? n)%nat && ends_nl && negb (String.eqb g "")
         then substring 0 (String.length g - 1) g
         else g)
      (combine (seq 0 n) pieces).

(** [re.search(r"Title:\s*(.*?)(?:\n|$)", concept_text)]: group 1 of the
    first match, if there is one. *)
Definition search_title (concept_text : string) : option string :=
  match Py.after "Title:" concept_text with
  | Some rest => Some (Py.line (Py.lstrip rest))
  | None => None
  end.

(** The fallback category chosen by the whole-text keyword scan. *)
Definition fallback_category (text_lower : string) : string :=
  if Py.any_in ["investment"; "finance"; "money"; "stock"; "budget"] text_lower
  then "Finance"
  else if Py.any_in ["psychology"; "mental"; "behavior"; "cognitive"] text_lower
  then "Psychology"
  else if Py.any_in ["business"; "strategy"; "management"; "marketing"] text_lower
  then "Business"
  else if Py.any_in ["health"; "fitness"; "nutrition"; "wellness"] text_lower
  then "Health"
  else if Py.any_in ["programming"; "code"; "algorithm"; "software"; "development"]
            text_lower
  then "General"
  else "General".

Section WithClock.

(** [datetime.now().isoformat()]. *)
Variable now : string.

(** The concept built for one ["Title:"] match. *)
Definition title_concept (category title concept_text : string) : json :=
  JObj [
    ("title", JStr title);
    ("category", JStr category);
    ("categoryPath", JArr [JStr category]);
    ("summary", JStr (if (200 <? String.length concept_text)%nat
                      then Py.take 200 concept_text ++ "..."
                      else concept_text));
    ("details", JStr concept_text);
    ("keyPoints", JArr [JStr "Extracted via fallback method";
                        JStr "May require manual categorization"]);
    ("relatedConcepts", JArr []);
    ("confidence_score", JNum (1 # 2));
    ("last_updated", JStr now)].

(** The [for match in matches] loop. *)
Fixpoint title_concepts (category : string) (groups : list string) : list json :=
  match groups with
  | [] => []
  | g :: t =>
      let concept_text := Py.strip g in
      let rest := title_concepts category t in
      if String.eqb concept_text "" then rest
      else match search_title concept_text with
           | Some raw_title =>
               title_concept category (Py.strip raw_title) concept_text :: rest
           | None => rest
           end
  end.

Definition insight_words : list string :=
  ["important"; "key"; "note"; "remember"; "crucial"; "essential";
   "strategy"; "approach"; "method"; "technique"; "insight";
   "learn"; "understand"; "concept"; "principle"].

(** The sentences kept as insights. *)
Definition insights (text : string) : list string :=
  List.filter (fun sentence =>
                 (50 <? String.length sentence)%nat &&
                 Py.any_in insight_words (Py.lower sentence))
              (map Py.strip (Py.split text ". ")).

(** The single ["Key Insights"] concept. *)
Definition insight_concept (category : string) (ins : list string) : json :=
  JObj [
    ("title", JStr "Key Insights");
    ("category", JStr category);
    ("categoryPath", JArr [JStr category]);
    ("summary", JStr "Key insights extracted from the conversation.");
    ("details", JStr (PyJson.join ". " (firstn 3 ins)));
    ("keyPoints", JArr (map JStr (firstn 5 ins)));
    ("relatedConcepts", JArr []);
    ("confidence_score", JNum (3 # 10));
    ("last_updated", JStr now)].

(** [ConceptExtractor._fallback_extraction(text)]. *)
Definition fallback_extraction (text : string) : json :=
  let category := fallback_category (Py.lower text) in
  let concepts0 := title_concepts category (title_groups text) in
  let concepts :=
    match concepts0 with
    | [] => match insights text with
            | [] => []
            | ins => [insight_concept category ins]
            end
    | _ => concepts0
    end in
  JObj [
    ("concepts", JArr concepts);
    ("summary", JStr "Extracted using enhanced fallback method with domain-aware categorization");
    ("conversation_summary", JStr ("Discussion covering " ++ Py.lower category ++ " concepts"));
    ("metadata", JObj [
        ("extraction_time", JStr now);
        ("model_used", JStr model);
        ("concept_count", JNum (inject_Z (Z.of_nat (List.length concepts))));
        ("extraction_method", JStr "enhanced_fallback");
        ("detected_domain", JStr category)])].

End WithClock.

End Fallback.

(* ------------------------------------------------------------------ *)
(** ** ConceptExtractor._parse_structured_response *)

Module Normalizer.

Definition quote_char : ascii := "034"%char.
Definition backslash : ascii := "092"%char.

(** Two-character escape [\c]. *)
Definition esc (c : ascii) : string := String backslash (String c EmptyString).

(** [json.dumps] of a string's contents (ASCII text; other control
    characters would be written as [\u00XX]). *)
Fixpoint escape (s : string) : string :=
  match s with
  | EmptyString => EmptyString
  | String c t =>
      let rest := escape t in
      match nat_of_ascii c with
      | 34 => esc quote_char ++ rest
      | 92 => esc backslash ++ rest
      | 10 => esc "n"%char ++ rest
      | 13 => esc "r"%char ++ rest
      | 9 => esc "t"%char ++ rest
      | 8 => esc "b"%char ++ rest
      | 12 => esc "f"%char ++ rest
      | _ => String c rest
      end
  end.

Definition quote (s : string) : string :=
  String quote_char (escape s ++ String quote_char EmptyString).

Definition nl : string := String "010"%char EmptyString.

Fixpoint indent (n : nat) : string :=
  match n with O => "" | S k => "  " ++ indent k end.

(** [json.dumps(v, indent=2)]. *)
Fixpoint dumps (lvl : nat) (v : json) : string :=
  match v with
  | JNull => "null"
  | JBool true => "true"
  | JBool false => "false"
  | JNum q => PyJson.num_str q
  | JStr s => quote s
  | JArr [] => "[]"
  | JArr l =>
      "[" ++ nl ++
      PyJson.join ("," ++ nl) (map (fun x => indent (S lvl) ++ dumps (S lvl) x) l)
      ++ nl ++ indent lvl ++ "]"
  | JObj [] => "{}"
  | JObj kvs =>
      "{" ++ nl ++
      PyJson.join ("," ++ nl)
        (map (fun kv => indent (S lvl) ++ quote (fst kv) ++ ": " ++
                        dumps (S lvl) (snd kv)) kvs)
      ++ nl ++ indent lvl ++ "}"
  end.

(** A [re.sub] scan: at each position try [m]; on a match emit its
    replacement and continue after it, otherwise keep one character.  Every
    match consumes at least one character, so [String.length s + 1] steps
    suffice. *)
Fixpoint sub_scan (fuel : nat) (m : string -> option (string * string))
    (s : string) : string :=
  match fuel with
  | O => s
  | S f =>
      match s with
      | EmptyString => EmptyString
      | String c t =>
          match m s with
          | Some (rep, rest) => rep ++ sub_scan f m rest
          | None => String c (sub_scan f m t)
          end
      end
  end.

Definition re_sub (m : string -> option (string * string)) (s : string) : string :=
  sub_scan (S (String.length s)) m s.

Fixpoint span (p : ascii -> bool) (s : string) : string * string :=
  match s with
  | EmptyString => ("", "")
  | String c t =>
      if p c then let (a, b) := span p t in (String c a, b) else ("", s)
  end.

(** [\[\w+(_\w+)*\]\s*] (the underscore is a word character, so the
    bracketed part is one run of word characters). *)
Definition m_tag (s : string) : option (string * string) :=
  match s with
  | String "["%char t =>
      let (w, r) := span Py.is_word_char t in
      match w, r with
      | String _ _, String "]"%char r' => Some ("", Py.lstrip r')
      | _, _ => None
      end
  | _ => None
  end.

(** [\([^)]*\)]. *)
Definition m_paren (s : string) : option (string * string) :=
  match s with
  | String "("%char t =>
      let (_, r) := span (fun c => negb (Ascii.eqb c ")"%char)) t in
      match r with
      | String _ r' => Some ("", r')
      | EmptyString => None
      end
  | _ => None
  end.

(** [\s+:] (replaced by [:]). *)
Definition m_space_colon (s : string) : option (string * string) :=
  let (w, r) := span Py.is_space s in
  match w, r with
  | String _ _, String ":"%char r' => Some (":", r')
  | _, _ => None
  end.

(** The cleaning of [conversation_summary]. *)
Definition clean_summary (summary : string) : string :=
  Py.strip (re_sub m_space_colon (re_sub m_paren (re_sub m_tag summary))).

(** [sep in v] for a string [sep]; [None] when it raises [TypeError]. *)
Definition py_in (sep : string) (v : json) : option bool :=
  match v with
  | JStr s => Some (Py.contains sep s)
  | JArr l => Some (existsb (fun x => PyJson.eq_str x sep) l)
  | JObj kvs => Some (Json.has kvs sep)
  | _ => None
  end.

(** [v[:n]]; [None] when it raises [TypeError]. *)
Definition py_slice (n : nat) (v : json) : option json :=
  match v with
  | JStr s => Some (JStr (Py.take n s))
  | JArr l => Some (JArr (firstn n l))
  | _ => None
  end.

(** [_process_details]. *)
Definition process_details (details : json) : json :=
  match details with
  | JObj kvs =>
      match Json.get kvs "implementation" with
      | Some v => v
      | None => JStr (dumps 0 details)
      end
  | JStr s => JStr s
  | _ => JStr (PyJson.str details)
  end.

(** [_process_code_examples]: [None] when [examples] is not iterable;
    items that are not dicts raise inside the inner [try] and are
    skipped. *)
Definition process_code_examples (examples : json) : option json :=
  match PyJson.iter examples with
  | None => None
  | Some items =>
      Some (JArr (flat_map (fun ex =>
        match ex with
        | JObj e =>
            [JObj [("language", Json.get_or e "language" (JStr "text"));
                   ("code", Json.get_or e "code" (JStr ""));
                   ("explanation", Json.get_or e "explanation"
                                     (Json.get_or e "description" (JStr "")));
                   ("description", Json.get_or e "description"
                                     (Json.get_or e "explanation" (JStr "")))]]
        | _ => []
        end) items))
  end.

(** [_process_notes]. *)
Definition process_notes (notes : json) : option json :=
  match notes with
  | JObj n =>
      Some (JObj [("principles", Json.get_or n "principles" (JArr []));
                  ("implementation", Json.get_or n "implementation" (JStr ""));
                  ("complexity", Json.get_or n "complexity" (JObj []));
                  ("use_cases", Json.get_or n "useCases"
                                  (Json.get_or n "use_cases" (JArr [])));
                  ("edge_cases", Json.get_or n "edgeCases"
                                   (Json.get_or n "edge_cases" (JArr [])));
                  ("performance", Json.get_or n "performance" (JStr ""))])
  | _ => None
  end.

(** [_process_relationships] (its debug line sums list lengths only). *)
Definition process_relationships (rel : json) : option json :=
  match rel with
  | JObj r =>
      Some (JObj [("prerequisites", Json.get_or r "prerequisites" (JArr []));
                  ("related_concepts", Json.get_or r "related_concepts"
                                         (Json.get_or r "relatedConcepts" (JArr [])));
                  ("applications", Json.get_or r "applications" (JArr []));
                  ("dataStructures", Json.get_or r "dataStructures"
                                       (Json.get_or r "data_structures" (JArr [])));
                  ("algorithms", Json.get_or r "algorithms" (JArr []))])
  | _ => None
  end.

(** [_process_learning_resources]. *)
Definition process_learning_resources (res : json) : option json :=
  match res with
  | JObj r =>
      Some (JObj [("documentation", Json.get_or r "documentation" (JArr []));
                  ("tutorials", Json.get_or r "tutorials" (JArr []));
                  ("practice_problems", Json.get_or r "practice_problems"
                                          (Json.get_or r "practiceProblems" (JArr [])));
                  ("further_reading", Json.get_or r "further_reading"
                                        (Json.get_or r "furtherReading" (JArr [])))])
  | _ => None
  end.

Definition model : string := "gpt-4o".

Section WithClock.

Variable now : string.

Abbreviation dict := (list (string * json)).

(** Step 1 of the per-concept [try]: derive [categoryPath].  [inl c]
    when it raises, with the concept as it then is. *)
Definition ensure_category_path (c : dict) : dict + dict :=
  if Json.has c "categoryPath" then inr c
  else match Json.get c "category" with
       | None => inr c
       | Some category =>
           match py_in " > " category with
           | None => inl c
           | Some true =>
               match category with
               | JStr s =>
                   (* [re.split(r'\s*>\s*', s)] followed by [strip] on
                      each piece: the same pieces as splitting at ">" and
                      stripping *)
                   inr (Json.set c "categoryPath"
                          (JArr (map (fun p => JStr (Py.strip p)) (Py.split s ">"))))
               | _ => inl c
               end
           | Some false =>
               match py_in ">" category with
               | None => inl c
               | Some true =>
                   match category with
                   | JStr s =>
                       inr (Json.set c "categoryPath"
                              (JArr (map (fun p => JStr (Py.strip p)) (Py.split s ">"))))
                   | _ => inl c
                   end
               | Some false => inr (Json.set c "categoryPath" (JArr [category]))
               end
           end
       end.

(** The per-concept [try] block of [_parse_structured_response];
    [conversation_summary] is [response_data.get("conversation_summary",
    "")].  [inr] the processed concept, or [inl] the concept dict as the
    [except] handler sees it (the steps before the failure have already
    updated it in place). *)
Definition process_concept (conversation_summary : json) (c0 : dict)
    : dict + json :=
  match ensure_category_path c0 with
  | inl c => inl c
  | inr c1 =>
      let c2 := if Json.has c1 "title" then c1
                else Json.set c1 "title" (JStr "Untitled Concept") in
      let c3 :=
        if Json.has c2 "summary" then Some c2
        else match py_slice 150 conversation_summary with
             | Some s => Some (Json.set c2 "summary" s)
             | None => None
             end in
      match c3 with
      | None => inl c2
      | Some c3 =>
          let c :=
            if Json.has c3 "implementation" && negb (Json.has c3 "details")
            then Json.set c3 "details" (Json.get_or c3 "implementation" JNull)
            else if Json.has c3 "insights" && negb (Json.has c3 "details")
            then Json.set c3 "details" (Json.get_or c3 "insights" JNull)
            else if negb (Json.has c3 "details")
            then Json.set c3 "details" (Json.get_or c3 "summary" (JStr ""))
            else c3 in
          let snippets := Json.get_or c "codeSnippets"
                            (Json.get_or c "code_examples" (JArr [])) in
          match process_code_examples snippets,
                process_notes (Json.get_or c "notes" (JObj [])),
                process_learning_resources
                  (Json.get_or c "learning_resources"
                     (Json.get_or c "learningResources" (JObj []))),
                process_relationships
                  (Json.get_or c "relationships"
                     (Json.get_or c "related_concepts" (JObj []))) with
          | Some code, Some notes, Some resources, Some relationships =>
              inr (JObj [
                ("title", Json.get_or c "title" (JStr "Untitled Concept"));
                ("category", Json.get_or c "category" (JStr "General"));
                ("categoryPath", Json.get_or c "categoryPath"
                                   (JArr [Json.get_or c "category" (JStr "General")]));
                ("subcategories", Json.get_or c "subcategories" (JArr []));
                ("summary", Json.get_or c "summary" (JStr ""));
                ("keyPoints", Json.get_or c "keyPoints" (JArr []));
                ("details", process_details
                              (Json.get_or c "details"
                                 (Json.get_or c "implementation" (JStr ""))));
                ("codeSnippets", code);
                ("notes", notes);
                ("code_examples", code);
                ("learning_resources", resources);
                ("relationships", relationships);
                ("relatedConcepts", Json.get_or c "relatedConcepts" (JArr []));
                ("confidence_score", Json.get_or c "confidence_score" (JNum (4 # 5)));
                ("last_updated", JStr now)])
          | _, _, _, _ => inl c
          end
      end
  end.

(** The recovery in the [except] handler: [None] when the concept has no
    ["title"] key or when building the minimal concept raises (the
    default [concept.get("details", "")[:100]] is evaluated eagerly). *)
Definition minimal_concept (c : dict) : option json :=
  if negb (Json.has c "title") then None
  else match py_slice 100 (Json.get_or c "details" (JStr "")) with
       | None => None
       | Some dflt =>
           Some (JObj [
             ("title", Json.get_or c "title" (JStr "Untitled Concept"));
             ("category", Json.get_or c "category" (JStr "General"));
             ("summary", Json.get_or c "summary" dflt);
             ("keyPoints", Json.get_or c "keyPoints" (JArr []));
             ("details", JObj [
                ("implementation", Json.get_or c "details"
                                     (Json.get_or c "implementation" (JStr "")));
                ("complexity", JObj [("time", JStr "O(n)"); ("space", JStr "O(n)")]);
                ("useCases", JArr []);
                ("edgeCases", JArr []);
                ("performance", JStr "")]);
             ("relatedConcepts", Json.get_or c "relatedConcepts" (JArr []));
             ("confidence_score", Json.get_or c "confidence_score" (JNum (1 # 2)));
             ("last_updated", JStr now)])
       end.

(** What one element of the concepts array contributes. *)
Definition concept_outcome (conversation_summary : json) (c : dict) : list json :=
  match process_concept conversation_summary c with
  | inr p => [p]
  | inl c' => match minimal_concept c' with Some m => [m] | None => [] end
  end.

(** The loop over the concepts: [None] when an element is not a dict
    (the debug loop before it calls [concept.keys()] outside the
    per-concept [try]). *)
Definition process_concepts (conversation_summary : json) (items : list json)
    : option (list json) :=
  if forallb (fun v => match v with JObj _ => true | _ => false end) items
  then Some (flat_map (fun v => match v with
                                | JObj c => concept_outcome conversation_summary c
                                | _ => []
                                end) items)
  else None.

(** The first element of the concepts array that is not a dict. *)
Definition first_non_dict (items : list json) : json :=
  match find (fun v => match v with JObj _ => false | _ => true end) items with
  | Some v => v
  | None => JNull
  end.

(** [_parse_structured_response] from the parsed [response_data] on;
    [Raise] is the [HTTPException(500)] of its generic [except], whose
    detail carries [str(e)] of the exception caught: [response_data.keys()]
    or [concept.keys()] on a value that is not a dict, [len] of a value
    without one, or [re.sub] on a summary that is not a string (the
    message of Python 3.12). *)
Definition parse_response_data (response_data : json)
    : Orchestrator.outcome json :=
  let fail msg :=
    Orchestrator.Raise (Orchestrator.HTTPException 500
                          ("Error parsing response: " ++ msg)) in
  let no_keys v := "'" ++ PyJson.type_name v ++ "' object has no attribute 'keys'" in
  match response_data with
  | JObj rd0 =>
      (* summary cleaning *)
      let rd1 :=
        match Json.get rd0 "conversation_summary" with
        | Some v =>
            if Json.truthy v then
              match v with
              | JStr s =>
                  let cleaned := clean_summary s in
                  Some (Json.set (Json.set rd0 "conversation_summary" (JStr cleaned))
                          "summary" (JStr cleaned))
              | _ => None
              end
            else Some rd0
        | None => Some rd0
        end in
      match rd1 with
      | None =>
          fail ("expected string or bytes-like object, got '" ++
                PyJson.type_name (Json.get_or rd0 "conversation_summary" JNull) ++ "'")
      | Some rd1 =>
          let rd := if Json.has rd1 "concepts" then rd1
                    else Json.set rd1 "concepts" (JArr []) in
          let raw := Json.get_or rd "concepts" (JArr []) in
          match PyJson.len raw, PyJson.iter raw with
          | Some raw_count, Some items =>
              let cs := Json.get_or rd "conversation_summary" (JStr "") in
              match process_concepts cs items with
              | None => fail (no_keys (first_non_dict items))
              | Some processed =>
                  let summary := Json.get_or rd "conversation_summary"
                                   (Json.get_or rd "summary" (JStr "")) in
                  let n := List.length processed in
                  Orchestrator.Ok (JObj [
                    ("concepts", JArr processed);
                    ("summary", summary);
                    ("conversation_summary", summary);
                    ("metadata", JObj [
                       ("extraction_time", JStr now);
                       ("model_used", JStr model);
                       ("concept_count", JNum (inject_Z (Z.of_nat n)));
                       ("raw_concept_count", JNum (inject_Z (Z.of_nat raw_count)));
                       ("processing_success_rate",
                        JNum (inject_Z (Z.of_nat n) /
                              inject_Z (Z.of_nat (Nat.max raw_count 1))))])])
              end
          | _, _ =>
              fail ("object of type '" ++ PyJson.type_name raw ++ "' has no len()")
          end
      end
  | _ => fail (no_keys response_data)
  end.

(** [_parse_structured_response(response_text)]: strip a Markdown fence,
    parse with [json_loads] ([None] is a [JSONDecodeError], which routes
    to [_fallback_extraction]). *)
Definition parse_structured_response (json_loads : string -> option json)
    (response_text : string) : Orchestrator.outcome json :=
  let t0 := Py.strip response_text in
  let t1 := if String.prefix "```json" t0
            then substring 7 (String.length t0 - 7) t0 else t0 in
  let t2 := if String.prefix "```" (Py.rev_str t1 "")
            then substring 0 (String.length t1 - 3) t1 else t1 in
  match json_loads t2 with
  | None => Orchestrator.Ok (Fallback.fallback_extraction now response_text)
  | Some response_data => parse_response_data response_data
  end.

End WithClock.

End Normalizer.

(** * Title deduplication in [analyze_conversation]

    Both paths of [analyze_conversation] collect the concepts into a dict
    [unique_concepts] keyed by [concept["title"]] and return its values.
    The dedup reads three things of a concept: its title, its
    [concept.get("confidence_score", 0)] and [len(concept.get("codeSnippets", []))];
    the concepts are modelled by these three fields plus the rest of the
    dict, which the dedup carries along unchanged. *)
Module Dedup.

Record concept := mkConcept {
  title : string;
  confidence_score : Q;   (* concept.get("confidence_score", 0) *)
  code_snippets : nat;    (* len(concept.get("codeSnippets", [])) *)
  rest : list (string * json)
}.

(** A Python dict keyed by title, in insertion order: assigning an
    existing key keeps its position. *)
Abbreviation dict := (list (string * concept)).

(** Python's [x > y] on the confidence scores. *)
Definition q_gt (x y : Q) : bool := negb (Qle_bool x y).

Fixpoint lookup (d : dict) (k : string) : option concept :=
  match d with
  | [] => None
  | (k', v) :: d' => if String.eqb k k' then Some v else lookup d' k
  end.

Fixpoint dict_set (d : dict) (k : string) (v : concept) : dict :=
  match d with
  | [] => [(k, v)]
  | (k', v') :: d' =>
      if String.eqb k k' then (k, v) :: d' else (k', v') :: dict_set d' k v
  end.

(** Single-pass path, lines 1986-1996:
    [if title_key not in unique_concepts or
        concept.get("confidence_score", 0) > unique_concepts[title_key].get("confidence_score", 0):
        unique_concepts[title_key] = concept] *)
Definition single_pass_step (d : dict) (c : concept) : dict :=
  match lookup d (title c) with
  | None => dict_set d (title c) c
  | Some existing =>
      if q_gt (confidence_score c) (confidence_score existing)
      then dict_set d (title c) c else d
  end.

Definition single_pass_dedup (cs : list concept) : list concept :=
  map snd (fold_left single_pass_step cs []).

(** Multi-pass path, lines 2262-2276: replace on a greater confidence, or on
    an equal confidence with more code snippets. *)
Definition multi_pass_step (d : dict) (c : concept) : dict :=
  match lookup d (title c) with
  | Some existing =>
      if q_gt (confidence_score c) (confidence_score existing)
      then dict_set d (title c) c
      else if Qeq_bool (confidence_score c) (confidence_score existing) &&
              Nat.ltb (code_snippets existing) (code_snippets c)
      then dict_set d (title c) c
      else d
  | None => dict_set d (title c) c
  end.

Definition multi_pass_dedup (cs : list concept) : list concept :=
  map snd (fold_left multi_pass_step cs []).

(** The rule as the specification words it: group by exact title, keep the
    concept with the highest confidence, ties broken by the greater
    code-snippet count.  [better c o]: [c] would win over [o]. *)
Definition better (c o : concept) : bool :=
  q_gt (confidence_score c) (confidence_score o) ||
  (Qeq_bool (confidence_score c) (confidence_score o) &&
   Nat.ltb (code_snippets o) (code_snippets c)).

Definition dedup_rule (cs out : list concept) : Prop :=
  NoDup (map title out) /\
  (forall o, In o out -> In o cs) /\
  (forall c, In c cs ->
     exists o, In o out /\ title o = title c /\ better c o = false).

End Dedup.

(** * Post-processing of the single-pass result in [analyze_conversation]

    Lines 1999-2135: the technique mini-concepts, the case-insensitive
    de-duplication of [relatedConcepts], and the LeetCode re-categorisation
    with its back-links.  The input is the list [concepts] after the title
    de-duplication ([Dedup.single_pass_dedup]).  The concepts are dicts
    shared by reference between [concepts] and the loops, and the loops
    mutate them in place: the model keeps the list of dicts as a state and
    updates it by index.  An exception raised here leaves
    [analyze_conversation] through its [except], which re-raises it as an
    [HTTPException(500)]. *)
Module SinglePass.

Abbreviation dict := (list (string * json)).
Abbreviation outcome := Orchestrator.outcome.

Definition bind {A B} (m : outcome A) (f : A -> outcome B) : outcome B :=
  match m with
  | Orchestrator.Ok v => f v
  | Orchestrator.Raise e => Orchestrator.Raise e
  end.

Local Notation "'let?' x ':=' m 'in' f" := (bind m (fun x => f))
  (at level 200, x name, m at level 100, f at level 200).

Definition ret {A} (v : A) : outcome A := Orchestrator.Ok v.

(** Python's type names, for the exception messages. *)
Definition type_name (v : json) : string := PyJson.type_name v.

Definition attr_error (v : json) (attr : string) : Orchestrator.error :=
  Orchestrator.OtherException "AttributeError"
    ("'" ++ type_name v ++ "' object has no attribute '" ++ attr ++ "'").

Definition key_error (k : string) : Orchestrator.error :=
  Orchestrator.OtherException "KeyError" ("'" ++ k ++ "'").

Definition type_error (msg : string) : Orchestrator.error :=
  Orchestrator.OtherException "TypeError" msg.

(** [concept["k"]] on an element of [concepts]. *)
Definition as_dict (v : json) : outcome dict :=
  match v with
  | JObj d => ret d
  | JArr _ => Orchestrator.Raise (type_error "list indices must be integers or slices, not str")
  | JStr _ => Orchestrator.Raise (type_error "string indices must be integers, not 'str'")
  | _ => Orchestrator.Raise (type_error ("'" ++ type_name v ++ "' object is not subscriptable"))
  end.

Definition getitem (d : dict) (k : string) : outcome json :=
  match Json.get d k with
  | Some v => ret v
  | None => Orchestrator.Raise (key_error k)
  end.

(** [v.lower()]. *)
Definition py_lower (v : json) : outcome string :=
  match v with
  | JStr s => ret (Py.lower s)
  | _ => Orchestrator.Raise (attr_error v "lower")
  end.

(** [for x in v]. *)
Definition py_iter (v : json) : outcome (list json) :=
  match PyJson.iter v with
  | Some l => ret l
  | None => Orchestrator.Raise (type_error ("'" ++ type_name v ++ "' object is not iterable"))
  end.

(** [v.get(k, dflt)] where [v] may be any value. *)
Definition get_method (v : json) (k : string) (dflt : json) : outcome json :=
  match v with
  | JObj d => ret (Json.get_or d k dflt)
  | _ => Orchestrator.Raise (attr_error v "get")
  end.

Fixpoint fold_m {A B} (f : A -> B -> outcome A) (l : list B) (a : A) : outcome A :=
  match l with
  | [] => ret a
  | x :: l' => let? a' := f a x in fold_m f l' a'
  end.

(** [str.istitle()] on ASCII text. *)
Fixpoint istitle_aux (s : string) (prev_cased seen_cased : bool) : bool :=
  match s with
  | EmptyString => seen_cased
  | String c t =>
      if Py.is_upper c then
        if prev_cased then false else istitle_aux t true true
      else if Py.is_lower c then
        if prev_cased then istitle_aux t true true else false
      else istitle_aux t false seen_cased
  end.

Definition istitle (s : string) : bool := istitle_aux s false false.

(** [str.split()] with no separator: the maximal runs of non-whitespace. *)
Fixpoint split_ws_aux (s cur : string) : list string :=
  match s with
  | EmptyString => if String.eqb cur "" then [] else [cur]
  | String c t =>
      if Py.is_space c then
        if String.eqb cur "" then split_ws_aux t ""
        else cur :: split_ws_aux t ""
      else split_ws_aux t (String.append cur (String c EmptyString))
  end.

Definition split_ws (s : string) : list string := split_ws_aux s "".

(** [techniques.add(x)] on a set of strings, kept in insertion order. *)
Definition set_add (s : list string) (x : string) : list string :=
  if Py.mem x s then s else (s ++ [x])%list.

(** [x not in [...]] for a string [x] and a list of string literals. *)
Definition not_in (x : string) (xs : list string) : bool := negb (Py.mem x xs).

Section Enrichment.

(** [self._get_technique_info(technique, concept["title"])]: description,
    key points and implementation text. *)
Variable get_technique_info : string -> json -> json * json * json.
(** [self._get_technique_complexity(technique, kind)]. *)
Variable get_technique_complexity : string -> string -> json.
(** The order in which [for technique in techniques] visits the set, given
    its elements in insertion order (string hashing is randomised per
    process). *)
Variable set_iter : list string -> list string.
(** [datetime.now().isoformat()]. *)
Variable now : string.

Definition is_problem (c : dict) : outcome bool :=
  let? t := getitem c "title" in
  let? tl := py_lower t in
  if Py.contains "problem" tl then ret true else
  let? cat := getitem c "category" in
  let? cl := py_lower cat in
  ret (Py.mem cl ["problem-solving"; "algorithm"; "leetcode"; "coding challenge"]).

Definition from_point (techniques : list string) (point : json) : outcome (list string) :=
  let? pl := py_lower point in
  ret (if Py.any_in ["hash"; "dictionary"; "map"] pl then set_add techniques "Hash Table"
       else if Py.contains "frequency" pl || Py.contains "count" pl
       then set_add techniques "Frequency Counting"
       else if Py.contains "pointer" pl then set_add techniques "Two Pointer Technique"
       else if Py.contains "window" pl then set_add techniques "Sliding Window"
       else techniques).

Definition from_subcat (techniques : list string) (subcat : json) : outcome (list string) :=
  let? sl := py_lower subcat in
  ret (if Py.contains "hash" sl || Py.contains "dict" sl then set_add techniques "Hash Table"
       else if Py.contains "frequency" sl || Py.contains "count" sl
       then set_add techniques "Frequency Counting"
       else techniques).

Definition from_ds (techniques : list string) (ds : json) : outcome (list string) :=
  let? dl := py_lower ds in
  match ds with
  | JStr d =>
      ret (if Py.contains "dictionary" dl then set_add techniques "Hash Table"
           else if not_in d ["Array"; "List"; "String"; "Integer"] then set_add techniques d
           else techniques)
  | _ => ret techniques  (* unreachable: [ds.lower()] succeeded *)
  end.

Definition from_algo (techniques : list string) (algo : json) : outcome (list string) :=
  let? al := py_lower algo in
  match algo with
  | JStr a =>
      ret (if Py.mem al ["frequency count"; "frequency counting"]
           then set_add techniques "Frequency Count"
           else if not_in a ["Iteration"; "Loop"] then set_add techniques a
           else techniques)
  | _ => ret techniques  (* unreachable: [algo.lower()] succeeded *)
  end.

(** The set [techniques] of a problem concept. *)
Definition collect_techniques (c : dict) : outcome (list string) :=
  let? points := py_iter (Json.get_or c "keyPoints" (JArr [])) in
  let? ts := fold_m from_point points [] in
  let? subcats := py_iter (Json.get_or c "subcategories" (JArr [])) in
  let? ts := fold_m from_subcat subcats ts in
  let? dss := get_method (Json.get_or c "relationships" (JObj [])) "dataStructures" (JArr []) in
  let? dss := py_iter dss in
  let? ts := fold_m from_ds dss ts in
  let? algos := get_method (Json.get_or c "relationships" (JObj [])) "algorithms" (JArr []) in
  let? algos := py_iter algos in
  fold_m from_algo algos ts.

Definition tech_concept (title : json) (technique : string) : dict :=
  let tl := Py.lower technique in
  let '(tech_description, tech_key_points, tech_implementation) :=
    get_technique_info technique title in
  [("title", JStr technique);
   ("category", JStr (if Py.mem tl ["hash table"; "dictionary"; "array"; "set"]
                      then "Data Structure" else "Algorithm Technique"));
   ("subcategories", JArr [title]);
   ("summary", tech_description);
   ("details", JObj [
      ("implementation", tech_implementation);
      ("complexity", JObj [
         ("time", get_technique_complexity technique "time");
         ("space", get_technique_complexity technique "space")]);
      ("useCases", JArr [JStr ("Solving " ++ PyJson.str title);
                         JStr "Efficient data retrieval"; JStr "Deduplication"])]);
   ("keyPoints", tech_key_points);
   ("confidence_score", JNum (7 # 10));
   ("last_updated", JStr now);
   ("_is_technique", JBool true);
   ("relatedConcepts", JArr [title])].

(** [not any(t["title"].lower() == technique.lower() for t in techniques_to_add)];
    the titles there are the strings [tech_concept] put in. *)
Definition already_added (to_add : list dict) (technique : string) : bool :=
  existsb (fun t => match Json.get t "title" with
                    | Some (JStr s) => String.eqb (Py.lower s) (Py.lower technique)
                    | _ => false
                    end) to_add.

Definition add_technique (title : json) (to_add : list dict) (technique : string)
    : list dict :=
  if Py.mem (Py.lower technique)
       ["array"; "list"; "string"; "integer"; "iteration"; "loop"]
  then to_add
  else if already_added to_add technique then to_add
  else (to_add ++ [tech_concept title technique])%list.

(** One iteration of [for concept in main_concepts]: the dicts seen so far
    and [techniques_to_add]. *)
Definition enrich_step (acc : list dict * list dict) (v : json)
    : outcome (list dict * list dict) :=
  let '(main, to_add) := acc in
  let? c := as_dict v in
  let? p := is_problem c in
  if p then
    let? techniques := collect_techniques c in
    let title := Json.get_or c "title" JNull in
    ret ((main ++ [c])%list, fold_left (add_technique title) (set_iter techniques) to_add)
  else ret ((main ++ [c])%list, to_add).

End Enrichment.

(** [seen = set(); [x for x in xs if not (x.lower() in seen or seen.add(x.lower()))]]. *)
Definition dedup_ci_step (acc : list string * list json) (x : json)
    : outcome (list string * list json) :=
  let '(seen, kept) := acc in
  let? xl := py_lower x in
  if Py.mem xl seen then ret (seen, kept) else ret ((seen ++ [xl])%list, (kept ++ [x])%list).

Definition dedup_related (c : dict) : outcome dict :=
  match Json.get c "relatedConcepts" with
  | None => ret c
  | Some rel =>
      let? xs := py_iter rel in
      let? r := fold_m dedup_ci_step xs ([], []) in
      ret (Json.set c "relatedConcepts" (JArr (snd r)))
  end.

Fixpoint map_m {A B} (f : A -> outcome B) (l : list A) : outcome (list B) :=
  match l with
  | [] => ret []
  | x :: l' => let? y := f x in let? ys := map_m f l' in ret (y :: ys)
  end.

(** [is_likely_leetcode]; [summary.lower()] is only reached when the title
    test fails. *)
Definition is_likely_leetcode (title : string) (summary : json) : outcome bool :=
  let words := split_ws title in
  if (List.length words <=? 4)%nat && existsb istitle words then ret true else
  let? sl := py_lower summary in
  ret (Py.any_in ["leetcode"; "problem"; "algorithm"; "solution"; "approach";
                  "time complexity"; "space complexity"; "optimization"] sl
       || Py.contains "interview" sl || Py.contains "challenge" sl).

Definition nth_dict (cs : list dict) (k : nat) : dict := nth k cs [].

(** [concept["title"] not in related_concept["relatedConcepts"]], then the
    append, for the related concept at index [k]; [title] is
    [concept["title"]]. *)
Definition link_back (title : string) (cs : list dict) (k : nat) : outcome (list dict) :=
  let rc := nth_dict cs k in
  let rc := if Json.has rc "relatedConcepts" then rc
            else Json.set rc "relatedConcepts" (JArr []) in
  match Json.get_or rc "relatedConcepts" JNull with
  | JArr l =>
      if existsb (fun x => PyJson.eq_str x title) l then ret (<[k := rc]> cs)
      else ret (<[k := Json.set rc "relatedConcepts" (JArr (l ++ [JStr title])%list)]> cs)
  | JStr h =>
      if Py.contains title h then ret (<[k := rc]> cs)
      else Orchestrator.Raise (attr_error (JStr h) "append")
  | JObj d =>
      if Json.has d title then ret (<[k := rc]> cs)
      else Orchestrator.Raise (attr_error (JObj d) "append")
  | v => Orchestrator.Raise (type_error ("argument of type '" ++ type_name v ++ "' is not iterable"))
  end.

(** The inner loop [for related_concept in concepts] for one
    [related_title]. *)
Definition link_step (title : string) (related_title : json) (cs : list dict) (k : nat)
    : outcome (list dict) :=
  let? rt := getitem (nth_dict cs k) "title" in
  let? rtl := py_lower rt in
  let? relt := py_lower related_title in
  if String.eqb rtl relt then link_back title cs k else ret cs.

(** [for related_title in concept["relatedConcepts"]]: Python's list
    iterator reads the current list at index [j] on each step, so an
    append to the concept's own list (a self link) is visited.  Only
    [title] is ever appended, and only when absent, so the list grows by at
    most one element; [fuel] is its initial length plus one. *)
Fixpoint back_links (fuel : nat) (i : nat) (title : string) (j : nat) (cs : list dict)
    : outcome (list dict) :=
  match fuel with
  | O => ret cs
  | S fuel' =>
      let? items := py_iter (Json.get_or (nth_dict cs i) "relatedConcepts" JNull) in
      match nth_error items j with
      | None => ret cs
      | Some related_title =>
          let? cs' := fold_m (link_step title related_title) (seq 0 (List.length cs)) cs in
          back_links fuel' i title (S j) cs'
      end
  end.

(** One iteration of the LeetCode loop, on the concept at index [i]. *)
Definition leetcode_step (cs : list dict) (i : nat) : outcome (list dict) :=
  let c := nth_dict cs i in
  let? t := getitem c "title" in
  let summary := Json.get_or c "summary" (JStr "") in
  match t with
  | JStr title =>
      let? likely := is_likely_leetcode title summary in
      if likely then
        let? cat := getitem c "category" in
        if PyJson.eq_str cat "LeetCode Problems" then ret cs else
        let c' := Json.set c "category" (JStr "LeetCode Problems") in
        let cs1 := <[i := c']> cs in
        let rel := Json.get_or c' "relatedConcepts" JNull in
        if Json.has c' "relatedConcepts" && Json.truthy rel then
          let? items := py_iter rel in
          back_links (S (List.length items)) i title 0 cs1
        else ret cs1
      else ret cs
  | _ => Orchestrator.Raise (attr_error t "split")
  end.

(** The concepts of the returned [single_pass_result], from the
    de-duplicated list. *)
Definition post_process (get_technique_info : string -> json -> json * json * json)
    (get_technique_complexity : string -> string -> json)
    (set_iter : list string -> list string) (now : string)
    (concepts : list json) : outcome (list json) :=
  let? acc := fold_m (enrich_step get_technique_info get_technique_complexity set_iter now)
                concepts ([], []) in
  let '(main, to_add) := acc in
  let cs := (main ++ firstn 3 to_add)%list in
  let? cs := map_m dedup_related cs in
  let? cs := fold_m leetcode_step (seq 0 (List.length cs)) cs in
  ret (map JObj cs).

End SinglePass.

(** * [standardize_response_format] (api/v1)

    [result.copy()] is a shallow copy: the list [standardized["concepts"]]
    is the caller's list, and the loop writes the standardized concepts
    into it.  The model returns the standardized dict; the write-back into
    a shared list is not modelled. *)
Module Standardize.

Abbreviation dict := (list (string * json)).
Abbreviation outcome := Orchestrator.outcome.

Local Notation "'let?' x ':=' m 'in' f" := (SinglePass.bind m (fun x => f))
  (at level 200, x name, m at level 100, f at level 200).

Definition default_summary : string := "Discussion about programming concepts".

(** The first block: make both summaries present. *)
Definition ensure_summaries (s : dict) : dict :=
  if negb (Json.has s "conversation_summary") && Json.has s "summary" then
    Json.set s "conversation_summary" (Json.get_or s "summary" JNull)
  else if negb (Json.has s "summary") && Json.has s "conversation_summary" then
    Json.set s "summary" (Json.get_or s "conversation_summary" JNull)
  else if negb (Json.has s "conversation_summary") && negb (Json.has s "summary") then
    Json.set (Json.set s "conversation_summary" (JStr default_summary))
      "summary" (JStr default_summary)
  else s.

(** [["title" in c]] for an element [c] of the concepts. *)
Definition title_in (c : json) : outcome bool :=
  match c with
  | JObj d => SinglePass.ret (Json.has d "title")
  | JArr l => SinglePass.ret (existsb (fun x => PyJson.eq_str x "title") l)
  | JStr s => SinglePass.ret (Py.contains "title" s)
  | _ => Orchestrator.Raise (SinglePass.type_error
           ("argument of type '" ++ SinglePass.type_name c ++ "' is not iterable"))
  end.

(** [[c.get("title", "") for c in concepts if "title" in c]]. *)
Fixpoint concept_titles (cs : list json) : outcome (list json) :=
  match cs with
  | [] => SinglePass.ret []
  | c :: rest =>
      let? b := title_in c in
      if b then
        let? t := SinglePass.get_method c "title" (JStr "") in
        let? ts := concept_titles rest in
        SinglePass.ret (t :: ts)
      else concept_titles rest
  end.

Definition title_from_titles (ts : list json) : string :=
  match ts with
  | [t] => "Discussion about " ++ PyJson.str t
  | [t0; t1] => PyJson.str t0 ++ " and " ++ PyJson.str t1 ++ " Discussion"
  | t0 :: t1 :: _ :: _ => PyJson.str t0 ++ ", " ++ PyJson.str t1 ++ " & More"
  | [] => "Programming Discussion"
  end.

(** [len(v)] and [v[:n]], raising [TypeError] where Python does. *)
Definition py_len (v : json) : outcome nat :=
  match PyJson.len v with
  | Some n => SinglePass.ret n
  | None => Orchestrator.Raise (SinglePass.type_error
              ("object of type '" ++ SinglePass.type_name v ++ "' has no len()"))
  end.

Definition py_slice (n : nat) (v : json) : outcome json :=
  match Normalizer.py_slice n v with
  | Some r => SinglePass.ret r
  | None =>
      match v with
      | JObj _ => Orchestrator.Raise (SinglePass.type_error "unhashable type: 'slice'")
      | _ => Orchestrator.Raise (SinglePass.type_error
               ("'" ++ SinglePass.type_name v ++ "' object is not subscriptable"))
      end
  end.

(** The second block: the [conversation_title]. *)
Definition ensure_title (s : dict) : outcome dict :=
  if Json.has s "conversation_title" then SinglePass.ret s else
  let concepts := Json.get_or s "concepts" JNull in
  if Json.has s "concepts" && Json.truthy concepts then
    let? items := SinglePass.py_iter concepts in
    let? ts := concept_titles items in
    SinglePass.ret (Json.set s "conversation_title" (JStr (title_from_titles ts)))
  else
    let summary := Json.get_or s "conversation_summary" (JStr "") in
    if Json.truthy summary then
      let? n := py_len summary in
      if (50 <? n)%nat then
        let? head := py_slice 40 summary in
        SinglePass.ret (Json.set s "conversation_title"
                          (JStr ("Topic: " ++ PyJson.str head ++ "...")))
      else
        SinglePass.ret (Json.set s "conversation_title"
                          (JStr ("Topic: " ++ PyJson.str summary)))
    else SinglePass.ret (Json.set s "conversation_title" (JStr "Programming Discussion")).

(** The [details] of a standardized concept: the first truthy of
    [details], [implementation], [insights], else [""]. *)
Definition details_content (c : dict) : json :=
  let d := Json.get_or c "details" JNull in
  let i := Json.get_or c "implementation" JNull in
  let n := Json.get_or c "insights" JNull in
  if Json.truthy d then d
  else if Json.truthy i then i
  else if Json.truthy n then n
  else JStr "".

(** The default of [keyTakeaway], evaluated whether or not the concept has
    a [keyTakeaway]: [summary[:100] + "..."] when the summary is truthy. *)
Definition key_takeaway_default (c : dict) : outcome json :=
  let summary := Json.get_or c "summary" (JStr "") in
  if Json.truthy summary then
    let? head := py_slice 100 summary in
    match head with
    | JStr h => SinglePass.ret (JStr (h ++ "..."))
    | _ => Orchestrator.Raise (SinglePass.type_error
             ("can only concatenate " ++ SinglePass.type_name head ++ " (not 'str') to "
              ++ SinglePass.type_name head))
    end
  else SinglePass.ret (JStr "Key concept for understanding.").

Definition practical_tips : json :=
  JArr [JStr "Review the key points regularly"; JStr "Practice with examples";
        JStr "Connect to related concepts"].

(** [required_fields] for the concept at index [i]. *)
Definition required_fields (i : nat) (c : dict) : outcome dict :=
  let? kt := key_takeaway_default c in
  SinglePass.ret [
    ("title", Json.get_or c "title"
                (JStr ("Concept " ++ PyJson.n_to_string (N.of_nat (S i)))));
    ("category", Json.get_or c "category" (JStr "General"));
    ("summary", Json.get_or c "summary" (JStr ""));
    ("keyPoints", Json.get_or c "keyPoints" (JArr []));
    ("details", details_content c);
    ("relatedConcepts", Json.get_or c "relatedConcepts" (JArr []));
    ("confidence_score", Json.get_or c "confidence_score" (JNum (4 # 5)));
    ("keyTakeaway", Json.get_or c "keyTakeaway" kt);
    ("analogy", Json.get_or c "analogy"
                  (JStr "Like a fundamental building block in programming."));
    ("practicalTips", Json.get_or c "practicalTips" practical_tips)].

(** [{**a, **b}]. *)
Definition merge (a b : dict) : dict :=
  fold_left (fun d kv => Json.set d (fst kv) (snd kv)) b a.

(** One iteration of the concept loop. *)
Definition standardize_concept (i : nat) (v : json) : outcome json :=
  match v with
  | JObj c =>
      let? req := required_fields i c in
      SinglePass.ret (JObj (merge c req))
  | _ => Orchestrator.Raise (SinglePass.attr_error v "get")
  end.

Fixpoint standardize_concepts (i : nat) (cs : list json) : outcome (list json) :=
  match cs with
  | [] => SinglePass.ret []
  | c :: rest =>
      let? c' := standardize_concept i c in
      let? rest' := standardize_concepts (S i) rest in
      SinglePass.ret (c' :: rest')
  end.

Section WithClock.

(** [datetime.now().isoformat()]. *)
Variable now : string.

(** [standardize_response_format]. *)
Definition standardize_response_format (result : dict) : outcome dict :=
  let s1 := ensure_summaries result in
  let? s2 := ensure_title s1 in
  let s3 := match Json.get s2 "concepts" with
            | Some (JArr _) => s2
            | _ => Json.set s2 "concepts" (JArr [])
            end in
  let items := match Json.get_or s3 "concepts" JNull with JArr l => l | _ => [] end in
  let? items' := standardize_concepts 0 items in
  let s4 := Json.set s3 "concepts" (JArr items') in
  if Json.has s4 "metadata" then SinglePass.ret s4
  else SinglePass.ret (Json.set s4 "metadata" (JObj [
         ("extraction_time", JStr now);
         ("model_used", JStr "standardized");
         ("concept_count", JNum (inject_Z (Z.of_nat (List.length items'))))])).

End WithClock.

End Standardize.

(** * [_detect_domain_type] *)
Module Domain.

(** The two keyword sets; their elements are distinct, so counting the
    members found in the text does not depend on the set order. *)
Definition technical_keywords : list string :=
  ["code"; "programming"; "algorithm"; "function"; "variable"; "api"; "database";
   "framework"; "library"; "javascript"; "python"; "react"; "sql"; "html"; "css";
   "leetcode"; "dsa"; "data structure"; "backend"; "frontend"; "server"; "client";
   "debugging"; "software"; "development"; "git"; "deployment"; "testing"; "method";
   "class"; "object"; "array"; "string"; "integer"; "boolean"; "json"; "xml";
   "aws"; "cloud"; "docker"; "kubernetes"; "microservice"; "optimization"].

Definition non_technical_keywords : list string :=
  ["investment"; "finance"; "stock"; "money"; "budget"; "savings"; "portfolio";
   "psychology"; "behavior"; "mental health"; "therapy"; "mindset"; "emotions";
   "business"; "strategy"; "management"; "marketing"; "leadership"; "sales";
   "health"; "nutrition"; "fitness"; "diet"; "exercise"; "wellness"; "medical";
   "education"; "learning"; "teaching"; "study"; "academic"; "school";
   "philosophy"; "ethics"; "history"; "politics"; "economics"; "culture";
   "travel"; "lifestyle"; "personal development"; "relationships"; "family"].

(** [sum(1 for keyword in keywords if keyword in text_lower)]. *)
Definition score (keywords : list string) (text_lower : string) : nat :=
  List.length (List.filter (fun k => Py.contains k text_lower) keywords).

(** The keyword decision; [None] when it is inconclusive. *)
Definition keyword_decision (technical_score non_technical_score : nat) : option string :=
  if (3 <=? technical_score)%nat && (non_technical_score <=? 1)%nat then Some "TECHNICAL"
  else if (2 <=? non_technical_score)%nat && (technical_score <=? 1)%nat then Some "NON_TECHNICAL"
  else if (2 <=? technical_score)%nat && (2 <=? non_technical_score)%nat then Some "MIXED"
  else None.

(** [_detect_domain_type]: [llm] is the content of the model's reply, or
    the exception the call (or reading a [None] content) raises.  Also
    returns whether the model was called. *)
Definition detect_domain_type (llm : Orchestrator.outcome string)
    (conversation_text : string) : string * bool :=
  let text_lower := Py.lower conversation_text in
  let t := score technical_keywords text_lower in
  let n := score non_technical_keywords text_lower in
  match keyword_decision t n with
  | Some d => (d, false)
  | None =>
      match llm with
      | Orchestrator.Ok content =>
          let domain_type := Py.upper (Py.strip content) in
          if Py.mem domain_type ["TECHNICAL"; "NON_TECHNICAL"; "MIXED"]
          then (domain_type, true) else ("TECHNICAL", true)
      | Orchestrator.Raise _ => ("TECHNICAL", true)
      end
  end.

End Domain.

(** * [CategoryLearning.get_learning_stats] *)
Module LearningStats.

(** [self.learned_mappings[k]]. *)
Fixpoint lookup (d : Learning.store) (k : string) : option Learning.entry :=
  match d with
  | [] => None
  | (k', e) :: t => if String.eqb k k' then Some e else lookup t k
  end.

(** [category_counts[cat] = category_counts.get(cat, 0) + 1], a dict in
    insertion order. *)
Fixpoint count_add (counts : list (string * nat)) (cat : string) : list (string * nat) :=
  match counts with
  | [] => [(cat, 1%nat)]
  | (k, n) :: t =>
      if String.eqb cat k then (k, S n) :: t else (k, n) :: count_add t cat
  end.

Definition category_counts (d : Learning.store) : list (string * nat) :=
  fold_left count_add (map (fun kv => Learning.new_category (snd kv)) d) [].

(** Python's [max] on strings (code-point order). *)
Fixpoint str_max (acc : string) (xs : list string) : string :=
  match xs with
  | [] => acc
  | x :: t => str_max (if String.ltb acc x then x else acc) t
  end.

Section WithTimestamps.

(** The [updated_at] stored with the entry under each key (the entry
    record keeps only the fields the lookups read). *)
Variable updated_at : string -> string.

(** [get_learning_stats]; an empty store yields [categories] as an empty
    list, a non-empty one as a dict of counts. *)
Definition get_learning_stats (d : Learning.store) : json :=
  match d with
  | [] => JObj [("total_mappings", JNum 0); ("categories", JArr [])]
  | (k0, _) :: rest =>
      JObj [("total_mappings", JNum (inject_Z (Z.of_nat (List.length d))));
            ("categories", JObj (map (fun kn => (fst kn, JNum (inject_Z (Z.of_nat (snd kn)))))
                                     (category_counts d)));
            ("last_update", JStr (str_max (updated_at k0) (map (fun kv => updated_at (fst kv)) rest)))]
  end.

End WithTimestamps.

End LearningStats.

(* ================================================================== *)
(** * Properties *)

(** ** Helper facts *)

Lemma mem_In (x : string) (xs : list string) : Py.mem x xs = true <-> In x xs.
Proof.
  unfold Py.mem. rewrite existsb_exists. split.
  - intros [y [Hy Heq]]. apply String.eqb_eq in Heq. subst. exact Hy.
  - intros H. exists x. split; [exact H | apply String.eqb_refl].
Qed.

Lemma find_none_forall {A} (f : A -> bool) (l : list A) :
  (forall x, In x l -> f x = false) -> find f l = None.
Proof.
  induction l as [|a l IH]; intros H; simpl; [reflexivity|].
  rewrite (H a (or_introl eq_refl)). apply IH. intros x Hx. apply H. now right.
Qed.

Lemma suggest_after_set (d : Learning.store) (k : string) (v : Learning.entry)
    (content : string) :
  Forall (fun kv => Learning.entry_matches (snd kv) content = false) d ->
  Learning.entry_matches v content = true ->
  Learning.suggest_category_from_learning (Learning.dict_set d k v) content =
    Some (Learning.new_category v).
Proof.
  induction d as [|[k' v'] d IH]; intros Hall Hv; simpl.
  - rewrite Hv. reflexivity.
  - inversion Hall as [|? ? Hhd Htl]; subst. simpl in Hhd.
    destruct (String.eqb k k'); simpl.
    + rewrite Hv. reflexivity.
    + rewrite Hhd. apply IH; assumption.
Qed.

Lemma suggest_after_set_before (d : Learning.store) (k : string)
    (v : Learning.entry) (content : string) :
  Forall (fun kv => Learning.entry_matches (snd kv) content = false)
    (Learning.entries_before k d) ->
  Learning.entry_matches v content = true ->
  Learning.suggest_category_from_learning (Learning.dict_set d k v) content =
    Some (Learning.new_category v).
Proof.
  induction d as [|[k' v'] d IH]; intros Hall Hv; simpl in *.
  - rewrite Hv. reflexivity.
  - destruct (String.eqb k k'); simpl.
    + rewrite Hv. reflexivity.
    + inversion Hall as [|? ? Hhd Htl]; subst. simpl in Hhd.
      rewrite Hhd. apply IH; assumption.
Qed.

Lemma length_lower (s : string) : String.length (Py.lower s) = String.length s.
Proof. induction s; simpl; congruence. Qed.

(** ** C8: a valid category is a fixed point of normalisation *)




(** ** C7: learned corrections in category resolution *)

(** C7 (corrected).  After [record_manual_update(snippet, old, new)], a
    later [_normalize_category(suggested, valid_categories)] returns [new]
    without any model call when: [suggested] is not empty and not
    ["UNCATEGORIZED"]; it matches no valid category exactly or
    case-insensitively; no keyword of the static map occurring in it maps
    to a valid category; the lower-cased stored preview (the first 100
    characters of [snippet]) is longer than 20 characters and shares at
    least two distinct words of four or more word characters with the
    lower-cased [suggested]; no stored mapping that comes before it in
    store order passes that overlap test (a mapping already stored under
    the same key keeps its position, a new key goes last); and [new] is a
    non-empty member of [valid_categories].  The text examined is the suggested category
    string itself. *)
Theorem learned_mapping_resolves (md5_hex16 : string -> string)
    (learned : Learning.store) (snippet old_cat new_cat suggested : string)
    (valid_categories : list string) :
  suggested <> "" ->
  Py.upper suggested <> "UNCATEGORIZED" ->
  (forall c, In c valid_categories -> Py.lower c <> Py.lower suggested) ->
  Category.keyword_lookup Category.category_mapping (Py.lower suggested)
    valid_categories = None ->
  Forall (fun kv => Learning.entry_matches (snd kv) suggested = false)
    (Learning.entries_before (md5_hex16 (Py.lower snippet)) learned) ->
  20 < String.length (Py.lower (Py.take 100 snippet)) ->
  2 <= Py.overlap_count (Py.words4 (Py.lower (Py.take 100 snippet)))
         (Py.words4 (Py.lower suggested)) ->
  new_cat <> "" -> In new_cat valid_categories ->
  Category.normalize_category
    (Learning.record_manual_update md5_hex16 learned snippet old_cat new_cat)
    suggested valid_categories = Some new_cat.
Proof.
  intros Hne Hup Hci Hkw Hothers Hlen Hov Hnew Hvalid.
  unfold Category.normalize_category.
  apply String.eqb_neq in Hne. apply String.eqb_neq in Hup. rewrite Hne, Hup.
  assert (Hmem : Py.mem suggested valid_categories = false).
  { destruct (Py.mem suggested valid_categories) eqn:E; [|reflexivity].
    apply mem_In in E. exfalso. exact (Hci _ E eq_refl). }
  rewrite Hmem.
  rewrite find_none_forall.
  2:{ intros c Hc. apply String.eqb_neq. exact (Hci c Hc). }
  rewrite Hkw.
  unfold Learning.record_manual_update.
  rewrite suggest_after_set_before; [|exact Hothers|].
  - cbn [Learning.new_category].
    apply String.eqb_neq in Hnew. rewrite Hnew.
    apply mem_In in Hvalid. rewrite Hvalid. reflexivity.
  - unfold Learning.entry_matches. cbn [Learning.content_preview].
    assert (Hpe : String.eqb (Py.lower (Py.take 100 snippet)) "" = false).
    { apply String.eqb_neq. intros E. rewrite E in Hlen. simpl in Hlen. lia. }
    rewrite Hpe. apply Nat.ltb_lt in Hlen. rewrite Hlen. cbn [negb andb].
    apply Nat.leb_le. exact Hov.
Qed.

(** A store where the snippet was recorded before, behind an unrelated
    short mapping: recording it again with a new category replaces the
    mapping in place. *)
Definition learned_before : Learning.store :=
  Learning.record_manual_update (fun s => s)
    [("k0", Learning.mkEntry "short note" "General" "Health")]
    "stock portfolio diversification strategies" "General" "Psychology".

Lemma learned_mapping_resolves_witness :
  Category.normalize_category
    (Learning.record_manual_update (fun s => s) learned_before
       "stock portfolio diversification strategies" "General" "Finance")
    "portfolio diversification plans" ["Finance"] = Some "Finance".
Proof.
  apply (learned_mapping_resolves (fun s => s) learned_before
           "stock portfolio diversification strategies" "General" "Finance"
           "portfolio diversification plans" ["Finance"]).
  - discriminate.
  - vm_compute. discriminate.
  - intros c [<-|[]]. vm_compute. discriminate.
  - vm_compute. reflexivity.
  - vm_compute. constructor; [vm_compute; reflexivity|constructor].
  - vm_compute. lia.
  - vm_compute. lia.
  - discriminate.
  - now left.
Defined.

(** C7 counterexample (Scenario D of the spec): after recording a
    correction of a "stock portfolio diversification" snippet to
    ["Finance"], the suggestion ["stock portfolio diversification"] shares
    three significant words with the stored preview, yet with the default
    category list the static keyword map (["stock"]) answers first, with
    ["Finance > Stock Analysis"]. *)
Lemma learned_mapping_shadowed_counterexample :
  let learned := Learning.record_manual_update (fun s => s) []
       "I am thinking about stock portfolio diversification strategies"
       "General" "Finance" in
  Learning.suggest_category_from_learning learned
    "stock portfolio diversification" = Some "Finance" /\
  In "Finance" Category.default_categories /\
  Category.normalize_category learned "stock portfolio diversification"
    Category.default_categories = Some "Finance > Stock Analysis".
Proof.
  split; [vm_compute; reflexivity|].
  split; [apply mem_In; vm_compute; reflexivity|].
  vm_compute. reflexivity.
Qed.

(** ** C2 and C10: the result cache *)

Section CacheFacts.

Import Orchestrator.

(** After a call that returns a result, the cache maps the request's key
    to that result. *)
Lemma analyze_ok_cached (md5_hex : string -> string) (Oracle : Type)
    (pipeline : Oracle -> request -> outcome json * nat)
    (c c1 : cache) (o : Oracle) (req : request) (r : json) (n : nat) :
  analyze_conversation md5_hex Oracle pipeline c o req = (Ok r, c1, n) ->
  c1 !! generate_cache_key md5_hex (conversation_text req) = Some r.
Proof.
  unfold analyze_conversation.
  destruct (c !! generate_cache_key md5_hex (conversation_text req))
    as [cached|] eqn:Hc.
  - destruct (Json.truthy cached).
    + intros H. inversion H; subst. exact Hc.
    + destruct (pipeline o req) as [[r'|e] n'];
        intros H; inversion H; subst; apply lookup_insert_eq.
  - destruct (pipeline o req) as [[r'|e] n'];
      intros H; inversion H; subst; apply lookup_insert_eq.
Qed.

(** A request whose key is cached with a truthy value is answered from
    the cache alone. *)
Lemma analyze_hit (md5_hex : string -> string) (Oracle : Type)
    (pipeline : Oracle -> request -> outcome json * nat)
    (c : cache) (o : Oracle) (req : request) (r : json) :
  c !! generate_cache_key md5_hex (conversation_text req) = Some r ->
  Json.truthy r = true ->
  analyze_conversation md5_hex Oracle pipeline c o req = (Ok r, c, 0).
Proof.
  intros Hc Ht. unfold analyze_conversation. rewrite Hc, Ht. reflexivity.
Qed.



End CacheFacts.


(** A concrete pipeline for the witnesses: the oracle says whether the
    model call fails in transport; otherwise one fixed result comes back.
    One model call either way. *)
Definition sample_result : json :=
  JObj [("concepts", JArr []); ("summary", JStr "s")].

Definition sample_pipeline (transport_fails : bool)
    (req : Orchestrator.request) : Orchestrator.outcome json * nat :=
  if transport_fails
  then (Orchestrator.Raise (Orchestrator.OtherException "APIConnectionError"
                              "Connection error."), 1)
  else (Orchestrator.Ok sample_result, 1).

Definition sample_request : Orchestrator.request :=
  Orchestrator.mkRequest "Contains Duplicate with a hash table" None None None.



(** C10.  The cache key is computed from [conversation_text] alone: once
    a request has returned a result [r], any later request with the same
    text, whatever its [context], [category_guidance] or [custom_api_key],
    is answered with [r] from the cache with zero model calls. *)
Theorem cache_ignores_other_fields (md5_hex : string -> string)
    (Oracle : Type)
    (pipeline : Oracle -> Orchestrator.request -> Orchestrator.outcome json * nat)
    (c c1 : Orchestrator.cache) (o1 o2 : Oracle)
    (req1 req2 : Orchestrator.request) (r : json) (n : nat) :
  Orchestrator.conversation_text req1 = Orchestrator.conversation_text req2 ->
  Orchestrator.analyze_conversation md5_hex Oracle pipeline c o1 req1 =
    (Orchestrator.Ok r, c1, n) ->
  Json.truthy r = true ->
  Orchestrator.analyze_conversation md5_hex Oracle pipeline c1 o2 req2 =
    (Orchestrator.Ok r, c1, 0).
Proof.
  intros Htext H1 Ht. apply analyze_hit; [|exact Ht].
  rewrite <- Htext. exact (analyze_ok_cached _ _ _ _ _ _ _ _ _ H1).
Qed.

Definition other_request : Orchestrator.request :=
  Orchestrator.mkRequest "Contains Duplicate with a hash table"
    (Some (JObj [("user", JStr "b")])) (Some (JObj [("mode", JStr "x")]))
    (Some "sk-other-key").

Lemma cache_ignores_other_fields_witness :
  Orchestrator.analyze_conversation (fun s => s) bool sample_pipeline
    (<["Contains Duplicate with a hash table" := sample_result]> ∅) true
    other_request =
    (Orchestrator.Ok sample_result,
     <["Contains Duplicate with a hash table" := sample_result]> ∅, 0).
Proof.
  exact (cache_ignores_other_fields (fun s => s) bool sample_pipeline ∅ _
           false true sample_request other_request sample_result 1
           eq_refl eq_refl eq_refl).
Defined.

(** ** C1: failures reaching the entry points *)

(** The shape shared by the emergency results of the [pyservice] route
    and of the serverless handler: one concept titled "Programming
    Concept", category "General", confidence 0.5, and the extraction
    method "fallback" in the metadata. *)
Definition emergency_result (j : json) : Prop :=
  exists kvs concept meta,
    j = JObj kvs /\
    Json.get kvs "concepts" = Some (JArr [JObj concept]) /\
    Json.get concept "title" = Some (JStr "Programming Concept") /\
    Json.get concept "category" = Some (JStr "General") /\
    Json.get concept "confidence_score" = Some (JNum (1 # 2)) /\
    Json.get kvs "metadata" = Some (JObj meta) /\
    Json.get meta "extraction_method" = Some (JStr "fallback").

(** C1 (corrected).  In the FastAPI service of [api/v1/extract_concepts.py]
    an exception raised by the pipeline of [analyze_conversation] (on a
    cache miss) is re-raised as [HTTPException(500)], and its
    [/api/v1/extract-concepts] route turns that, or an exception of the
    standardization after it, into an HTTP 500 response: no emergency
    result is built.  The [pyservice] route and the serverless [handler]
    of [api/v1/extract-concepts.py] instead answer any such exception
    with the single-concept emergency result ("Programming Concept",
    category "General", confidence 0.5, extraction method "fallback");
    the handler sends it with status 200, and in particular when its
    request is well formed and the analysis raises. *)
Theorem failure_handling_by_route (md5_hex : string -> string) (Oracle : Type)
    (pipeline : Oracle -> Orchestrator.request -> Orchestrator.outcome json * nat)
    (c : Orchestrator.cache) (o : Oracle) (req : Orchestrator.request)
    (e : Orchestrator.error) (n : nat)
    (finish : json -> Orchestrator.outcome json) (now : string) :
  (forall v, c !! Orchestrator.generate_cache_key md5_hex
                    (Orchestrator.conversation_text req) = Some v ->
             Json.truthy v = false) ->
  pipeline o req = (Orchestrator.Raise e, n) ->
  Orchestrator.analyze_conversation md5_hex Oracle pipeline c o req =
    (Orchestrator.Raise (Orchestrator.HTTPException 500 (Orchestrator.err_str e)), c, n) /\
  Orchestrator.route_v1 finish
    (Orchestrator.Raise (Orchestrator.HTTPException 500 (Orchestrator.err_str e))) =
    Orchestrator.Response500
      ("An internal error occurred during analysis: 500: " ++ Orchestrator.err_str e) /\
  (forall r e', finish r = Orchestrator.Raise e' ->
     Orchestrator.route_v1 finish (Orchestrator.Ok r) =
       Orchestrator.Response500
         ("An internal error occurred during analysis: " ++ Orchestrator.err_str e')) /\
  (forall a e',
     a = Orchestrator.Raise e' \/
     (exists r, a = Orchestrator.Ok r /\ finish r = Orchestrator.Raise e') ->
     Orchestrator.route_pyservice finish now a =
       Orchestrator.Response200 (Orchestrator.emergency_fallback now e')) /\
  (forall json_loads api_key analyze dict_slice_error rq e',
     Serverless.method rq = "POST" ->
     Serverless.handler_try json_loads api_key analyze finish dict_slice_error rq =
       Orchestrator.Raise e' ->
     Serverless.handler json_loads api_key analyze finish dict_slice_error now rq =
       Serverless.mkResponse 200 Serverless.cors_headers
         (Serverless.emergency_fallback now e')) /\
  (forall json_loads api_key analyze dict_slice_error rq src b s e',
     Serverless.method rq = "POST" -> Serverless.body rq = Some src -> src <> "" ->
     json_loads src = Orchestrator.Ok (JObj b) ->
     Json.get b "conversation_text" = Some (JStr s) -> s <> "" -> api_key <> "" ->
     analyze api_key (JStr s) (Json.get_or b "context" JNull)
       (Json.get_or b "category_guidance" JNull) = Orchestrator.Raise e' ->
     Serverless.handler json_loads (Some api_key) analyze finish dict_slice_error now rq =
       Serverless.mkResponse 200 Serverless.cors_headers
         (Serverless.emergency_fallback now e')) /\
  (forall e', emergency_result (Orchestrator.emergency_fallback now e') /\
              emergency_result (Serverless.emergency_fallback now e')).
Proof.
  intros Hmiss Hfail.
  split.
  { unfold Orchestrator.analyze_conversation.
    destruct (c !! Orchestrator.generate_cache_key md5_hex
                     (Orchestrator.conversation_text req)) as [v|] eqn:Hc.
    - rewrite (Hmiss v eq_refl), Hfail. reflexivity.
    - rewrite Hfail. reflexivity. }
  split; [reflexivity|].
  split.
  { intros r e' Hr. unfold Orchestrator.route_v1. rewrite Hr. reflexivity. }
  split.
  { intros a e' [->|[r [-> Hr]]]; unfold Orchestrator.route_pyservice;
      [reflexivity|rewrite Hr; reflexivity]. }
  split.
  { intros json_loads api_key analyze dse rq e' Hpost Htry.
    unfold Serverless.handler. rewrite Hpost. cbn [String.eqb Ascii.eqb Bool.eqb negb].
    rewrite Htry. reflexivity. }
  split.
  { intros json_loads api_key analyze dse rq src b s e' Hpost Hbody Hsrc Hload Hs Hne Hk
      Han.
    unfold Serverless.handler. rewrite Hpost. cbn [String.eqb Ascii.eqb Bool.eqb negb].
    unfold Serverless.handler_try. rewrite Hbody.
    apply String.eqb_neq in Hsrc. rewrite Hsrc, Hload. cbv zeta.
    assert (Hct : Json.get_or b "conversation_text" (JStr "") = JStr s).
    { unfold Json.get_or. rewrite Hs. reflexivity. }
    rewrite Hct. cbn [PyJson.len Json.truthy].
    apply String.eqb_neq in Hne. rewrite Hne. cbn [negb].
    apply String.eqb_neq in Hk. rewrite Hk, Han. reflexivity. }
  intros e'. split; do 3 eexists; repeat split; reflexivity.
Qed.

(** C1 counterexample: a transport error inside [analyze_conversation]
    (re-raised there as an HTTP 500 exception) yields an HTTP 500 response
    from the [api/v1] route, not a result. *)
Lemma v1_route_no_emergency_counterexample :
  Orchestrator.route_v1 (fun r => Orchestrator.Ok r)
    (fst (fst (Orchestrator.analyze_conversation (fun s => s) bool
                 sample_pipeline ∅ true sample_request))) =
    Orchestrator.Response500
      "An internal error occurred during analysis: 500: Connection error.".
Proof. reflexivity. Qed.

(** The transport error of [sample_pipeline]. *)
Definition connection_error : Orchestrator.error :=
  Orchestrator.OtherException "APIConnectionError" "Connection error.".

(** A well-formed request to the serverless handler. *)
Definition serverless_request : Serverless.request :=
  Serverless.mkRequest "POST" (Some "{ conversation_text: What is a hash map? }").

Lemma failure_handling_by_route_witness :
  Orchestrator.analyze_conversation (fun s => s) bool sample_pipeline ∅ true
    sample_request =
    (Orchestrator.Raise (Orchestrator.HTTPException 500 "Connection error."), ∅, 1) /\
  Orchestrator.route_v1 (fun r => Orchestrator.Ok r)
    (Orchestrator.Raise (Orchestrator.HTTPException 500 "Connection error.")) =
    Orchestrator.Response500
      "An internal error occurred during analysis: 500: Connection error." /\
  Serverless.handler
    (fun _ => Orchestrator.Ok (JObj [("conversation_text", JStr "What is a hash map?")]))
    (Some "sk-test") (fun _ _ _ _ => Orchestrator.Raise connection_error)
    (fun r => Orchestrator.Ok r)
    (Orchestrator.OtherException "TypeError" "unhashable type: 'slice'")
    "2024-01-01" serverless_request =
    Serverless.mkResponse 200 Serverless.cors_headers
      (Serverless.emergency_fallback "2024-01-01" connection_error).
Proof.
  assert (Hmiss : forall v, (∅ : Orchestrator.cache) !!
             Orchestrator.generate_cache_key (fun s => s)
               (Orchestrator.conversation_text sample_request) = Some v ->
           Json.truthy v = false).
  { intros v Hv. vm_compute in Hv. discriminate. }
  destruct (failure_handling_by_route (fun s => s) bool sample_pipeline ∅ true
              sample_request connection_error 1 (fun r => Orchestrator.Ok r)
              "2024-01-01" Hmiss eq_refl)
    as [Ha [Hr [_ [_ [_ [Hs _]]]]]].
  split; [exact Ha|]. split; [exact Hr|].
  apply (Hs _ _ _ _ serverless_request
           "{ conversation_text: What is a hash map? }"
           [("conversation_text", JStr "What is a hash map?")]
           "What is a hash map?");
    (reflexivity || discriminate).
Defined.

(** ** C5: segmentation bounds and fail-open behaviour *)

Lemma process_segments_kept_truthy (ct : json) (raw : list json)
    (segs : list Segmenter.segment) :
  Segmenter.process_segments ct raw = Some segs ->
  Forall (fun sg => Json.truthy (snd sg) = true) segs.
Proof.
  revert segs. induction raw as [|s raw IH]; intros segs H; simpl in H.
  - inversion H. constructor.
  - destruct (Segmenter.process_segment ct s) as [kept|] eqn:Hs; [|discriminate].
    destruct (Segmenter.process_segments ct raw) as [rest|] eqn:Hr; [|discriminate].
    inversion H; subst. specialize (IH rest eq_refl).
    destruct kept as [sg|]; [|exact IH].
    constructor; [|exact IH].
    unfold Segmenter.process_segment in Hs.
    destruct s; try discriminate.
    destruct (PyJson.len _); [|discriminate].
    destruct (Json.truthy (Json.get_or kvs "content" (JStr ""))) eqn:Ht;
      [|discriminate].
    inversion Hs; subst. exact Ht.
Qed.

Lemma collect_segments_kept_truthy (d : json) (segs : list Segmenter.segment) :
  Segmenter.collect_segments d = Some segs ->
  Forall (fun sg => Json.truthy (snd sg) = true) segs.
Proof.
  unfold Segmenter.collect_segments. destruct d; try discriminate.
  destruct (PyJson.len _); [|discriminate].
  destruct (PyJson.iter _) as [raw|]; [|discriminate].
  apply process_segments_kept_truthy.
Qed.

(** C5.  [_segment_conversation] never raises and always returns between
    one and five segments.  Either the result is one segment covering the
    whole text (topic ["Full Conversation"] after a transport error, an
    unparseable reply or any exception while reading the reply, topic
    ["[UNKNOWN] Full Conversation"] when the kept count is 0 or above 5),
    or every returned segment has non-empty (truthy) content: segments
    with empty content are dropped. *)
Theorem segment_conversation_bounds (conversation_text : string)
    (r : Segmenter.reply) :
  let segs := Segmenter.segment_conversation conversation_text r in
  (1 <= List.length segs <= 5)%nat /\
  (segs = [("Full Conversation", JStr conversation_text)] \/
   segs = [("[UNKNOWN] Full Conversation", JStr conversation_text)] \/
   Forall (fun sg => Json.truthy (snd sg) = true) segs) /\
  ((r = Segmenter.TransportError \/ r = Segmenter.Unparseable \/
    exists d, r = Segmenter.Parsed d /\ Segmenter.collect_segments d = None) ->
   segs = [("Full Conversation", JStr conversation_text)]) /\
  (forall d kept, r = Segmenter.Parsed d ->
   Segmenter.collect_segments d = Some kept ->
   (List.length kept = 0 \/ 5 < List.length kept)%nat ->
   segs = [("[UNKNOWN] Full Conversation", JStr conversation_text)]).
Proof.
  cbv zeta. unfold Segmenter.segment_conversation.
  destruct r as [| |d].
  - split; [simpl; lia|]. split; [now left|].
    split; [reflexivity|]. intros d kept Hd. discriminate.
  - split; [simpl; lia|]. split; [now left|].
    split; [reflexivity|]. intros d kept Hd. discriminate.
  - destruct (Segmenter.collect_segments d) as [segs|] eqn:Hc.
    + pose proof (collect_segments_kept_truthy d segs Hc) as Htr.
      destruct (List.length segs =? 0)%nat eqn:H0.
      * split; [simpl; lia|]. split; [right; now left|].
        split; [|reflexivity].
        intros [H|[H|[d' [H1 H2]]]]; try discriminate.
        inversion H1; subst. congruence.
      * destruct (5 <? List.length segs)%nat eqn:H5.
        -- split; [simpl; lia|]. split; [right; now left|].
           split; [|reflexivity].
           intros [H|[H|[d' [H1 H2]]]]; try discriminate.
           inversion H1; subst. congruence.
        -- apply Nat.eqb_neq in H0. apply Nat.ltb_ge in H5.
           split; [lia|]. split; [right; right; exact Htr|].
           split.
           ++ intros [H|[H|[d' [H1 H2]]]]; try discriminate.
              inversion H1; subst. congruence.
           ++ intros d' kept Hd Hk Hlen. inversion Hd; subst.
              rewrite Hc in Hk. inversion Hk; subst. lia.
    + split; [simpl; lia|]. split; [now left|].
      split; [reflexivity|]. intros d' kept Hd Hk. inversion Hd; subst. congruence.
Qed.

Lemma segment_conversation_bounds_witness :
  Segmenter.segment_conversation "whole text"
    (Segmenter.Parsed (JObj [("segments", JArr [])])) =
    [("[UNKNOWN] Full Conversation", JStr "whole text")].
Proof.
  exact (proj2 (proj2 (proj2 (segment_conversation_bounds "whole text"
           (Segmenter.Parsed (JObj [("segments", JArr [])])))))
           (JObj [("segments", JArr [])]) [] eq_refl eq_refl (or_introl eq_refl)).
Defined.

(** ** C6: totality of the fallback extractor *)

(** The confidence of a fallback concept: 0.5 for a ["Title:"]-marker
    concept, 0.3 for the ["Key Insights"] concept. *)
Definition fallback_confidence_ok (c : json) : Prop :=
  match c with
  | JObj kvs =>
      Json.get kvs "confidence_score" = Some (JNum (1 # 2)) \/
      (Json.get kvs "title" = Some (JStr "Key Insights") /\
       Json.get kvs "confidence_score" = Some (JNum (3 # 10)))
  | _ => False
  end.

Lemma title_concepts_confidence (now category : string) (gs : list string) :
  Forall fallback_confidence_ok (Fallback.title_concepts now category gs).
Proof.
  induction gs as [|g gs IH]; cbn [Fallback.title_concepts]; [constructor|].
  destruct (String.eqb (Py.strip g) ""); [exact IH|].
  destruct (Fallback.search_title (Py.strip g)); [|exact IH].
  constructor; [|exact IH]. left. reflexivity.
Qed.

(** C6.  For every input text, [_fallback_extraction] returns (never
    raises) a dict with a [concepts] list (possibly empty), a [summary]
    string, a [conversation_summary] string and a [metadata] dict, and
    every concept it produces has confidence 0.5 (a ["Title:"]-marker
    concept) or is the ["Key Insights"] concept with confidence 0.3. *)
Theorem fallback_extraction_well_formed (now text : string) :
  exists concepts summary conversation_summary metadata,
    Fallback.fallback_extraction now text =
      JObj [("concepts", JArr concepts); ("summary", JStr summary);
            ("conversation_summary", JStr conversation_summary);
            ("metadata", JObj metadata)] /\
    Forall fallback_confidence_ok concepts.
Proof.
  unfold Fallback.fallback_extraction.
  set (category := Fallback.fallback_category (Py.lower text)).
  pose proof (title_concepts_confidence now category (Fallback.title_groups text))
    as Hall.
  destruct (Fallback.title_concepts now category (Fallback.title_groups text))
    as [|c cs] eqn:Ht.
  - destruct (Fallback.insights text) as [|i ins].
    + do 4 eexists. split; [reflexivity|constructor].
    + do 4 eexists. split; [reflexivity|].
      constructor; [|constructor]. right. split; reflexivity.
  - do 4 eexists. split; [reflexivity|exact Hall].
Qed.

(** ** C9: per-concept isolation in the response normalizer *)

Lemma get_set_eq (kvs : list (string * json)) (k : string) (v : json) :
  Json.get (Json.set kvs k v) k = Some v.
Proof.
  induction kvs as [|[k' v'] kvs IH]; simpl.
  - rewrite String.eqb_refl. reflexivity.
  - destruct (String.eqb k k') eqn:E; simpl.
    + rewrite String.eqb_refl. reflexivity.
    + rewrite E. exact IH.
Qed.

Lemma get_set_neq (kvs : list (string * json)) (k k' : string) (v : json) :
  k <> k' -> Json.get (Json.set kvs k v) k' = Json.get kvs k'.
Proof.
  intros Hne. induction kvs as [|[k0 v0] kvs IH]; simpl.
  - destruct (String.eqb k' k) eqn:E; [|reflexivity].
    apply String.eqb_eq in E. congruence.
  - destruct (String.eqb k k0) eqn:E; simpl.
    + apply String.eqb_eq in E. subst k0.
      destruct (String.eqb k' k) eqn:E2; [apply String.eqb_eq in E2; congruence|].
      reflexivity.
    + destruct (String.eqb k' k0); [reflexivity|exact IH].
Qed.

Lemma has_get (kvs : list (string * json)) (k : string) :
  Json.has kvs k = true <-> exists v, Json.get kvs k = Some v.
Proof.
  unfold Json.has. destruct (Json.get kvs k); split; intros H;
    [eauto | reflexivity | discriminate | destruct H; discriminate].
Qed.

(** The keys [ensure_category_path] leaves alone. *)
Lemma ensure_category_path_other (c c' : list (string * json)) (k : string) :
  k <> "categoryPath" ->
  (Normalizer.ensure_category_path c = inl c' \/
   Normalizer.ensure_category_path c = inr c') ->
  Json.get c' k = Json.get c k.
Proof.
  intros Hk H. unfold Normalizer.ensure_category_path in H.
  destruct (Json.has c "categoryPath");
    [destruct H as [H|H]; inversion H; reflexivity|].
  destruct (Json.get c "category") as [category|];
    [|destruct H as [H|H]; inversion H; reflexivity].
  destruct (Normalizer.py_in " > " category) as [[|]|];
  [ destruct category;
    destruct H as [H|H]; inversion H; subst; try reflexivity;
    apply get_set_neq; congruence
  | destruct (Normalizer.py_in ">" category) as [[|]|];
    [ destruct category;
      destruct H as [H|H]; inversion H; subst; try reflexivity;
      apply get_set_neq; congruence
    | destruct H as [H|H]; inversion H; subst;
      apply get_set_neq; congruence
    | destruct H as [H|H]; inversion H; reflexivity ]
  | destruct H as [H|H]; inversion H; reflexivity ].
Qed.

(** A failing concept that had a ["title"] and a string ["details"] still
    has both, unchanged, when the [except] handler sees it. *)
Lemma process_failure_keeps_title_details (now : string) (csum : json)
    (c c' : list (string * json)) (t d : json) :
  Json.get c "title" = Some t -> Json.get c "details" = Some d ->
  Normalizer.process_concept now csum c = inl c' ->
  Json.get c' "title" = Some t /\ Json.get c' "details" = Some d.
Proof.
  intros Ht Hd H. unfold Normalizer.process_concept in H.
  destruct (Normalizer.ensure_category_path c) as [c0|c1] eqn:He.
  - inversion H; subst.
    rewrite !(ensure_category_path_other c c') by (discriminate || now left).
    split; assumption.
  - assert (Ht1 : Json.get c1 "title" = Some t).
    { rewrite (ensure_category_path_other c c1) by (discriminate || now right).
      exact Ht. }
    assert (Hd1 : Json.get c1 "details" = Some d).
    { rewrite (ensure_category_path_other c c1) by (discriminate || now right).
      exact Hd. }
    assert (Hht : Json.has c1 "title" = true) by (apply has_get; eauto).
    rewrite Hht in H.
    destruct (if Json.has c1 "summary" then Some c1 else
              match Normalizer.py_slice 150 csum with
              | Some s => Some (Json.set c1 "summary" s)
              | None => None end) as [c3|] eqn:Hc3.
    + assert (Ht3 : Json.get c3 "title" = Some t /\ Json.get c3 "details" = Some d).
      { destruct (Json.has c1 "summary"); [inversion Hc3; subst; auto|].
        destruct (Normalizer.py_slice 150 csum); inversion Hc3; subst.
        rewrite !get_set_neq by discriminate. auto. }
      destruct Ht3 as [Ht3 Hd3].
      assert (Hhd : Json.has c3 "details" = true) by (apply has_get; eauto).
      rewrite Hhd in H. rewrite !andb_false_r in H. cbn [negb] in H.
      repeat match type of H with
             | context [match ?x with Some _ => _ | None => _ end] => destruct x
             end;
        inversion H; subst; auto.
    + inversion H; subst. auto.
Qed.












(** ** C3: title deduplication *)

Section DedupFacts.
Import Dedup.

Lemma q_gt_spec (x y : Q) : q_gt x y = true <-> (y < x)%Q.
Proof.
  unfold q_gt. rewrite negb_true_iff. split; intros H.
  - apply Qnot_le_lt. intros Hle. apply Qle_bool_iff in Hle. congruence.
  - destruct (Qle_bool x y) eqn:E; [|reflexivity].
    apply Qle_bool_iff in E. exfalso. apply (Qlt_not_le y x); assumption.
Qed.

Lemma better_true (c o : concept) :
  better c o = true <->
  (confidence_score o < confidence_score c)%Q \/
  ((confidence_score c == confidence_score o)%Q /\ (code_snippets o < code_snippets c)%nat).
Proof.
  unfold better. rewrite orb_true_iff, andb_true_iff, q_gt_spec, Qeq_bool_iff,
    Nat.ltb_lt. tauto.
Qed.

Lemma better_irrefl (c : concept) : better c c = false.
Proof.
  destruct (better c c) eqn:E; [|reflexivity].
  apply better_true in E. destruct E as [E|[_ E]]; [apply Qlt_irrefl in E|lia].
  contradiction.
Qed.

Lemma better_trans_not (a e c : concept) :
  better a e = false -> better c e = true -> better a c = false.
Proof.
  intros Hae Hce. destruct (better a c) eqn:Hac; [|reflexivity]. exfalso.
  apply better_true in Hce. apply better_true in Hac.
  assert (Hn : ~ ((confidence_score e < confidence_score a)%Q \/
                  ((confidence_score a == confidence_score e)%Q /\
                   (code_snippets e < code_snippets a)%nat))).
  { intros H. apply better_true in H. congruence. }
  destruct (Qlt_le_dec (confidence_score e) (confidence_score a)) as [Hlt|Hle];
    [apply Hn; left; exact Hlt|].
  destruct Hce as [Hce|[Hce Hsc]], Hac as [Hac|[Hac Hsa]]; try lra.
  apply Hn. right. split; [lra|lia].
Qed.

Lemma lookup_set_eq (d : dict) (k : string) (v : concept) :
  lookup (dict_set d k v) k = Some v.
Proof.
  induction d as [|[k' v'] d IH]; simpl; [rewrite String.eqb_refl; reflexivity|].
  destruct (String.eqb k k') eqn:E; simpl; [rewrite String.eqb_refl; reflexivity|].
  rewrite E. exact IH.
Qed.

Lemma lookup_set_neq (d : dict) (k k' : string) (v : concept) :
  k <> k' -> lookup (dict_set d k v) k' = lookup d k'.
Proof.
  intros Hne. induction d as [|[k0 v0] d IH]; simpl.
  - destruct (String.eqb k' k) eqn:E; [apply String.eqb_eq in E; congruence|reflexivity].
  - destruct (String.eqb k k0) eqn:E; simpl.
    + apply String.eqb_eq in E. subst k0.
      destruct (String.eqb k' k) eqn:E2; [apply String.eqb_eq in E2; congruence|reflexivity].
    + destruct (String.eqb k' k0); [reflexivity|exact IH].
Qed.

Lemma in_dict_set (d : dict) (k k' : string) (v v' : concept) :
  In (k', v') (dict_set d k v) -> (k' = k /\ v' = v) \/ In (k', v') d.
Proof.
  induction d as [|[k0 v0] d IH]; simpl.
  - intros [H|[]]. inversion H. auto.
  - destruct (String.eqb k k0); simpl; intros [H|H].
    + inversion H. auto.
    + auto.
    + auto.
    + destruct (IH H); auto.
Qed.

Lemma lookup_in (d : dict) (k : string) (v : concept) :
  lookup d k = Some v -> In (k, v) d.
Proof.
  induction d as [|[k0 v0] d IH]; simpl; [discriminate|].
  destruct (String.eqb k k0) eqn:E; intros H.
  - apply String.eqb_eq in E. inversion H; subst. auto.
  - auto.
Qed.

Lemma keys_dict_set (d : dict) (k x : string) (v : concept) :
  In x (map fst (dict_set d k v)) -> x = k \/ In x (map fst d).
Proof.
  intros H. apply in_map_iff in H. destruct H as [[k' v'] [Hx Hin]]. simpl in Hx.
  subst x. destruct (in_dict_set d k k' v v' Hin) as [[-> _]|H]; [auto|].
  right. apply in_map_iff. exists (k', v'). auto.
Qed.

Lemma nodup_dict_set (d : dict) (k : string) (v : concept) :
  NoDup (map fst d) -> NoDup (map fst (dict_set d k v)).
Proof.
  induction d as [|[k0 v0] d IH]; simpl; intros Hnd.
  - constructor; [intros Hin; inversion Hin|constructor].
  - inversion Hnd as [|? ? Hnin Hnd']; subst.
    destruct (String.eqb k k0) eqn:E; simpl.
    + apply String.eqb_eq in E. subst. constructor; assumption.
    + constructor; [|apply IH; exact Hnd'].
      intros Hin. apply list_elem_of_In in Hin.
      destruct (keys_dict_set d k k0 v Hin) as [H|H].
      * subst. rewrite String.eqb_refl in E. discriminate.
      * apply Hnin. apply list_elem_of_In. exact H.
Qed.

(** The invariant of the multi-pass loop after the concepts [seen]. *)
Definition dedup_inv (seen : list concept) (d : dict) : Prop :=
  NoDup (map fst d) /\
  (forall k v, In (k, v) d -> title v = k /\ In v seen) /\
  (forall c, In c seen ->
     exists v, lookup d (title c) = Some v /\ better c v = false).

Lemma dedup_inv_set (seen : list concept) (d : dict) (c : concept) :
  dedup_inv seen d ->
  (forall v, lookup d (title c) = Some v -> better c v = true) ->
  dedup_inv (seen ++ [c]) (dict_set d (title c) c).
Proof.
  intros [Hnd [Hkv Hbest]] Hwin.
  split; [apply nodup_dict_set; exact Hnd|]. split.
  - intros k v Hin. destruct (in_dict_set _ _ _ _ _ Hin) as [[-> ->]|H].
    + split; [reflexivity|]. apply in_or_app. right. left. reflexivity.
    + destruct (Hkv k v H) as [Ht Hs]. split; [exact Ht|]. apply in_or_app. auto.
  - intros c' Hc'. apply in_app_or in Hc'.
    destruct Hc' as [Hc'|[<-|[]]].
    + destruct (Hbest c' Hc') as [v [Hv Hb]].
      destruct (String.eqb (title c') (title c)) eqn:Et.
      * apply String.eqb_eq in Et. rewrite Et, lookup_set_eq.
        eexists. split; [reflexivity|].
        rewrite Et in Hv. exact (better_trans_not c' v c Hb (Hwin v Hv)).
      * rewrite lookup_set_neq by (intros E; rewrite E, String.eqb_refl in Et; discriminate).
        eauto.
    + rewrite lookup_set_eq. eexists. split; [reflexivity|apply better_irrefl].
Qed.

Lemma dedup_inv_keep (seen : list concept) (d : dict) (c e : concept) :
  dedup_inv seen d -> lookup d (title c) = Some e -> better c e = false ->
  dedup_inv (seen ++ [c]) d.
Proof.
  intros [Hnd [Hkv Hbest]] He Hb. split; [exact Hnd|]. split.
  - intros k v Hin. destruct (Hkv k v Hin) as [Ht Hs]. split; [exact Ht|].
    apply in_or_app. auto.
  - intros c' Hc'. apply in_app_or in Hc'. destruct Hc' as [Hc'|[<-|[]]]; eauto.
Qed.

Lemma multi_pass_step_inv (seen : list concept) (d : dict) (c : concept) :
  dedup_inv seen d -> dedup_inv (seen ++ [c]) (multi_pass_step d c).
Proof.
  intros Hinv. unfold multi_pass_step.
  destruct (lookup d (title c)) as [e|] eqn:He.
  - destruct (better c e) eqn:Hb.
    + assert (Hw : forall v, lookup d (title c) = Some v -> better c v = true)
        by (intros v Hv; rewrite He in Hv; inversion Hv; subst; exact Hb).
      unfold better in Hb.
      destruct (q_gt (confidence_score c) (confidence_score e));
        [apply dedup_inv_set; assumption|].
      simpl in Hb. rewrite Hb. apply dedup_inv_set; assumption.
    + pose proof Hb as Hb'. unfold better in Hb'. apply orb_false_iff in Hb'.
      destruct Hb' as [H1 H2]. rewrite H1, H2.
      exact (dedup_inv_keep seen d c e Hinv He Hb).
  - apply dedup_inv_set; [exact Hinv|]. intros v Hv. congruence.
Qed.

Lemma multi_pass_fold_inv (cs seen : list concept) (d : dict) :
  dedup_inv seen d -> dedup_inv (seen ++ cs) (fold_left multi_pass_step cs d).
Proof.
  revert seen d. induction cs as [|c cs IH]; intros seen d Hinv; simpl.
  - rewrite app_nil_r. exact Hinv.
  - replace (seen ++ c :: cs)%list with ((seen ++ [c]) ++ cs)%list
      by (rewrite <- app_assoc; reflexivity).
    apply IH. apply multi_pass_step_inv. exact Hinv.
Qed.

Lemma titles_values (d : dict) :
  (forall k v, In (k, v) d -> title v = k) -> map title (map snd d) = map fst d.
Proof.
  induction d as [|[k v] d IH]; simpl; intros H; [reflexivity|].
  rewrite (H k v (or_introl eq_refl)). f_equal. apply IH. intros k' v' Hin. eauto.
Qed.

Lemma dedup_inv_rule (cs : list concept) (d : dict) :
  dedup_inv cs d -> dedup_rule cs (map snd d).
Proof.
  intros [Hnd [Hkv Hbest]]. split; [|split].
  - rewrite titles_values; [exact Hnd|]. intros k v Hin. apply (Hkv k v Hin).
  - intros o Ho. apply in_map_iff in Ho. destruct Ho as [[k v] [Hv Hin]].
    simpl in Hv. subst v. apply (Hkv k o Hin).
  - intros c Hc. destruct (Hbest c Hc) as [v [Hv Hb]].
    apply lookup_in in Hv. exists v. split; [|split].
    + apply in_map_iff. exists (title c, v). auto.
    + apply (Hkv _ _ Hv).
    + exact Hb.
Qed.

(** The multi-pass path follows the rule for every input. *)
Lemma multi_pass_dedup_rule (cs : list concept) :
  dedup_rule cs (multi_pass_dedup cs).
Proof.
  apply dedup_inv_rule. unfold multi_pass_dedup.
  apply (multi_pass_fold_inv cs []).
  split; [constructor|]. split; [intros k v []|]. intros c [].
Qed.

End DedupFacts.

Definition tie_first : Dedup.concept := Dedup.mkConcept "A" (4 # 5) 0 [].
Definition tie_second : Dedup.concept := Dedup.mkConcept "A" (4 # 5) 1 [].
Definition tie_input : list Dedup.concept := [tie_first; tie_second].

Definition spec_example : list Dedup.concept :=
  [Dedup.mkConcept "A" (3 # 5) 0 []; Dedup.mkConcept "A" (9 # 10) 0 []].

(** C3 (code bug in the single-pass path).  The multi-pass path keeps, for
    each exact title, a concept of highest confidence with ties broken by
    the greater code-snippet count, for every input.  The single-pass path,
    the one taken whenever the whole-conversation analysis yields a concept,
    replaces a kept concept only on a strictly greater confidence: given two
    concepts titled "A" with confidence 0.8 and 0 then 1 code snippets it
    keeps the first, which the rule rejects.  On the specification's
    example (0.6 then 0.9) both paths return one concept "A" with 0.9. *)
Theorem dedup_rule_by_path :
  (forall cs, Dedup.dedup_rule cs (Dedup.multi_pass_dedup cs)) /\
  Dedup.single_pass_dedup tie_input = [tie_first] /\
  Dedup.multi_pass_dedup tie_input = [tie_second] /\
  ~ Dedup.dedup_rule tie_input (Dedup.single_pass_dedup tie_input) /\
  Dedup.single_pass_dedup spec_example = [Dedup.mkConcept "A" (9 # 10) 0 []] /\
  Dedup.multi_pass_dedup spec_example = [Dedup.mkConcept "A" (9 # 10) 0 []].
Proof.
  split; [exact multi_pass_dedup_rule|].
  split; [vm_compute; reflexivity|].
  split; [vm_compute; reflexivity|].
  split; [|split; vm_compute; reflexivity].
  intros [_ [_ Hbest]].
  destruct (Hbest tie_second (or_intror (or_introl eq_refl))) as [o [Ho [_ Hb]]].
  replace (Dedup.single_pass_dedup tie_input) with [tie_first] in Ho
    by (vm_compute; reflexivity).
  destruct Ho as [<-|[]]. vm_compute in Hb. discriminate.
Qed.

(** ** C4: case-insensitive uniqueness of [relatedConcepts] *)

Lemma fold_m_dedup_ci (xs : list json) (seen : list string) (kept : list json)
    (r : list string * list json) :
  (exists ss, kept = map JStr ss /\ seen = map Py.lower ss /\ NoDup seen) ->
  SinglePass.fold_m SinglePass.dedup_ci_step xs (seen, kept) = Orchestrator.Ok r ->
  exists ss, snd r = map JStr ss /\ NoDup (map Py.lower ss).
Proof.
  revert seen kept. induction xs as [|x xs IH]; intros seen kept Hinv H; simpl in H.
  - inversion H; subst. destruct Hinv as [ss [-> [-> Hnd]]]. eauto.
  - destruct x as [| | |s| |]; simpl in H; try discriminate.
    destruct (Py.mem (Py.lower s) seen) eqn:Hm.
    + exact (IH seen kept Hinv H).
    + apply (IH (seen ++ [Py.lower s])%list (kept ++ [JStr s])%list); [|exact H].
      destruct Hinv as [ss [-> [-> Hnd]]].
      exists (ss ++ [s])%list. rewrite !map_app. split; [reflexivity|]. split; [reflexivity|].
      apply NoDup_app. split; [exact Hnd|]. split; [|apply NoDup_singleton].
      intros y Hy Hy'. apply list_elem_of_singleton in Hy'. subst y.
      apply list_elem_of_In in Hy. apply mem_In in Hy. congruence.
Qed.

(** The de-duplication step itself leaves a list of strings with no two
    entries equal after [lower()]. *)
Lemma dedup_related_unique (c c' : list (string * json)) (rel : json) :
  Json.get c "relatedConcepts" = Some rel ->
  SinglePass.dedup_related c = Orchestrator.Ok c' ->
  exists ss, Json.get c' "relatedConcepts" = Some (JArr (map JStr ss)) /\
             NoDup (map Py.lower ss).
Proof.
  intros Hrel H. unfold SinglePass.dedup_related in H. rewrite Hrel in H.
  unfold SinglePass.bind in H.
  destruct (SinglePass.py_iter rel) as [xs|e]; [|discriminate].
  destruct (SinglePass.fold_m SinglePass.dedup_ci_step xs ([], [])) as [r|e] eqn:Hf;
    [|discriminate].
  simpl in H. inversion H; subst. rewrite get_set_eq.
  destruct (fold_m_dedup_ci xs [] [] r) as [ss [Hss Hnd]].
  - exists []. split; [reflexivity|]. split; [reflexivity|constructor].
  - exact Hf.
  - exists ss. rewrite Hss. auto.
Qed.

Definition backlink_problem : json :=
  JObj [("title", JStr "Two Sum"); ("category", JStr "General");
        ("summary", JStr "Find two numbers adding up to a target");
        ("relatedConcepts", JArr [JStr "Hash Table"])].

Definition backlink_technique : json :=
  JObj [("title", JStr "Hash Table"); ("category", JStr "General");
        ("summary", JStr "Key to value lookups");
        ("relatedConcepts", JArr [JStr "two sum"])].

(** C4 (code bug).  The de-duplication pass leaves every [relatedConcepts]
    list free of case-insensitive duplicates, but the LeetCode pass that
    follows appends back-links with a case-sensitive [not in] test.  For the
    single-pass concepts "Two Sum" (related ["Hash Table"]) and "Hash Table"
    (related ["two sum"]), whatever the technique helpers and the set order,
    the returned "Hash Table" concept has related ["two sum"; "Two Sum"]. *)
Theorem related_unique_broken_by_backlink
    (get_technique_info : string -> json -> json * json * json)
    (get_technique_complexity : string -> string -> json)
    (set_iter : list string -> list string) (now : string) :
  (forall c c' rel, Json.get c "relatedConcepts" = Some rel ->
     SinglePass.dedup_related c = Orchestrator.Ok c' ->
     exists ss, Json.get c' "relatedConcepts" = Some (JArr (map JStr ss)) /\
                NoDup (map Py.lower ss)) /\
  SinglePass.post_process get_technique_info get_technique_complexity set_iter now
    [backlink_problem; backlink_technique] =
  Orchestrator.Ok
    [JObj [("title", JStr "Two Sum"); ("category", JStr "LeetCode Problems");
           ("summary", JStr "Find two numbers adding up to a target");
           ("relatedConcepts", JArr [JStr "Hash Table"])];
     JObj [("title", JStr "Hash Table"); ("category", JStr "LeetCode Problems");
           ("summary", JStr "Key to value lookups");
           ("relatedConcepts", JArr [JStr "two sum"; JStr "Two Sum"])]] /\
  Py.lower "two sum" = Py.lower "Two Sum".
Proof.
  split; [exact dedup_related_unique|].
  split; [vm_compute; reflexivity|reflexivity].
Qed.

(* ================================================================== *)
(** * Further properties of the service *)

(** ** Dict helpers *)

Lemma json_get_app (a b : list (string * json)) (k : string) :
  Json.get (a ++ b) k = match Json.get a k with Some v => Some v | None => Json.get b k end.
Proof.
  induction a as [|[k0 v0] a IH]; simpl; [reflexivity|].
  destruct (String.eqb k k0); [reflexivity|exact IH].
Qed.

Lemma json_has_set_eq (s : list (string * json)) (k : string) (v : json) :
  Json.has (Json.set s k v) k = true.
Proof. unfold Json.has. rewrite get_set_eq. reflexivity. Qed.

Lemma json_has_set_neq (s : list (string * json)) (k k' : string) (v : json) :
  k <> k' -> Json.has (Json.set s k v) k' = Json.has s k'.
Proof. intros H. unfold Json.has. rewrite get_set_neq by exact H. reflexivity. Qed.

Lemma json_set_same (s : list (string * json)) (k : string) (v : json) :
  Json.get s k = Some v -> Json.set s k v = s.
Proof.
  induction s as [|[k0 v0] s IH]; simpl; [discriminate|].
  destruct (String.eqb k0 k) eqn:E1, (String.eqb k k0) eqn:E2; simpl; intros H.
  - apply String.eqb_eq in E1. subst. inversion H. reflexivity.
  - apply String.eqb_eq in E1. subst. rewrite String.eqb_refl in E2. discriminate.
  - apply String.eqb_eq in E2. subst. rewrite String.eqb_refl in E1. discriminate.
  - f_equal. apply IH. exact H.
Qed.

Lemma merge_get (a b : list (string * json)) (k : string) :
  Json.get (Standardize.merge a b) k =
  match Json.get (rev b) k with Some v => Some v | None => Json.get a k end.
Proof.
  unfold Standardize.merge. revert a. induction b as [|[k0 v0] b IH]; intros a; simpl.
  - reflexivity.
  - rewrite IH. rewrite json_get_app. destruct (Json.get (rev b) k); [reflexivity|].
    simpl. destruct (String.eqb k0 k) eqn:E.
    + apply String.eqb_eq in E. subst. rewrite get_set_eq, String.eqb_refl. reflexivity.
    + rewrite get_set_neq by (intros H; subst; rewrite String.eqb_refl in E; discriminate).
      destruct (String.eqb k k0) eqn:E2; [apply String.eqb_eq in E2; subst;
        rewrite String.eqb_refl in E; discriminate|reflexivity].
Qed.

Lemma merge_id (a b : list (string * json)) :
  (forall k v, In (k, v) b -> Json.get a k = Some v) -> Standardize.merge a b = a.
Proof.
  unfold Standardize.merge. revert a. induction b as [|[k0 v0] b IH]; intros a H; simpl.
  - reflexivity.
  - rewrite (json_set_same a k0 v0) by (apply H; left; reflexivity).
    apply IH. intros k v Hin. apply H. right. exact Hin.
Qed.

Lemma json_truthy_str (s : string) : Json.truthy (JStr s) = negb (String.eqb s "").
Proof. destruct s; reflexivity. Qed.

(** ** [standardize_response_format] *)

Section StandardizeFacts.

Import Orchestrator.

Lemma bind_ok {A B} (m : outcome A) (f : A -> outcome B) (y : B) :
  SinglePass.bind m f = Ok y -> exists x, m = Ok x /\ f x = Ok y.
Proof. destruct m; simpl; [eauto|discriminate]. Qed.

Lemma has_of_get (a b : list (string * json)) (k : string) :
  Json.get a k = Json.get b k -> Json.has a k = Json.has b k.
Proof. unfold Json.has. intros ->. reflexivity. Qed.

Lemma get_of_has (a : list (string * json)) (k : string) :
  Json.has a k = true -> exists v, Json.get a k = Some v.
Proof. unfold Json.has. destruct (Json.get a k); [eauto|discriminate]. Qed.

Lemma ensure_summaries_has (s : list (string * json)) :
  Json.has (Standardize.ensure_summaries s) "summary" = true /\
  Json.has (Standardize.ensure_summaries s) "conversation_summary" = true.
Proof.
  unfold Standardize.ensure_summaries.
  destruct (Json.has s "conversation_summary") eqn:Hc, (Json.has s "summary") eqn:Hs; simpl.
  - auto.
  - rewrite json_has_set_eq, json_has_set_neq by discriminate. auto.
  - rewrite json_has_set_eq, json_has_set_neq by discriminate. auto.
  - rewrite json_has_set_eq, json_has_set_neq, json_has_set_eq by discriminate. auto.
Qed.

Lemma ensure_summaries_keep (s : list (string * json)) (k : string) :
  Json.has s k = true -> Json.get (Standardize.ensure_summaries s) k = Json.get s k.
Proof.
  intros Hk. unfold Standardize.ensure_summaries.
  destruct (Json.has s "conversation_summary") eqn:Hc, (Json.has s "summary") eqn:Hs; simpl;
    try reflexivity;
    repeat rewrite get_set_neq; try reflexivity;
    intros <-; congruence.
Qed.

Lemma ensure_summaries_other (s : list (string * json)) (k : string) :
  k <> "summary" -> k <> "conversation_summary" ->
  Json.get (Standardize.ensure_summaries s) k = Json.get s k.
Proof.
  intros H1 H2. unfold Standardize.ensure_summaries.
  destruct (Json.has s "conversation_summary"), (Json.has s "summary"); simpl;
    repeat rewrite get_set_neq by congruence; reflexivity.
Qed.

Lemma ensure_summaries_both (s : list (string * json)) :
  Json.has s "summary" = true -> Json.has s "conversation_summary" = true ->
  Standardize.ensure_summaries s = s.
Proof.
  intros H1 H2. unfold Standardize.ensure_summaries. rewrite H1, H2. reflexivity.
Qed.

Lemma ensure_title_ok (s s' : list (string * json)) :
  Standardize.ensure_title s = Ok s' ->
  Json.has s' "conversation_title" = true /\
  (forall k, k <> "conversation_title" -> Json.get s' k = Json.get s k) /\
  (Json.has s "conversation_title" = true -> s' = s).
Proof.
  unfold Standardize.ensure_title.
  destruct (Json.has s "conversation_title") eqn:Ht.
  { intros H. inversion H. subst. split; [exact Ht|split; [reflexivity|reflexivity]]. }
  assert (Hset : forall v, Json.has (Json.set s "conversation_title" v) "conversation_title" = true /\
            (forall k, k <> "conversation_title" ->
               Json.get (Json.set s "conversation_title" v) k = Json.get s k) /\
            (false = true -> Json.set s "conversation_title" v = s)).
  { intros v. split; [apply json_has_set_eq|split; [|discriminate]].
    intros k Hk. apply get_set_neq. congruence. }
  destruct (Json.has s "concepts" && Json.truthy (Json.get_or s "concepts" JNull)).
  - intros H. apply bind_ok in H as [items [_ H]]. apply bind_ok in H as [ts [_ H]].
    inversion H. apply Hset.
  - destruct (Json.truthy (Json.get_or s "conversation_summary" (JStr ""))).
    + intros H. apply bind_ok in H as [n [_ H]].
      destruct (50 <? n)%nat.
      * apply bind_ok in H as [hd [_ H]]. inversion H. apply Hset.
      * inversion H. apply Hset.
    + intros H. inversion H. apply Hset.
Qed.

(** The keys of the record built for every concept. *)
Definition standard_concept_keys : list string :=
  ["title"; "category"; "summary"; "keyPoints"; "details"; "relatedConcepts";
   "confidence_score"; "keyTakeaway"; "analogy"; "practicalTips"].

Lemma required_fields_ok (i : nat) (c req : list (string * json)) :
  Standardize.required_fields i c = Ok req ->
  exists kt, Standardize.key_takeaway_default c = Ok kt /\
  req = [
    ("title", Json.get_or c "title"
                (JStr ("Concept " ++ PyJson.n_to_string (N.of_nat (S i)))));
    ("category", Json.get_or c "category" (JStr "General"));
    ("summary", Json.get_or c "summary" (JStr ""));
    ("keyPoints", Json.get_or c "keyPoints" (JArr []));
    ("details", Standardize.details_content c);
    ("relatedConcepts", Json.get_or c "relatedConcepts" (JArr []));
    ("confidence_score", Json.get_or c "confidence_score" (JNum (4 # 5)));
    ("keyTakeaway", Json.get_or c "keyTakeaway" kt);
    ("analogy", Json.get_or c "analogy"
                  (JStr "Like a fundamental building block in programming."));
    ("practicalTips", Json.get_or c "practicalTips" Standardize.practical_tips)].
Proof.
  unfold Standardize.required_fields. intros H. apply bind_ok in H as [kt [Hkt H]].
  inversion H. eauto.
Qed.

Lemma standardize_concepts_ok (i : nat) (l l' : list json) :
  Standardize.standardize_concepts i l = Ok l' ->
  List.length l' = List.length l /\
  forall j v', nth_error l' j = Some v' ->
  exists c req, nth_error l j = Some (JObj c) /\
    Standardize.required_fields (i + j) c = Ok req /\ v' = JObj (Standardize.merge c req).
Proof.
  revert i l'. induction l as [|v l IH]; intros i l' H; simpl in H.
  - inversion H. subst. split; [reflexivity|]. intros j v' Hj. destruct j; discriminate.
  - apply bind_ok in H as [v1 [Hv H]]. apply bind_ok in H as [l1 [Hl H]].
    inversion H. subst. destruct (IH _ _ Hl) as [Hlen Hnth]. split; [simpl; congruence|].
    intros [|j] v' Hj; simpl in Hj.
    + inversion Hj. subst. destruct v as [| | | | |c]; try discriminate. simpl in Hv.
      apply bind_ok in Hv as [req [Hreq Hv]]. inversion Hv.
      exists c, req. rewrite Nat.add_0_r. auto.
    + destruct (Hnth j v' Hj) as (c & req & H1 & H2 & H3).
      exists c, req. rewrite <- Nat.add_succ_comm. auto.
Qed.

Lemma standardize_ok_inv (now : string) (r r' : list (string * json)) :
  Standardize.standardize_response_format now r = Ok r' ->
  exists s2 items',
    Standardize.ensure_title (Standardize.ensure_summaries r) = Ok s2 /\
    Standardize.standardize_concepts 0
      (match Json.get s2 "concepts" with Some (JArr l) => l | _ => [] end) = Ok items' /\
    Json.get r' "concepts" = Some (JArr items') /\
    Json.has r' "metadata" = true /\
    (forall k, k <> "concepts" -> k <> "metadata" -> Json.get r' k = Json.get s2 k) /\
    (Json.has s2 "metadata" = true -> Json.get r' "metadata" = Json.get s2 "metadata").
Proof.
  unfold Standardize.standardize_response_format. intros H.
  apply bind_ok in H as [s2 [Hs2 H]]. exists s2.
  set (s3 := match Json.get s2 "concepts" with
             | Some (JArr _) => s2 | _ => Json.set s2 "concepts" (JArr []) end) in H.
  assert (Hitems : match Json.get_or s3 "concepts" JNull with JArr l => l | _ => [] end =
                   match Json.get s2 "concepts" with Some (JArr l) => l | _ => [] end).
  { subst s3. unfold Json.get_or.
    destruct (Json.get s2 "concepts") as [[]|] eqn:E; try rewrite E; try reflexivity;
      rewrite get_set_eq; reflexivity. }
  assert (Hs3 : forall k, k <> "concepts" -> Json.get s3 k = Json.get s2 k).
  { intros k Hk. subst s3. destruct (Json.get s2 "concepts") as [[]|];
      try reflexivity; apply get_set_neq; congruence. }
  rewrite Hitems in H. apply bind_ok in H as [items' [Hc H]]. exists items'.
  split; [exact Hs2|split; [exact Hc|]].
  destruct (Json.has (Json.set s3 "concepts" (JArr items')) "metadata") eqn:Hm;
    inversion H; subst r'; clear H.
  - split; [apply get_set_eq|split; [exact Hm|split]].
    + intros k Hk _. rewrite get_set_neq by congruence. apply Hs3. exact Hk.
    + intros _. rewrite get_set_neq by discriminate. apply Hs3. discriminate.
  - split; [rewrite get_set_neq by discriminate; apply get_set_eq|].
    split; [apply json_has_set_eq|split].
    + intros k Hk1 Hk2. rewrite get_set_neq by congruence.
      rewrite get_set_neq by congruence. apply Hs3. exact Hk1.
    + intros Hm2. rewrite json_has_set_neq in Hm by discriminate.
      rewrite (has_of_get s3 s2) in Hm by (apply Hs3; discriminate). congruence.
Qed.

Lemma json_get_none (l : list (string * json)) (k : string) :
  ~ In k (map fst l) -> Json.get l k = None.
Proof.
  induction l as [|[k0 v0] l IH]; simpl; intros H; [reflexivity|].
  destruct (String.eqb k k0) eqn:E.
  - apply String.eqb_eq in E. subst. exfalso. apply H. left. reflexivity.
  - apply IH. intros Hin. apply H. right. exact Hin.
Qed.

Lemma get_or_some (a : list (string * json)) (k : string) (v d : json) :
  Json.get a k = Some v -> Json.get_or a k d = v.
Proof. unfold Json.get_or. intros ->. reflexivity. Qed.

Lemma get_or_same (a b : list (string * json)) (k : string) (d : json) :
  Json.get a k = Json.get b k -> Json.get_or a k d = Json.get_or b k d.
Proof. unfold Json.get_or. intros ->. reflexivity. Qed.

Lemma merged_req (i : nat) (c req : list (string * json)) :
  Standardize.required_fields i c = Ok req ->
  forall k v, In (k, v) req -> Json.get (Standardize.merge c req) k = Some v.
Proof.
  intros H. apply required_fields_ok in H as [kt [_ ->]].
  intros k v Hin. rewrite merge_get.
  simpl in Hin.
  repeat (destruct Hin as [Hin|Hin]; [inversion Hin; subst; reflexivity|]).
  contradiction.
Qed.

Lemma merged_other (i : nat) (c req : list (string * json)) (k : string) :
  Standardize.required_fields i c = Ok req ->
  ~ In k standard_concept_keys -> Json.get (Standardize.merge c req) k = Json.get c k.
Proof.
  intros H Hk. apply required_fields_ok in H as [kt [_ ->]].
  rewrite merge_get, json_get_none; [reflexivity|].
  intros Hin. apply Hk. simpl in Hin |- *. tauto.
Qed.

Lemma merged_details (i : nat) (c req : list (string * json)) :
  Standardize.required_fields i c = Ok req ->
  Standardize.details_content (Standardize.merge c req) = Standardize.details_content c.
Proof.
  intros H.
  assert (Hd : Json.get (Standardize.merge c req) "details" = Some (Standardize.details_content c)).
  { apply (merged_req i c req H). apply required_fields_ok in H as [kt [_ ->]].
    simpl. tauto. }
  assert (Hi : Json.get (Standardize.merge c req) "implementation" = Json.get c "implementation").
  { apply (merged_other i c req _ H). simpl. intuition discriminate. }
  assert (Hn : Json.get (Standardize.merge c req) "insights" = Json.get c "insights").
  { apply (merged_other i c req _ H). simpl. intuition discriminate. }
  unfold Standardize.details_content at 1.
  rewrite (get_or_some _ _ _ _ Hd), (get_or_same _ _ _ _ Hi), (get_or_same _ _ _ _ Hn).
  unfold Standardize.details_content.
  destruct (Json.truthy (Json.get_or c "details" JNull)) eqn:E1,
    (Json.truthy (Json.get_or c "implementation" JNull)) eqn:E2,
    (Json.truthy (Json.get_or c "insights" JNull)) eqn:E3;
    cbv iota; rewrite ?E1, ?E2, ?E3; reflexivity.
Qed.

Lemma merged_required (i j : nat) (c req : list (string * json)) :
  Standardize.required_fields i c = Ok req ->
  Standardize.required_fields j (Standardize.merge c req) = Ok req.
Proof.
  intros H. pose proof (merged_req i c req H) as Hm.
  pose proof (merged_details i c req H) as Hdet.
  apply required_fields_ok in H as [kt [Hkt Hreq]].
  set (m := Standardize.merge c req) in *.
  assert (Hktd : Standardize.key_takeaway_default m = Ok kt).
  { unfold Standardize.key_takeaway_default in *.
    rewrite (get_or_some _ _ (Json.get_or c "summary" (JStr "")));
      [exact Hkt|apply Hm; rewrite Hreq; simpl; tauto]. }
  unfold Standardize.required_fields. rewrite Hktd. simpl. unfold SinglePass.ret.
  assert (Hg : forall k d, In k standard_concept_keys ->
                 Json.get_or m k d = Json.get_or (rev req) k d).
  { intros k d Hk. subst m. unfold Json.get_or. rewrite merge_get. rewrite Hreq.
    simpl in Hk. repeat (destruct Hk as [Hk|Hk]; [subst k; reflexivity|]). contradiction. }
  rewrite Hdet, !Hg by (simpl; tauto). rewrite Hreq. reflexivity.
Qed.

Lemma standardize_concept_idem (i j : nat) (v v' : json) :
  Standardize.standardize_concept i v = Ok v' -> Standardize.standardize_concept j v' = Ok v'.
Proof.
  destruct v as [| | | | |c]; simpl; try discriminate. intros H.
  apply bind_ok in H as [req [Hreq H]]. inversion H. subst. simpl.
  rewrite (merged_required i j c req Hreq). simpl.
  rewrite (merge_id _ req); [reflexivity|]. exact (merged_req i c req Hreq).
Qed.

Lemma standardize_concepts_idem (i : nat) (l l' : list json) :
  Standardize.standardize_concepts i l = Ok l' -> Standardize.standardize_concepts i l' = Ok l'.
Proof.
  revert i l'. induction l as [|v l IH]; intros i l' H; simpl in H.
  - inversion H. reflexivity.
  - apply bind_ok in H as [v1 [Hv H]]. apply bind_ok in H as [l1 [Hl H]].
    inversion H. subst. simpl. rewrite (standardize_concept_idem i i v v1 Hv). simpl.
    rewrite (IH _ _ Hl). reflexivity.
Qed.

Lemma merged_has (i : nat) (c req : list (string * json)) (k : string) :
  Standardize.required_fields i c = Ok req ->
  In k standard_concept_keys -> Json.has (Standardize.merge c req) k = true.
Proof.
  intros H Hk. unfold Json.has. rewrite merge_get.
  apply required_fields_ok in H as [kt [_ ->]].
  simpl in Hk. repeat (destruct Hk as [Hk|Hk]; [subst k; reflexivity|]). contradiction.
Qed.

Lemma merged_keep (i : nat) (c req : list (string * json)) (k : string) :
  Standardize.required_fields i c = Ok req ->
  k <> "details" -> Json.has c k = true ->
  Json.get (Standardize.merge c req) k = Json.get c k.
Proof.
  intros H Hd Hk. destruct (get_of_has c k Hk) as [v Hv].
  destruct (in_dec string_dec k standard_concept_keys) as [Hin|Hin];
    [|exact (merged_other i c req k H Hin)].
  rewrite merge_get. apply required_fields_ok in H as [kt [_ ->]].
  assert (Hd' : exists d, Json.get (rev [
    ("title", Json.get_or c "title"
                (JStr ("Concept " ++ PyJson.n_to_string (N.of_nat (S i)))));
    ("category", Json.get_or c "category" (JStr "General"));
    ("summary", Json.get_or c "summary" (JStr ""));
    ("keyPoints", Json.get_or c "keyPoints" (JArr []));
    ("details", Standardize.details_content c);
    ("relatedConcepts", Json.get_or c "relatedConcepts" (JArr []));
    ("confidence_score", Json.get_or c "confidence_score" (JNum (4 # 5)));
    ("keyTakeaway", Json.get_or c "keyTakeaway" kt);
    ("analogy", Json.get_or c "analogy"
                  (JStr "Like a fundamental building block in programming."));
    ("practicalTips", Json.get_or c "practicalTips" Standardize.practical_tips)]) k
    = Some (Json.get_or c k d)).
  { simpl in Hin. repeat (destruct Hin as [Hin|Hin]; [subst k; try congruence; eexists; reflexivity|]).
    contradiction. }
  destruct Hd' as [d ->]. rewrite (get_or_some _ _ _ _ Hv). symmetry. exact Hv.
Qed.

Lemma standardize_concepts_raise (i : nat) (l : list json) (c : list (string * json)) (e : error) :
  In (JObj c) l -> Standardize.key_takeaway_default c = Raise e ->
  exists e', Standardize.standardize_concepts i l = Raise e'.
Proof.
  revert i. induction l as [|v l IH]; intros i Hin He; [contradiction|].
  simpl. destruct Hin as [->|Hin].
  - simpl. unfold Standardize.required_fields. rewrite He. simpl. eauto.
  - destruct (Standardize.standardize_concept i v); simpl; [|eauto].
    destruct (IH (S i) Hin He) as [e' ->]. simpl. eauto.
Qed.

Lemma str_length_app (a b : string) : String.length (a ++ b) = String.length a + String.length b.
Proof. induction a; simpl; [reflexivity|]. rewrite IHa. reflexivity. Qed.

Lemma take_length (n : nat) (s : string) : String.length (Py.take n s) = Nat.min n (String.length s).
Proof.
  unfold Py.take. revert n. induction s as [|a s IH]; intros [|n]; simpl; try reflexivity.
  rewrite IH. reflexivity.
Qed.

End StandardizeFacts.

Section StandardizeTheorems.

Import Orchestrator.

(** A standardized response has [summary], [conversation_summary],
    [conversation_title] and [metadata], and its [concepts] is a list of
    dicts that each carry the ten standard keys. *)
Theorem standardize_response_format_shape (now : string) (r r' : list (string * json)) :
  Standardize.standardize_response_format now r = Ok r' ->
  Json.has r' "summary" = true /\ Json.has r' "conversation_summary" = true /\
  Json.has r' "conversation_title" = true /\ Json.has r' "metadata" = true /\
  exists l, Json.get r' "concepts" = Some (JArr l) /\
    forall v, In v l -> exists c, v = JObj c /\
      forall k, In k standard_concept_keys -> Json.has c k = true.
Proof.
  intros H. destruct (standardize_ok_inv now r r' H)
    as (s2 & items' & Hs2 & Hc & Hget & Hmeta & Hoth & _).
  destruct (ensure_title_ok _ _ Hs2) as (Ht & Hto & _).
  destruct (ensure_summaries_has r) as [Hsum Hcs].
  split; [rewrite (has_of_get _ s2) by (apply Hoth; discriminate);
          rewrite (has_of_get _ (Standardize.ensure_summaries r)) by (apply Hto; discriminate);
          exact Hsum|].
  split; [rewrite (has_of_get _ s2) by (apply Hoth; discriminate);
          rewrite (has_of_get _ (Standardize.ensure_summaries r)) by (apply Hto; discriminate);
          exact Hcs|].
  split; [rewrite (has_of_get _ s2) by (apply Hoth; discriminate); exact Ht|].
  split; [exact Hmeta|].
  exists items'. split; [exact Hget|]. intros v Hv.
  apply In_nth_error in Hv as [j Hj].
  destruct (standardize_concepts_ok _ _ _ Hc) as [_ Hn].
  destruct (Hn j v Hj) as (c & req & _ & Hreq & ->).
  exists (Standardize.merge c req). split; [reflexivity|].
  intros k Hk. exact (merged_has _ _ _ k Hreq Hk).
Qed.

(** Standardizing is idempotent: a standardized response is returned
    unchanged by a second call, at any clock. *)
Theorem standardize_response_format_idempotent (now now' : string) (r r' : list (string * json)) :
  Standardize.standardize_response_format now r = Ok r' ->
  Standardize.standardize_response_format now' r' = Ok r'.
Proof.
  intros H. destruct (standardize_ok_inv now r r' H)
    as (s2 & items' & Hs2 & Hc & Hget & Hmeta & Hoth & _).
  destruct (ensure_title_ok _ _ Hs2) as (Ht & Hto & _).
  destruct (ensure_summaries_has r) as [Hsum Hcs].
  assert (Hs : Json.has r' "summary" = true).
  { rewrite (has_of_get _ s2) by (apply Hoth; discriminate).
    rewrite (has_of_get _ (Standardize.ensure_summaries r)) by (apply Hto; discriminate).
    exact Hsum. }
  assert (Hcs' : Json.has r' "conversation_summary" = true).
  { rewrite (has_of_get _ s2) by (apply Hoth; discriminate).
    rewrite (has_of_get _ (Standardize.ensure_summaries r)) by (apply Hto; discriminate).
    exact Hcs. }
  assert (Ht' : Json.has r' "conversation_title" = true).
  { rewrite (has_of_get _ s2) by (apply Hoth; discriminate). exact Ht. }
  unfold Standardize.standardize_response_format.
  rewrite (ensure_summaries_both r' Hs Hcs').
  unfold Standardize.ensure_title. rewrite Ht'. simpl.
  rewrite Hget. unfold Json.get_or. rewrite Hget.
  pose proof (standardize_concepts_idem _ _ _ Hc) as Hi. rewrite Hi. simpl.
  rewrite (json_set_same r' "concepts" (JArr items') Hget). rewrite Hmeta. reflexivity.
Qed.

(** Top-level keys other than [concepts] that the response has keep their
    values; a missing summary is copied from the other one, and when both
    are missing both get the default summary. *)
Theorem standardize_response_format_keeps_keys (now : string) (r r' : list (string * json)) :
  Standardize.standardize_response_format now r = Ok r' ->
  (forall k, k <> "concepts" -> Json.has r k = true -> Json.get r' k = Json.get r k) /\
  (Json.has r "summary" = false -> Json.has r "conversation_summary" = true ->
     Json.get r' "summary" = Json.get r "conversation_summary") /\
  (Json.has r "conversation_summary" = false -> Json.has r "summary" = true ->
     Json.get r' "conversation_summary" = Json.get r "summary") /\
  (Json.has r "summary" = false -> Json.has r "conversation_summary" = false ->
     Json.get r' "summary" = Some (JStr Standardize.default_summary) /\
     Json.get r' "conversation_summary" = Some (JStr Standardize.default_summary)).
Proof.
  intros H. destruct (standardize_ok_inv now r r' H)
    as (s2 & items' & Hs2 & Hc & Hget & Hmeta & Hoth & Hmeta2).
  destruct (ensure_title_ok _ _ Hs2) as (Ht & Hto & Hsame).
  set (s1 := Standardize.ensure_summaries r) in *.
  assert (Hr2 : forall k, k <> "concepts" -> k <> "metadata" -> k <> "conversation_title" ->
                Json.get r' k = Json.get s1 k).
  { intros k H1 H2 H3. rewrite Hoth by assumption. apply Hto. exact H3. }
  split; [|split; [|split]].
  - intros k Hk Hhas.
    assert (Hk1 : Json.get s1 k = Json.get r k) by (apply ensure_summaries_keep; exact Hhas).
    destruct (String.eq_dec k "metadata") as [->|Hm].
    + rewrite Hmeta2.
      * destruct (String.eq_dec "metadata" "conversation_title"); [discriminate|].
        rewrite Hto by discriminate. exact Hk1.
      * rewrite (has_of_get _ s1) by (apply Hto; discriminate).
        rewrite (has_of_get _ r) by exact Hk1. exact Hhas.
    + destruct (String.eq_dec k "conversation_title") as [->|Hct].
      * rewrite Hoth by (try discriminate; exact Hk).
        rewrite Hsame; [exact Hk1|].
        rewrite (has_of_get _ r) by exact Hk1. exact Hhas.
      * rewrite Hr2 by assumption. exact Hk1.
  - intros H1 H2. rewrite Hr2 by discriminate. subst s1.
    unfold Standardize.ensure_summaries. rewrite H1, H2. simpl.
    rewrite get_set_eq. destruct (get_of_has _ _ H2) as [v Hv].
    rewrite (get_or_some _ _ _ _ Hv). symmetry. exact Hv.
  - intros H1 H2. rewrite Hr2 by discriminate. subst s1.
    unfold Standardize.ensure_summaries. rewrite H1, H2. simpl.
    rewrite get_set_eq. destruct (get_of_has _ _ H2) as [v Hv].
    rewrite (get_or_some _ _ _ _ Hv). symmetry. exact Hv.
  - intros H1 H2. rewrite !Hr2 by discriminate. subst s1.
    unfold Standardize.ensure_summaries. rewrite H1, H2. simpl.
    rewrite get_set_eq, get_set_neq, get_set_eq by discriminate. auto.
Qed.

(** Each concept of a list-valued [concepts] is kept at its position: its
    keys other than [details] keep their values, [details] becomes the
    first truthy of [details], [implementation] and [insights] (else
    [""]), and a concept without [title] is titled [Concept <i+1>]. *)
Theorem standardize_response_format_concepts (now : string) (r r' : list (string * json))
    (l : list json) :
  Standardize.standardize_response_format now r = Ok r' ->
  Json.get r "concepts" = Some (JArr l) ->
  exists l', Json.get r' "concepts" = Some (JArr l') /\ List.length l' = List.length l /\
  forall j c, nth_error l j = Some (JObj c) ->
  exists c', nth_error l' j = Some (JObj c') /\
    (forall k, k <> "details" -> Json.has c k = true -> Json.get c' k = Json.get c k) /\
    Json.get c' "details" = Some (Standardize.details_content c) /\
    (Json.has c "title" = false ->
       Json.get c' "title" = Some (JStr ("Concept " ++ PyJson.n_to_string (N.of_nat (S j))))).
Proof.
  intros H Hl. destruct (standardize_ok_inv now r r' H)
    as (s2 & items' & Hs2 & Hc & Hget & _ & _ & _).
  destruct (ensure_title_ok _ _ Hs2) as (_ & Hto & _).
  assert (Hs2c : Json.get s2 "concepts" = Some (JArr l)).
  { rewrite Hto by discriminate. rewrite ensure_summaries_other by discriminate. exact Hl. }
  rewrite Hs2c in Hc. destruct (standardize_concepts_ok _ _ _ Hc) as [Hlen Hn].
  exists items'. split; [exact Hget|split; [exact Hlen|]].
  intros j c Hj.
  destruct (nth_error items' j) as [v'|] eqn:Hv'.
  2:{ apply nth_error_None in Hv'. assert (j < List.length l)%nat
        by (apply nth_error_Some; congruence). lia. }
  destruct (Hn j v' Hv') as (c0 & req & Hj0 & Hreq & ->).
  rewrite Hj in Hj0. inversion Hj0. subst c0.
  exists (Standardize.merge c req). split; [reflexivity|split; [|split]].
  - intros k Hk Hhas. exact (merged_keep _ _ _ k Hreq Hk Hhas).
  - apply (merged_req _ _ _ Hreq). apply required_fields_ok in Hreq as [kt [_ ->]].
    simpl. tauto.
  - intros Hno. rewrite (merged_req _ _ _ Hreq "title"
      (Json.get_or c "title" (JStr ("Concept " ++ PyJson.n_to_string (N.of_nat (S j)))))).
    + unfold Json.get_or. unfold Json.has in Hno.
      destruct (Json.get c "title"); [discriminate|reflexivity].
    + apply required_fields_ok in Hreq as [kt [_ ->]]. left. reflexivity.
Qed.

(** The default of [keyTakeaway] is evaluated for every concept, even one
    that has a [keyTakeaway]: a concept whose summary is truthy but not a
    string makes the call raise. *)
Theorem standardize_response_format_eager_default (now : string) (r c : list (string * json))
    (l : list json) (v : json) :
  Json.get r "concepts" = Some (JArr l) -> In (JObj c) l ->
  Json.get c "summary" = Some v -> Json.truthy v = true -> (forall s, v <> JStr s) ->
  exists e, Standardize.standardize_response_format now r = Raise e.
Proof.
  intros Hl Hin Hs Ht Hns.
  assert (Hk : exists e, Standardize.key_takeaway_default c = Raise e).
  { unfold Standardize.key_takeaway_default. rewrite (get_or_some _ _ _ _ Hs), Ht.
    destruct v as [| | |s|l0|kv]; simpl; eauto.
    exfalso. exact (Hns s eq_refl). }
  destruct Hk as [e He].
  unfold Standardize.standardize_response_format.
  destruct (Standardize.ensure_title (Standardize.ensure_summaries r)) as [s2|e2] eqn:Hs2;
    simpl; [|eauto].
  destruct (ensure_title_ok _ _ Hs2) as (_ & Hto & _).
  assert (Hs2c : Json.get s2 "concepts" = Some (JArr l)).
  { rewrite Hto by discriminate. rewrite ensure_summaries_other by discriminate. exact Hl. }
  rewrite Hs2c. unfold Json.get_or. rewrite Hs2c.
  destruct (standardize_concepts_raise 0 l c e Hin He) as [e' ->]. simpl. eauto.
Qed.

(** When the response has no [conversation_title] and no truthy
    [concepts], the title derived from a string [conversation_summary] is
    never that summary itself. *)
Theorem standardize_response_format_title_differs (now : string) (r r' : list (string * json))
    (s : string) :
  Json.has r "conversation_title" = false ->
  (Json.has r "concepts" && Json.truthy (Json.get_or r "concepts" JNull)) = false ->
  Standardize.standardize_response_format now r = Ok r' ->
  Json.get r' "conversation_summary" = Some (JStr s) ->
  exists t, Json.get r' "conversation_title" = Some (JStr t) /\ t <> s.
Proof.
  intros Hnt Hnc H Hs. destruct (standardize_ok_inv now r r' H)
    as (s2 & items' & Hs2 & _ & _ & _ & Hoth & _).
  rewrite Hoth in Hs by discriminate. rewrite Hoth by discriminate.
  set (s1 := Standardize.ensure_summaries r) in *.
  assert (Hs1 : Json.get s1 "conversation_summary" = Some (JStr s)).
  { destruct (ensure_title_ok _ _ Hs2) as (_ & Hto & _). rewrite <- Hto by discriminate.
    exact Hs. }
  assert (Hnt1 : Json.has s1 "conversation_title" = false).
  { subst s1. rewrite (has_of_get _ r) by (apply ensure_summaries_other; discriminate).
    exact Hnt. }
  assert (Hnc1 : (Json.has s1 "concepts" && Json.truthy (Json.get_or s1 "concepts" JNull)) = false).
  { subst s1. rewrite (has_of_get _ r) by (apply ensure_summaries_other; discriminate).
    rewrite (get_or_same _ r) by (apply ensure_summaries_other; discriminate). exact Hnc. }
  clearbody s1. unfold Standardize.ensure_title in Hs2.
  rewrite Hnt1, Hnc1, (get_or_some _ _ _ _ Hs1) in Hs2.
  rewrite json_truthy_str in Hs2.
  destruct (String.eqb s "") eqn:Es; simpl in Hs2.
  - inversion Hs2. subst s2. rewrite get_set_eq. eexists. split; [reflexivity|].
    apply String.eqb_eq in Es. subst s. discriminate.
  - destruct (50 <? String.length s)%nat eqn:En; simpl in Hs2; inversion Hs2; subst s2;
      rewrite get_set_eq; eexists; (split; [reflexivity|]); intros Heq.
    + apply Nat.ltb_lt in En. apply (f_equal String.length) in Heq.
      rewrite !str_length_app, take_length, Nat.min_l in Heq by lia. simpl in Heq. lia.
    + apply (f_equal String.length) in Heq. rewrite str_length_app in Heq.
      simpl in Heq. lia.
Qed.

End StandardizeTheorems.

(** Sample responses for [standardize_response_format]. *)
Definition std_now : string := "2026-01-01T00:00:00".

Definition std_concepts : list json :=
  [JObj [("title", JStr "Quick Sort"); ("implementation", JStr "def qs(a): ...")];
   JObj [("summary", JStr "Merging halves")]].

Definition std_sample : list (string * json) :=
  [("summary", JStr "Sorting talk"); ("concepts", JArr std_concepts)].

Definition std_sample_out : list (string * json) :=
  match Standardize.standardize_response_format std_now std_sample with
  | Orchestrator.Ok r => r
  | Orchestrator.Raise _ => []
  end.

Lemma std_sample_ok :
  Standardize.standardize_response_format std_now std_sample = Orchestrator.Ok std_sample_out.
Proof. vm_compute. reflexivity. Qed.

Lemma standardize_response_format_shape_witness :
  Standardize.standardize_response_format std_now std_sample = Orchestrator.Ok std_sample_out /\
  Json.has std_sample_out "conversation_title" = true.
Proof.
  split; [exact std_sample_ok|].
  exact (proj1 (proj2 (proj2 (standardize_response_format_shape std_now std_sample
           std_sample_out std_sample_ok)))).
Defined.

Lemma standardize_response_format_idempotent_witness :
  Standardize.standardize_response_format std_now std_sample = Orchestrator.Ok std_sample_out /\
  Standardize.standardize_response_format "later" std_sample_out = Orchestrator.Ok std_sample_out.
Proof.
  split; [exact std_sample_ok|].
  exact (standardize_response_format_idempotent std_now "later" std_sample std_sample_out
           std_sample_ok).
Defined.

Lemma standardize_response_format_keeps_keys_witness :
  Json.get std_sample_out "conversation_summary" = Some (JStr "Sorting talk").
Proof.
  exact (proj1 (proj2 (proj2 (standardize_response_format_keeps_keys std_now std_sample
           std_sample_out std_sample_ok))) eq_refl eq_refl).
Defined.

Lemma standardize_response_format_concepts_witness :
  exists l', Json.get std_sample_out "concepts" = Some (JArr l') /\ List.length l' = 2%nat /\
  forall j c, nth_error std_concepts j = Some (JObj c) ->
  exists c', nth_error l' j = Some (JObj c') /\
    (forall k, k <> "details" -> Json.has c k = true -> Json.get c' k = Json.get c k) /\
    Json.get c' "details" = Some (Standardize.details_content c) /\
    (Json.has c "title" = false ->
       Json.get c' "title" = Some (JStr ("Concept " ++ PyJson.n_to_string (N.of_nat (S j))))).
Proof.
  exact (standardize_response_format_concepts std_now std_sample std_sample_out std_concepts
           std_sample_ok eq_refl).
Defined.

Definition std_bad_summary : list (string * json) :=
  [("concepts", JArr [JObj [("title", JStr "Heap"); ("summary", JArr [JStr "a"]);
                            ("keyTakeaway", JStr "Heaps give the minimum fast.")]])].

Lemma standardize_response_format_eager_default_witness :
  exists e, Standardize.standardize_response_format std_now std_bad_summary = Orchestrator.Raise e.
Proof.
  apply (standardize_response_format_eager_default std_now std_bad_summary
           [("title", JStr "Heap"); ("summary", JArr [JStr "a"]);
            ("keyTakeaway", JStr "Heaps give the minimum fast.")]
           [JObj [("title", JStr "Heap"); ("summary", JArr [JStr "a"]);
                  ("keyTakeaway", JStr "Heaps give the minimum fast.")]]
           (JArr [JStr "a"])).
  - reflexivity.
  - left. reflexivity.
  - reflexivity.
  - reflexivity.
  - intros s. discriminate.
Defined.

Definition std_summary_only : list (string * json) := [("conversation_summary", JStr "Graphs")].

Definition std_summary_only_out : list (string * json) :=
  match Standardize.standardize_response_format std_now std_summary_only with
  | Orchestrator.Ok r => r
  | Orchestrator.Raise _ => []
  end.

Lemma standardize_response_format_title_differs_witness :
  exists t, Json.get std_summary_only_out "conversation_title" = Some (JStr t) /\ t <> "Graphs".
Proof.
  apply (standardize_response_format_title_differs std_now std_summary_only
           std_summary_only_out "Graphs").
  - reflexivity.
  - reflexivity.
  - vm_compute. reflexivity.
  - vm_compute. reflexivity.
Defined.

(** ** [_detect_domain_type] *)

Definition domain_labels : list string := ["TECHNICAL"; "NON_TECHNICAL"; "MIXED"].

Lemma keyword_decision_label (t n : nat) (d : string) :
  Domain.keyword_decision t n = Some d -> In d domain_labels.
Proof.
  unfold Domain.keyword_decision.
  destruct ((3 <=? t)%nat && (n <=? 1)%nat);
    [intros H; inversion H; simpl; tauto|].
  destruct ((2 <=? n)%nat && (t <=? 1)%nat);
    [intros H; inversion H; simpl; tauto|].
  destruct ((2 <=? t)%nat && (2 <=? n)%nat);
    [intros H; inversion H; simpl; tauto|discriminate].
Qed.

(** The domain is always one of the three labels.  The model is asked only
    when the keyword counts are inconclusive, and then a failed call or a
    reply that is not a label gives [TECHNICAL]; a text with at least two
    keywords of each kind is [MIXED] without asking the model. *)
Theorem detect_domain_type_labels (llm : Orchestrator.outcome string) (text : string) :
  let t := Domain.score Domain.technical_keywords (Py.lower text) in
  let n := Domain.score Domain.non_technical_keywords (Py.lower text) in
  In (fst (Domain.detect_domain_type llm text)) domain_labels /\
  (snd (Domain.detect_domain_type llm text) = true <-> Domain.keyword_decision t n = None) /\
  (Domain.keyword_decision t n = None ->
     (forall e, Domain.detect_domain_type (Orchestrator.Raise e) text = ("TECHNICAL", true)) /\
     (forall reply, ~ In (Py.upper (Py.strip reply)) domain_labels ->
        Domain.detect_domain_type (Orchestrator.Ok reply) text = ("TECHNICAL", true))) /\
  ((2 <= t)%nat -> (2 <= n)%nat -> Domain.detect_domain_type llm text = ("MIXED", false)).
Proof.
  intros t n. unfold Domain.detect_domain_type. fold t n.
  split; [|split; [|split]].
  - destruct (Domain.keyword_decision t n) as [d|] eqn:E.
    + exact (keyword_decision_label t n d E).
    + destruct llm as [content|e]; [|simpl; tauto]. cbv iota.
      destruct (Py.mem (Py.upper (Py.strip content)) ["TECHNICAL"; "NON_TECHNICAL"; "MIXED"])
        eqn:Em; [exact (proj1 (mem_In _ _) Em)|simpl; tauto].
  - destruct (Domain.keyword_decision t n); [simpl; split; discriminate|].
    destruct llm as [content|e]; [|simpl; tauto]. cbv iota.
    destruct (Py.mem (Py.upper (Py.strip content)) ["TECHNICAL"; "NON_TECHNICAL"; "MIXED"]);
      simpl; tauto.
  - intros E. rewrite E. split; [reflexivity|].
    intros reply Hr. destruct (Py.mem (Py.upper (Py.strip reply)) ["TECHNICAL"; "NON_TECHNICAL"; "MIXED"]) eqn:Em; [|reflexivity].
    apply mem_In in Em. contradiction.
  - intros Ht Hn. unfold Domain.keyword_decision.
    replace ((n <=? 1)%nat) with false by (symmetry; apply Nat.leb_gt; lia).
    replace ((t <=? 1)%nat) with false by (symmetry; apply Nat.leb_gt; lia).
    replace ((2 <=? t)%nat) with true by (symmetry; apply Nat.leb_le; lia).
    replace ((2 <=? n)%nat) with true by (symmetry; apply Nat.leb_le; lia).
    rewrite !andb_false_r. reflexivity.
Qed.

(** ** The learning store *)

Section LearningFacts.

Lemma learning_set_lookup (d : Learning.store) (k k' : string) (v : Learning.entry) :
  LearningStats.lookup (Learning.dict_set d k v) k' =
  if String.eqb k' k then Some v else LearningStats.lookup d k'.
Proof.
  induction d as [|[k0 v0] d IH]; simpl.
  - reflexivity.
  - destruct (String.eqb k k0) eqn:E; simpl.
    + apply String.eqb_eq in E. subst k0. destruct (String.eqb k' k); reflexivity.
    + rewrite IH. destruct (String.eqb k' k0) eqn:E0, (String.eqb k' k) eqn:E1; try reflexivity.
      apply String.eqb_eq in E0, E1. subst. rewrite String.eqb_refl in E. discriminate.
Qed.

Lemma learning_set_keys (d : Learning.store) (k : string) (v : Learning.entry) :
  map fst (Learning.dict_set d k v) =
  if existsb (String.eqb k) (map fst d) then map fst d else (map fst d ++ [k])%list.
Proof.
  induction d as [|[k0 v0] d IH]; simpl; [reflexivity|].
  destruct (String.eqb k k0) eqn:E; simpl.
  - apply String.eqb_eq in E. subst. reflexivity.
  - rewrite IH. destruct (existsb (String.eqb k) (map fst d)); reflexivity.
Qed.

Lemma list_nodup_snoc {A} (l : list A) (x : A) :
  List.NoDup l -> ~ In x l -> List.NoDup (l ++ [x])%list.
Proof.
  induction l as [|y l IH]; simpl; intros Hl Hx.
  - constructor; [tauto|constructor].
  - inversion Hl. subst. constructor.
    + rewrite in_app_iff. simpl. intuition.
    + apply IH; tauto.
Qed.

Lemma existsb_eqb_In (k : string) (l : list string) : existsb (String.eqb k) l = true <-> In k l.
Proof.
  rewrite existsb_exists. split.
  - intros [y [Hy E]]. apply String.eqb_eq in E. subst. exact Hy.
  - intros H. exists k. split; [exact H|apply String.eqb_refl].
Qed.

(** Counting with a dict of counts, and a lookup on it. *)
Fixpoint count_lookup (acc : list (string * nat)) (k : string) : option nat :=
  match acc with
  | [] => None
  | (k', n) :: t => if String.eqb k k' then Some n else count_lookup t k
  end.

Lemma count_add_lookup (acc : list (string * nat)) (x k : string) :
  count_lookup (LearningStats.count_add acc x) k =
  if String.eqb k x
  then Some (S (match count_lookup acc x with Some n => n | None => 0 end))
  else count_lookup acc k.
Proof.
  induction acc as [|[k0 n0] acc IH]; simpl.
  - destruct (String.eqb k x); reflexivity.
  - destruct (String.eqb x k0) eqn:E; simpl.
    + apply String.eqb_eq in E. subst k0. destruct (String.eqb k x); reflexivity.
    + rewrite IH. destruct (String.eqb k k0) eqn:E0, (String.eqb k x) eqn:E1; try reflexivity.
      apply String.eqb_eq in E0, E1. subst. rewrite String.eqb_refl in E. discriminate.
Qed.

Lemma count_add_keys (acc : list (string * nat)) (x : string) :
  map fst (LearningStats.count_add acc x) =
  if existsb (String.eqb x) (map fst acc) then map fst acc else (map fst acc ++ [x])%list.
Proof.
  induction acc as [|[k0 n0] acc IH]; simpl; [reflexivity|].
  destruct (String.eqb x k0) eqn:E; simpl.
  - apply String.eqb_eq in E. subst. reflexivity.
  - rewrite IH. destruct (existsb (String.eqb x) (map fst acc)); reflexivity.
Qed.

Lemma count_add_sum (acc : list (string * nat)) (x : string) :
  list_sum (map snd (LearningStats.count_add acc x)) = S (list_sum (map snd acc)).
Proof.
  induction acc as [|[k0 n0] acc IH]; simpl; [reflexivity|].
  destruct (String.eqb x k0); simpl; [reflexivity|]. rewrite IH. lia.
Qed.

Lemma count_lookup_In (acc : list (string * nat)) (k : string) (n : nat) :
  List.NoDup (map fst acc) -> (In (k, n) acc <-> count_lookup acc k = Some n).
Proof.
  induction acc as [|[k0 n0] acc IH]; simpl; intros Hnd; [split; [tauto|discriminate]|].
  inversion Hnd as [|? ? Hnin Hnd']. subst.
  destruct (String.eqb k k0) eqn:E.
  - apply String.eqb_eq in E. subst k0. split.
    + intros [H|H]; [inversion H; reflexivity|].
      exfalso. apply Hnin. apply (in_map fst) in H. exact H.
    + intros H. inversion H. left. reflexivity.
  - rewrite <- IH by exact Hnd'. split; [|tauto].
    intros [H|H]; [inversion H; subst; rewrite String.eqb_refl in E; discriminate|exact H].
Qed.

(** The invariant of the counting loop over the categories [xs] seen so far. *)
Definition counts_of (acc : list (string * nat)) (xs : list string) : Prop :=
  List.NoDup (map fst acc) /\
  (forall k, count_lookup acc k =
     if Nat.eqb (count_occ string_dec xs k) 0 then None else Some (count_occ string_dec xs k)) /\
  list_sum (map snd acc) = List.length xs.

Lemma counts_of_step (acc : list (string * nat)) (xs : list string) (x : string) :
  counts_of acc xs -> counts_of (LearningStats.count_add acc x) (xs ++ [x])%list.
Proof.
  intros (Hnd & Hl & Hs). split; [|split].
  - rewrite count_add_keys. destruct (existsb (String.eqb x) (map fst acc)) eqn:E; [exact Hnd|].
    apply list_nodup_snoc; [exact Hnd|]. intros Hin. apply existsb_eqb_In in Hin. congruence.
  - intros k. rewrite count_add_lookup, count_occ_app. simpl.
    destruct (String.eqb k x) eqn:E.
    + apply String.eqb_eq in E. subst k. rewrite Hl.
      destruct (string_dec x x); [|congruence].
      destruct (Nat.eqb (count_occ string_dec xs x) 0) eqn:E0.
      * apply Nat.eqb_eq in E0. rewrite E0. reflexivity.
      * rewrite Nat.add_1_r. reflexivity.
    + destruct (string_dec x k); [subst; rewrite String.eqb_refl in E; discriminate|].
      rewrite Nat.add_0_r. apply Hl.
  - rewrite count_add_sum, length_app, Hs. simpl. lia.
Qed.

Lemma counts_of_fold (acc : list (string * nat)) (xs ys : list string) :
  counts_of acc xs -> counts_of (fold_left LearningStats.count_add ys acc) (xs ++ ys)%list.
Proof.
  revert acc xs. induction ys as [|y ys IH]; intros acc xs H; simpl.
  - rewrite app_nil_r. exact H.
  - replace (xs ++ y :: ys)%list with ((xs ++ [y]) ++ ys)%list by (rewrite <- app_assoc; reflexivity).
    apply IH. apply counts_of_step. exact H.
Qed.

End LearningFacts.

(** Recording a manual correction stores the entry under the key of the
    lower-cased snippet, with the first 100 characters as preview; every
    other key keeps its entry, an existing key keeps its position, a new
    key is appended, and the keys stay distinct. *)
Theorem record_manual_update_roundtrip (md5_hex16 : string -> string) (d : Learning.store)
    (snippet old_cat new_cat : string) :
  let key := md5_hex16 (Py.lower snippet) in
  let d' := Learning.record_manual_update md5_hex16 d snippet old_cat new_cat in
  LearningStats.lookup d' key = Some (Learning.mkEntry (Py.take 100 snippet) old_cat new_cat) /\
  (forall k, k <> key -> LearningStats.lookup d' k = LearningStats.lookup d k) /\
  map fst d' = (if existsb (String.eqb key) (map fst d) then map fst d else map fst d ++ [key])%list /\
  (List.NoDup (map fst d) -> List.NoDup (map fst d')).
Proof.
  intros key d'. subst d'. unfold Learning.record_manual_update. fold key.
  split; [|split; [|split]].
  - rewrite learning_set_lookup, String.eqb_refl. reflexivity.
  - intros k Hk. rewrite learning_set_lookup.
    destruct (String.eqb k key) eqn:E; [apply String.eqb_eq in E; contradiction|reflexivity].
  - apply learning_set_keys.
  - intros Hnd. rewrite learning_set_keys.
    destruct (existsb (String.eqb key) (map fst d)) eqn:E; [exact Hnd|].
    apply list_nodup_snoc; [exact Hnd|]. intros Hin. apply existsb_eqb_In in Hin. congruence.
Qed.

(** The category counts of [get_learning_stats] list each category of the
    stored mappings once, with the number of mappings whose new category it
    is, and they add up to the number of mappings. *)
Theorem category_counts_exact (d : Learning.store) :
  let cats := map (fun kv => Learning.new_category (snd kv)) d in
  List.NoDup (map fst (LearningStats.category_counts d)) /\
  (forall cat n, In (cat, n) (LearningStats.category_counts d) <->
     n = count_occ string_dec cats cat /\ (0 < n)%nat) /\
  list_sum (map snd (LearningStats.category_counts d)) = List.length d.
Proof.
  intros cats.
  assert (H : counts_of (LearningStats.category_counts d) cats).
  { unfold LearningStats.category_counts. fold cats.
    apply (counts_of_fold [] [] cats). split; [constructor|split; [intros k; reflexivity|reflexivity]]. }
  destruct H as (Hnd & Hl & Hs). split; [exact Hnd|split].
  - intros cat n. rewrite (count_lookup_In _ _ _ Hnd), Hl.
    destruct (Nat.eqb (count_occ string_dec cats cat) 0) eqn:E.
    + apply Nat.eqb_eq in E. split; [discriminate|lia].
    + apply Nat.eqb_neq in E. split.
      * intros H. inversion H. lia.
      * intros [-> _]. reflexivity.
  - rewrite Hs. subst cats. apply length_map.
Qed.

(** ** The analysis cache *)

(** [analyze_conversation] touches the cache only under the request's own
    key: it either leaves the cache as it was or stores the result it
    returns; a failure leaves the cache unchanged and reaches the caller as
    an [HTTPException] with status 500. *)
Theorem analyze_conversation_cache_update (md5_hex : string -> string) (Oracle : Type)
    (pipeline : Oracle -> Orchestrator.request -> Orchestrator.outcome json * nat)
    (c : Orchestrator.cache) (o : Oracle) (req : Orchestrator.request) :
  let key := Orchestrator.generate_cache_key md5_hex (Orchestrator.conversation_text req) in
  match Orchestrator.analyze_conversation md5_hex Oracle pipeline c o req with
  | (res, c', _) =>
      (forall k, k <> key -> c' !! k = c !! k) /\
      (c' = c \/ exists r, res = Orchestrator.Ok r /\ c' = <[key := r]> c) /\
      (forall e, res = Orchestrator.Raise e ->
         c' = c /\ exists d, e = Orchestrator.HTTPException 500 d)
  end.
Proof.
  intros key. unfold Orchestrator.analyze_conversation. fold key.
  assert (Hrun : match match pipeline o req with
                       | (Orchestrator.Ok result, n) => (Orchestrator.Ok result, <[key := result]> c, n)
                       | (Orchestrator.Raise e, n) =>
                           (Orchestrator.Raise (Orchestrator.HTTPException 500 (Orchestrator.err_str e)), c, n)
                       end with
                 | (res, c', _) =>
                     (forall k, k <> key -> c' !! k = c !! k) /\
                     (c' = c \/ exists r, res = Orchestrator.Ok r /\ c' = <[key := r]> c) /\
                     (forall e, res = Orchestrator.Raise e ->
                        c' = c /\ exists d, e = Orchestrator.HTTPException 500 d)
                 end).
  { destruct (pipeline o req) as [[r|e] n].
    - split; [intros k Hk; apply lookup_insert_ne; congruence|].
      split; [right; eauto|discriminate].
    - split; [reflexivity|split; [left; reflexivity|]].
      intros e' He. inversion He. eauto. }
  destruct (c !! key) as [cached|]; [|exact Hrun].
  destruct (Json.truthy cached); [|exact Hrun].
  split; [reflexivity|split; [left; reflexivity|discriminate]].
Qed.

(** ** [_normalize_category] *)

Lemma keyword_lookup_valid (m : list (string * string)) (sl : string) (valid : list string)
    (v : string) :
  Category.keyword_lookup m sl valid = Some v -> In v valid.
Proof.
  induction m as [|[kw mapped] m IH]; simpl; [discriminate|].
  destruct (Py.contains kw sl); [|exact IH].
  destruct (Category.find_ci mapped valid) as [v'|] eqn:E; [|exact IH].
  intros H. inversion H. subst. unfold Category.find_ci in E.
  exact (proj1 (find_some _ _ E)).
Qed.

Lemma context_fallback_range (sl : string) :
  In (Category.context_fallback sl) ["General"; "Finance"; "Psychology"; "Health"].
Proof.
  unfold Category.context_fallback.
  destruct (Py.any_in _ sl); [simpl; tauto|].
  destruct (Py.any_in _ sl); [simpl; tauto|].
  destruct (Py.any_in _ sl); [simpl; tauto|].
  destruct (Py.any_in _ sl); simpl; tauto.
Qed.

(** [_normalize_category] returns [None] exactly for an empty category or
    one that upper-cases to [UNCATEGORIZED]; any other result is one of the
    valid categories or one of the four fallbacks [General], [Finance],
    [Psychology], [Health], which need not be valid categories. *)
Theorem normalize_category_range (learned : Learning.store) (s : string)
    (valid : list string) :
  (Category.normalize_category learned s valid = None <->
     s = "" \/ Py.upper s = "UNCATEGORIZED") /\
  (forall x, Category.normalize_category learned s valid = Some x ->
     In x valid \/ In x ["General"; "Finance"; "Psychology"; "Health"]).
Proof.
  unfold Category.normalize_category.
  destruct (String.eqb s "" || String.eqb (Py.upper s) "UNCATEGORIZED") eqn:E.
  - apply orb_true_iff in E. rewrite !String.eqb_eq in E.
    split; [tauto|discriminate].
  - apply orb_false_iff in E. rewrite !String.eqb_neq in E.
    assert (Hsome : forall x : string, Some x = None <-> s = "" \/ Py.upper s = "UNCATEGORIZED").
    { intros x. split; [discriminate|tauto]. }
    destruct (Py.mem s valid) eqn:Em.
    { split; [apply Hsome|]. intros x H. inversion H. subst. left. apply mem_In. exact Em. }
    destruct (find _ valid) as [c|] eqn:Ef.
    { split; [apply Hsome|]. intros x H. inversion H. subst. left.
      exact (proj1 (find_some _ _ Ef)). }
    destruct (Category.keyword_lookup _ _ _) as [c|] eqn:Ek.
    { split; [apply Hsome|]. intros x H. inversion H. subst. left.
      exact (keyword_lookup_valid _ _ _ _ Ek). }
    destruct (Learning.suggest_category_from_learning learned s) as [l|].
    + destruct (negb (String.eqb l "") && Py.mem l valid) eqn:El.
      * split; [apply Hsome|]. intros x H. inversion H. subst. left.
        apply andb_true_iff in El. apply mem_In. tauto.
      * split; [apply Hsome|]. intros x H. inversion H. subst. right.
        apply context_fallback_range.
    + split; [apply Hsome|]. intros x H. inversion H. subst. right.
      apply context_fallback_range.
Qed.

(** ** The two deduplication paths *)

Section DedupOrder.
Import Dedup.

(** Appending a title to the keys of a dict unless it is already there. *)
Definition keys_snoc (ks : list string) (x : string) : list string :=
  if existsb (String.eqb x) ks then ks else (ks ++ [x])%list.

Lemma filter_keys_snoc_absent (ks : list string) (x : string) (l : list string) :
  List.filter (fun y => negb (existsb (String.eqb y) (ks ++ [x])%list)) l =
  List.filter (fun y => negb (existsb (String.eqb y) ks))
    (List.filter (fun y => negb (String.eqb x y)) l).
Proof.
  induction l as [|y l IH]; simpl; [reflexivity|].
  rewrite existsb_app. simpl. rewrite orb_false_r.
  rewrite (String.eqb_sym x y).
  destruct (String.eqb y x); simpl;
    destruct (existsb (String.eqb y) ks); simpl; rewrite IH; reflexivity.
Qed.

Lemma filter_keys_snoc_present (ks : list string) (x : string) (l : list string) :
  existsb (String.eqb x) ks = true ->
  List.filter (fun y => negb (existsb (String.eqb y) ks)) l =
  List.filter (fun y => negb (existsb (String.eqb y) ks))
    (List.filter (fun y => negb (String.eqb x y)) l).
Proof.
  intros Hx. induction l as [|y l IH]; simpl; [reflexivity|].
  destruct (String.eqb x y) eqn:E; simpl.
  - apply String.eqb_eq in E. subst y. rewrite Hx. simpl. exact IH.
  - destruct (existsb (String.eqb y) ks); simpl; rewrite IH; reflexivity.
Qed.

Lemma fold_keys_snoc (xs ks : list string) :
  fold_left keys_snoc xs ks =
  (ks ++ List.filter (fun y => negb (existsb (String.eqb y) ks)) (Py.dedup xs))%list.
Proof.
  revert ks. induction xs as [|x xs IH]; intros ks; simpl.
  - rewrite app_nil_r. reflexivity.
  - rewrite IH. unfold keys_snoc. destruct (existsb (String.eqb x) ks) eqn:Hx; simpl.
    + f_equal. apply filter_keys_snoc_present. exact Hx.
    + rewrite <- app_assoc. simpl. f_equal. f_equal.
      apply filter_keys_snoc_absent.
Qed.

Lemma existsb_keys_lookup (d : dict) (k : string) :
  existsb (String.eqb k) (map fst d) = match lookup d k with Some _ => true | None => false end.
Proof.
  induction d as [|[k0 v0] d IH]; simpl; [reflexivity|].
  destruct (String.eqb k k0); [reflexivity|exact IH].
Qed.

Lemma dict_set_keys (d : dict) (k : string) (v : concept) :
  map fst (dict_set d k v) = keys_snoc (map fst d) k.
Proof.
  unfold keys_snoc. induction d as [|[k0 v0] d IH]; simpl; [reflexivity|].
  destruct (String.eqb k k0) eqn:E; simpl.
  - apply String.eqb_eq in E. subst. reflexivity.
  - rewrite IH. destruct (existsb (String.eqb k) (map fst d)); reflexivity.
Qed.

Lemma keys_snoc_present (d : dict) (k : string) (e : concept) :
  lookup d k = Some e -> keys_snoc (map fst d) k = map fst d.
Proof.
  intros H. unfold keys_snoc. rewrite existsb_keys_lookup, H. reflexivity.
Qed.

(** Both steps add a title the dict does not have at its end and keep the
    position of one it has; every value stays under its own title. *)
Definition titled (d : dict) : Prop := forall k v, In (k, v) d -> title v = k.

Lemma titled_set (d : dict) (c : concept) : titled d -> titled (dict_set d (title c) c).
Proof.
  intros H k v Hin. destruct (in_dict_set _ _ _ _ _ Hin) as [[-> ->]|Hin']; [reflexivity|].
  exact (H k v Hin').
Qed.

Lemma single_pass_step_keys (d : dict) (c : concept) :
  map fst (single_pass_step d c) = keys_snoc (map fst d) (title c) /\
  (titled d -> titled (single_pass_step d c)).
Proof.
  unfold single_pass_step. destruct (lookup d (title c)) as [e|] eqn:He.
  - destruct (q_gt (confidence_score c) (confidence_score e)).
    + split; [rewrite dict_set_keys; reflexivity|apply titled_set].
    + split; [symmetry; exact (keys_snoc_present d _ e He)|tauto].
  - split; [apply dict_set_keys|apply titled_set].
Qed.

Lemma multi_pass_step_keys (d : dict) (c : concept) :
  map fst (multi_pass_step d c) = keys_snoc (map fst d) (title c) /\
  (titled d -> titled (multi_pass_step d c)).
Proof.
  unfold multi_pass_step. destruct (lookup d (title c)) as [e|] eqn:He.
  - destruct (q_gt (confidence_score c) (confidence_score e));
      [split; [rewrite dict_set_keys; reflexivity|apply titled_set]|].
    destruct (Qeq_bool (confidence_score c) (confidence_score e) &&
              Nat.ltb (code_snippets e) (code_snippets c));
      [split; [rewrite dict_set_keys; reflexivity|apply titled_set]|].
    split; [symmetry; exact (keys_snoc_present d _ e He)|tauto].
  - split; [apply dict_set_keys|apply titled_set].
Qed.

Lemma fold_step_keys (step : dict -> concept -> dict)
    (Hstep : forall d c, map fst (step d c) = keys_snoc (map fst d) (title c) /\
                         (titled d -> titled (step d c)))
    (cs : list concept) (d : dict) :
  titled d ->
  map fst (fold_left step cs d) = fold_left keys_snoc (map title cs) (map fst d) /\
  titled (fold_left step cs d).
Proof.
  revert d. induction cs as [|c cs IH]; intros d Hd; simpl; [auto|].
  destruct (Hstep d c) as [Hk Ht]. rewrite <- Hk. apply IH. apply Ht. exact Hd.
Qed.

Lemma fold_titles (step : dict -> concept -> dict)
    (Hstep : forall d c, map fst (step d c) = keys_snoc (map fst d) (title c) /\
                         (titled d -> titled (step d c)))
    (cs : list concept) :
  map title (map snd (fold_left step cs [])) = Py.dedup (map title cs).
Proof.
  destruct (fold_step_keys step Hstep cs [] ltac:(intros k v [])) as [Hk Ht].
  rewrite titles_values by exact Ht. rewrite Hk. simpl. rewrite fold_keys_snoc. simpl.
  induction (Py.dedup (map title cs)) as [|x l IH]; simpl; [reflexivity|]. rewrite IH. reflexivity.
Qed.

(** The invariant of the single-pass loop after the concepts [seen]. *)
Definition single_pass_inv (seen : list concept) (d : dict) : Prop :=
  (forall k v, In (k, v) d -> In v seen) /\
  (forall c, In c seen ->
     exists v, lookup d (title c) = Some v /\ q_gt (confidence_score c) (confidence_score v) = false).

Lemma q_gt_false (x y : Q) : q_gt x y = false <-> (x <= y)%Q.
Proof.
  unfold q_gt. rewrite negb_false_iff. apply Qle_bool_iff.
Qed.

Lemma single_pass_step_inv (seen : list concept) (d : dict) (c : concept) :
  single_pass_inv seen d -> single_pass_inv (seen ++ [c]) (single_pass_step d c).
Proof.
  intros [Hin Hbest].
  assert (Hset : (forall v, lookup d (title c) = Some v ->
                   q_gt (confidence_score c) (confidence_score v) = true) ->
                 single_pass_inv (seen ++ [c]) (dict_set d (title c) c)).
  { intros Hwin. split.
    - intros k v H. destruct (in_dict_set _ _ _ _ _ H) as [[_ ->]|H'].
      + apply in_or_app. right. left. reflexivity.
      + apply in_or_app. left. exact (Hin k v H').
    - intros c' Hc'. apply in_app_or in Hc'. destruct Hc' as [Hc'|[<-|[]]].
      + destruct (Hbest c' Hc') as [v [Hv Hq]].
        destruct (String.eqb (title c') (title c)) eqn:Et.
        * apply String.eqb_eq in Et. rewrite Et, lookup_set_eq. eexists. split; [reflexivity|].
          rewrite Et in Hv. pose proof (Hwin v Hv) as Hw.
          apply q_gt_spec in Hw. apply q_gt_false in Hq. apply q_gt_false. lra.
        * rewrite lookup_set_neq by (intros E; rewrite E, String.eqb_refl in Et; discriminate).
          eauto.
      + rewrite lookup_set_eq. eexists. split; [reflexivity|]. apply q_gt_false. lra. }
  unfold single_pass_step. destruct (lookup d (title c)) as [e|] eqn:He.
  - destruct (q_gt (confidence_score c) (confidence_score e)) eqn:Hq.
    + apply Hset. intros v Hv. inversion Hv. subst. exact Hq.
    + split.
      * intros k v H. apply in_or_app. left. exact (Hin k v H).
      * intros c' Hc'. apply in_app_or in Hc'. destruct Hc' as [Hc'|[<-|[]]]; eauto.
  - apply Hset. intros v Hv. discriminate.
Qed.

Lemma single_pass_fold_inv (cs seen : list concept) (d : dict) :
  single_pass_inv seen d -> single_pass_inv (seen ++ cs) (fold_left single_pass_step cs d).
Proof.
  revert seen d. induction cs as [|c cs IH]; intros seen d Hinv; simpl.
  - rewrite app_nil_r. exact Hinv.
  - replace (seen ++ c :: cs)%list with ((seen ++ [c]) ++ cs)%list
      by (rewrite <- app_assoc; reflexivity).
    apply IH. apply single_pass_step_inv. exact Hinv.
Qed.

End DedupOrder.

(** Both deduplication paths keep one concept per title, in the order in
    which the titles first occur in the input. *)
Theorem dedup_title_order (cs : list Dedup.concept) :
  map Dedup.title (Dedup.single_pass_dedup cs) = Py.dedup (map Dedup.title cs) /\
  map Dedup.title (Dedup.multi_pass_dedup cs) = Py.dedup (map Dedup.title cs).
Proof.
  split.
  - apply (fold_titles Dedup.single_pass_step single_pass_step_keys).
  - apply (fold_titles Dedup.multi_pass_step multi_pass_step_keys).
Qed.

(** The single-pass path keeps, for every title, a concept of the input
    with that title whose confidence no concept with the same title
    exceeds. *)
Theorem single_pass_dedup_max_confidence (cs : list Dedup.concept) :
  (forall o, In o (Dedup.single_pass_dedup cs) -> In o cs) /\
  (forall c, In c cs -> exists o, In o (Dedup.single_pass_dedup cs) /\
     Dedup.title o = Dedup.title c /\ (Dedup.confidence_score c <= Dedup.confidence_score o)%Q).
Proof.
  destruct (single_pass_fold_inv cs [] [] ltac:(split; [intros k v []|intros c []]))
    as [Hin Hbest].
  destruct (fold_step_keys Dedup.single_pass_step single_pass_step_keys cs []
              ltac:(intros k v [])) as [_ Ht].
  unfold Dedup.single_pass_dedup. split.
  - intros o Ho. apply in_map_iff in Ho as [[k v] [Hv Hkv]]. simpl in Hv. subst v.
    exact (Hin k o Hkv).
  - intros c Hc. destruct (Hbest c Hc) as [v [Hv Hq]].
    apply lookup_in in Hv. exists v. split; [apply (in_map snd) in Hv; exact Hv|].
    split; [exact (Ht _ _ Hv)|]. apply q_gt_false. exact Hq.
Qed.

(** ** Post-processing of the single-pass result *)

Section PostProcessFacts.
Import Orchestrator.

(** [b] is [a] except, possibly, for [category] and [relatedConcepts]. *)
Definition same_except (a b : list (string * json)) : Prop :=
  forall k, k <> "category" -> k <> "relatedConcepts" -> Json.get b k = Json.get a k.

Lemma same_except_refl_list (cs : list (list (string * json))) : Forall2 same_except cs cs.
Proof. induction cs; constructor; [intros k _ _; reflexivity|assumption]. Qed.

Lemma same_except_trans_list (a b c : list (list (string * json))) :
  Forall2 same_except a b -> Forall2 same_except b c -> Forall2 same_except a c.
Proof.
  intros Hab. revert c. induction Hab as [|x y a b Hxy Hab IH]; intros c Hbc;
    inversion Hbc as [|y' z b' c' Hyz Hbc']; subst; constructor.
  - intros k H1 H2. rewrite (Hyz k H1 H2). exact (Hxy k H1 H2).
  - exact (IH _ Hbc').
Qed.

Lemma same_except_insert (cs : list (list (string * json))) (k : nat) (x : list (string * json)) :
  same_except (nth k cs []) x -> Forall2 same_except cs (<[k := x]> cs).
Proof.
  revert k. induction cs as [|y cs IH]; intros k H; [constructor|].
  destruct k as [|k]; simpl; constructor.
  - exact H.
  - apply same_except_refl_list.
  - intros k' _ _. reflexivity.
  - apply IH. exact H.
Qed.

Lemma same_except_set_related (d : list (string * json)) (v : json) :
  same_except d (Json.set d "relatedConcepts" v).
Proof. intros k _ H. apply get_set_neq. congruence. Qed.

Lemma same_except_set_category (d : list (string * json)) (v : json) :
  same_except d (Json.set d "category" v).
Proof. intros k H _. apply get_set_neq. congruence. Qed.

Lemma same_except_trans (a b c : list (string * json)) :
  same_except a b -> same_except b c -> same_except a c.
Proof. intros H1 H2 k K1 K2. rewrite (H2 k K1 K2). exact (H1 k K1 K2). Qed.

Lemma link_back_same (title : string) (cs cs' : list (list (string * json))) (k : nat) :
  SinglePass.link_back title cs k = Ok cs' -> Forall2 same_except cs cs'.
Proof.
  unfold SinglePass.link_back, SinglePass.nth_dict.
  set (rc := if Json.has (nth k cs []) "relatedConcepts" then nth k cs []
             else Json.set (nth k cs []) "relatedConcepts" (JArr [])).
  assert (Hrc : same_except (nth k cs []) rc).
  { subst rc. destruct (Json.has (nth k cs []) "relatedConcepts");
      [intros k' _ _; reflexivity|apply same_except_set_related]. }
  destruct (Json.get_or rc "relatedConcepts" JNull) as [| | |h|l|d]; try discriminate.
  - destruct (Py.contains title h); [|discriminate].
    intros H. inversion H. apply same_except_insert. exact Hrc.
  - destruct (existsb (fun x => PyJson.eq_str x title) l); intros H; inversion H;
      apply same_except_insert; [exact Hrc|].
    exact (same_except_trans _ _ _ Hrc (same_except_set_related rc _)).
  - destruct (Json.has d title); [|discriminate].
    intros H. inversion H. apply same_except_insert. exact Hrc.
Qed.

Lemma fold_m_same {B} (f : list (list (string * json)) -> B -> outcome (list (list (string * json))))
    (Hf : forall a x a', f a x = Ok a' -> Forall2 same_except a a')
    (l : list B) (a a' : list (list (string * json))) :
  SinglePass.fold_m f l a = Ok a' -> Forall2 same_except a a'.
Proof.
  revert a. induction l as [|x l IH]; intros a H; simpl in H.
  - inversion H. apply same_except_refl_list.
  - apply bind_ok in H as [a1 [H1 H2]].
    exact (same_except_trans_list _ _ _ (Hf _ _ _ H1) (IH _ H2)).
Qed.

Lemma link_step_same (title : string) (rt : json) (cs cs' : list (list (string * json))) (k : nat) :
  SinglePass.link_step title rt cs k = Ok cs' -> Forall2 same_except cs cs'.
Proof.
  unfold SinglePass.link_step. intros H.
  apply bind_ok in H as [t [_ H]]. apply bind_ok in H as [tl [_ H]].
  apply bind_ok in H as [rl [_ H]].
  destruct (String.eqb tl rl); [exact (link_back_same _ _ _ _ H)|].
  inversion H. apply same_except_refl_list.
Qed.

Lemma back_links_same (fuel i : nat) (title : string) (j : nat)
    (cs cs' : list (list (string * json))) :
  SinglePass.back_links fuel i title j cs = Ok cs' -> Forall2 same_except cs cs'.
Proof.
  revert j cs. induction fuel as [|fuel IH]; intros j cs H; simpl in H.
  - inversion H. apply same_except_refl_list.
  - apply bind_ok in H as [items [_ H]].
    destruct (nth_error items j) as [rt|]; [|inversion H; apply same_except_refl_list].
    apply bind_ok in H as [cs1 [H1 H2]].
    apply (same_except_trans_list _ cs1).
    + exact (fold_m_same _ (fun a k a' => link_step_same title rt a a' k) _ _ _ H1).
    + exact (IH _ _ H2).
Qed.

Lemma leetcode_step_same (cs cs' : list (list (string * json))) (i : nat) :
  SinglePass.leetcode_step cs i = Ok cs' -> Forall2 same_except cs cs'.
Proof.
  unfold SinglePass.leetcode_step, SinglePass.nth_dict. intros H.
  apply bind_ok in H as [t [_ H]].
  destruct t as [| | |title| |]; try discriminate.
  apply bind_ok in H as [likely [_ H]].
  destruct likely; [|inversion H; apply same_except_refl_list].
  apply bind_ok in H as [cat [_ H]].
  destruct (PyJson.eq_str cat "LeetCode Problems"); [inversion H; apply same_except_refl_list|].
  assert (H1 : Forall2 same_except cs
                 (<[i := Json.set (nth i cs []) "category" (JStr "LeetCode Problems")]> cs)).
  { apply same_except_insert. apply same_except_set_category. }
  destruct (_ && _); [|inversion H; subst; exact H1].
  apply bind_ok in H as [items [_ H]].
  exact (same_except_trans_list _ _ _ H1 (back_links_same _ _ _ _ _ _ H)).
Qed.

Lemma dedup_related_same (c c' : list (string * json)) :
  SinglePass.dedup_related c = Ok c' -> same_except c c'.
Proof.
  unfold SinglePass.dedup_related. destruct (Json.get c "relatedConcepts").
  - intros H. apply bind_ok in H as [xs [_ H]]. apply bind_ok in H as [r [_ H]].
    inversion H. apply same_except_set_related.
  - intros H. inversion H. intros k _ _. reflexivity.
Qed.

Lemma map_m_dedup_related_same (cs cs' : list (list (string * json))) :
  SinglePass.map_m SinglePass.dedup_related cs = Ok cs' -> Forall2 same_except cs cs'.
Proof.
  revert cs'. induction cs as [|c cs IH]; intros cs' H; simpl in H.
  - inversion H. constructor.
  - apply bind_ok in H as [c1 [H1 H]]. apply bind_ok in H as [cs1 [H2 H]].
    inversion H. constructor; [exact (dedup_related_same _ _ H1)|exact (IH _ H2)].
Qed.

(** A technique concept added by the enrichment loop. *)
Definition is_technique (t : list (string * json)) : Prop :=
  Json.get t "_is_technique" = Some (JBool true).

Lemma tech_concept_is_technique info cx now (title : json) (technique : string) :
  is_technique (SinglePass.tech_concept info cx now title technique).
Proof.
  unfold is_technique, SinglePass.tech_concept.
  destruct (info technique title) as [[a b] c]. reflexivity.
Qed.

Lemma add_techniques_is_technique info cx now (title : json) (ts : list string)
    (to_add : list (list (string * json))) :
  Forall is_technique to_add ->
  Forall is_technique (fold_left (SinglePass.add_technique info cx now title) ts to_add).
Proof.
  revert to_add. induction ts as [|t ts IH]; intros to_add H; simpl; [exact H|].
  apply IH. unfold SinglePass.add_technique.
  destruct (Py.mem _ _); [exact H|]. destruct (SinglePass.already_added _ _); [exact H|].
  apply Forall_app. split; [exact H|]. constructor; [apply tech_concept_is_technique|constructor].
Qed.

Lemma enrich_fold info cx set_iter now (concepts : list json)
    (main0 to_add0 main to_add : list (list (string * json))) :
  Forall is_technique to_add0 ->
  SinglePass.fold_m (SinglePass.enrich_step info cx set_iter now) concepts (main0, to_add0)
    = Ok (main, to_add) ->
  map JObj main = (map JObj main0 ++ concepts)%list /\ Forall is_technique to_add.
Proof.
  revert main0 to_add0. induction concepts as [|v concepts IH]; intros main0 to_add0 Ht H;
    simpl in H.
  - inversion H. subst. rewrite app_nil_r. auto.
  - apply bind_ok in H as [[main1 to_add1] [H1 H]].
    simpl in H1. apply bind_ok in H1 as [c [Hc H1]].
    destruct v as [| | | | |d]; try discriminate. simpl in Hc. inversion Hc. subst d.
    apply bind_ok in H1 as [p [_ H1]].
    assert (Hstep : main1 = (main0 ++ [c])%list /\ Forall is_technique to_add1).
    { destruct p.
      - apply bind_ok in H1 as [ts [_ H1]]. unfold SinglePass.ret in H1.
        inversion H1. split; [reflexivity|].
        apply add_techniques_is_technique. exact Ht.
      - unfold SinglePass.ret in H1. inversion H1. subst. auto. }
    destruct Hstep as [-> Ht1]. destruct (IH _ _ Ht1 H) as [Hm Ht2].
    split; [|exact Ht2]. rewrite Hm, map_app, <- app_assoc. reflexivity.
Qed.

End PostProcessFacts.

(** The single-pass post-processing returns the input concepts, in order,
    followed by at most three technique concepts marked [_is_technique];
    every concept keeps all its keys except, possibly, [category] and
    [relatedConcepts]. *)
Theorem post_process_shape info cx set_iter now (concepts out : list json) :
  SinglePass.post_process info cx set_iter now concepts = Orchestrator.Ok out ->
  exists tech, (List.length tech <= 3)%nat /\ Forall is_technique tech /\
  Forall2 (fun v v' => exists c c', v = JObj c /\ v' = JObj c' /\ same_except c c')
    (concepts ++ map JObj tech)%list out.
Proof.
  unfold SinglePass.post_process. intros H.
  apply bind_ok in H as [[main to_add] [H1 H]].
  destruct (enrich_fold _ _ _ _ _ [] [] _ _ (List.Forall_nil _) H1) as [Hmain Htech].
  apply bind_ok in H as [cs2 [H2 H]]. apply bind_ok in H as [cs3 [H3 H]].
  inversion H. subst out. clear H.
  exists (firstn 3 to_add). split; [apply firstn_le_length|].
  split; [apply List.Forall_forall; intros t Ht; rewrite List.Forall_forall in Htech;
          apply Htech; rewrite <- (firstn_skipn 3 to_add); apply in_or_app; left; exact Ht|].
  pose proof (same_except_trans_list _ _ _ (map_m_dedup_related_same _ _ H2)
               (fold_m_same _ (fun a i a' => leetcode_step_same a a' i) _ _ _ H3)) as Hs.
  simpl in Hmain. rewrite <- Hmain, <- map_app.
  clear - Hs. induction Hs as [|x y l l' Hxy Hs IH]; simpl; constructor; [|exact IH].
  exists x, y. auto.
Qed.

(** ** The metadata of [_parse_structured_response] *)

Lemma chars_length (s : string) : List.length (PyJson.chars s) = String.length s.
Proof. induction s; simpl; [reflexivity|]. rewrite IHs. reflexivity. Qed.

Lemma len_iter (v : json) (n : nat) (items : list json) :
  PyJson.len v = Some n -> PyJson.iter v = Some items -> List.length items = n.
Proof.
  destruct v; simpl; try discriminate; intros H1 H2; inversion H1; inversion H2; subst.
  - apply chars_length.
  - reflexivity.
  - apply length_map.
Qed.

Lemma process_concepts_length (now : string) (cs : json) (items out : list json) :
  Normalizer.process_concepts now cs items = Some out -> (List.length out <= List.length items)%nat.
Proof.
  unfold Normalizer.process_concepts.
  destruct (forallb _ items); [|discriminate]. intros H. inversion H. clear.
  induction items as [|v items IH]; simpl; [lia|].
  rewrite length_app.
  assert (List.length (match v with JObj c => Normalizer.concept_outcome now cs c | _ => [] end) <= 1)%nat.
  { destruct v as [| | | | |c]; simpl; try lia. unfold Normalizer.concept_outcome.
    destruct (Normalizer.process_concept now cs c) as [c'|p]; simpl; [|lia].
    destruct (Normalizer.minimal_concept now c'); simpl; lia. }
  lia.
Qed.

Lemma success_rate_bounds (n raw : nat) :
  (n <= raw)%nat ->
  (0 <= inject_Z (Z.of_nat n) / inject_Z (Z.of_nat (Nat.max raw 1)) <= 1)%Q.
Proof.
  intros H.
  assert (Hpos : (0 < inject_Z (Z.of_nat (Nat.max raw 1)))%Q).
  { change 0%Q with (inject_Z 0). rewrite <- Zlt_Qlt. lia. }
  split.
  - apply Qle_shift_div_l; [exact Hpos|]. rewrite Qmult_0_l.
    change 0%Q with (inject_Z 0). rewrite <- Zle_Qle. lia.
  - apply Qle_shift_div_r; [exact Hpos|]. rewrite Qmult_1_l. rewrite <- Zle_Qle. lia.
Qed.

(** The metadata of a parsed response counts the concepts it kept and the
    raw concepts it was given: at most one concept per raw concept is kept,
    so the success rate lies between 0 and 1. *)
Theorem parse_response_metadata (now : string) (response_data : json) (r : list (string * json)) :
  Normalizer.parse_response_data now response_data = Orchestrator.Ok (JObj r) ->
  exists l raw m q,
    Json.get r "concepts" = Some (JArr l) /\ Json.get r "metadata" = Some (JObj m) /\
    Json.get m "concept_count" = Some (JNum (inject_Z (Z.of_nat (List.length l)))) /\
    Json.get m "raw_concept_count" = Some (JNum (inject_Z (Z.of_nat raw))) /\
    (List.length l <= raw)%nat /\
    Json.get m "processing_success_rate" = Some (JNum q) /\ (0 <= q <= 1)%Q.
Proof.
  unfold Normalizer.parse_response_data. intros H.
  destruct response_data as [| | | | |rd0]; try discriminate.
  match type of H with
  | match ?x with Some _ => _ | None => _ end = _ => destruct x as [rd1|]; [|discriminate]
  end.
  match type of H with
  | context [PyJson.len ?raw] => destruct (PyJson.len raw) as [raw_count|] eqn:Hlen
  end.
  match type of H with
  | context [PyJson.iter ?raw] => destruct (PyJson.iter raw) as [items|] eqn:Hit
  end.
  all: cbv iota in H; try discriminate.
  destruct (Normalizer.process_concepts now _ items) as [processed|] eqn:Hp; [|discriminate].
  inversion H. subst r. clear H.
  pose proof (len_iter _ _ _ Hlen Hit) as Hl.
  pose proof (process_concepts_length _ _ _ _ Hp) as Hle.
  eexists processed, raw_count, _, _. repeat split; try reflexivity; try lia;
    apply success_rate_bounds; lia.
Qed.

(** Sample inputs for the post-processing and the response parser. *)
Definition pp_info (technique : string) (title : json) : json * json * json :=
  (JStr ("About " ++ technique), JArr [], JStr "").

Definition pp_complexity (technique kind : string) : json := JStr "O(n)".

Definition pp_concepts : list json :=
  [JObj [("title", JStr "Two Sum Problem"); ("category", JStr "Algorithm");
         ("summary", JStr "Find two numbers adding up to a target");
         ("keyPoints", JArr [JStr "Use a hash map of complements"]);
         ("relatedConcepts", JArr [JStr "Arrays"; JStr "arrays"])]].

Definition pp_out : list json :=
  match SinglePass.post_process pp_info pp_complexity (fun ts => ts) std_now pp_concepts with
  | Orchestrator.Ok out => out
  | Orchestrator.Raise _ => []
  end.

Lemma post_process_shape_witness :
  SinglePass.post_process pp_info pp_complexity (fun ts => ts) std_now pp_concepts =
    Orchestrator.Ok pp_out /\ List.length pp_out = 2%nat /\
  exists tech, (List.length tech <= 3)%nat /\ Forall is_technique tech /\
  Forall2 (fun v v' => exists c c', v = JObj c /\ v' = JObj c' /\ same_except c c')
    (pp_concepts ++ map JObj tech)%list pp_out.
Proof.
  assert (H : SinglePass.post_process pp_info pp_complexity (fun ts => ts) std_now pp_concepts =
                Orchestrator.Ok pp_out) by (vm_compute; reflexivity).
  split; [exact H|]. split; [vm_compute; reflexivity|].
  exact (post_process_shape pp_info pp_complexity (fun ts => ts) std_now pp_concepts pp_out H).
Defined.

Definition parse_sample : json :=
  JObj [("conversation_summary", JStr "Arrays and hashing");
        ("concepts", JArr [JObj [("title", JStr "Two Sum"); ("summary", JStr "s");
                                 ("details", JStr "d")];
                           JObj [("category", JNum 5)]])].

Definition parse_sample_out : list (string * json) :=
  match Normalizer.parse_response_data std_now parse_sample with
  | Orchestrator.Ok (JObj r) => r
  | _ => []
  end.

Lemma parse_response_metadata_witness :
  Normalizer.parse_response_data std_now parse_sample = Orchestrator.Ok (JObj parse_sample_out) /\
  exists l raw m q,
    Json.get parse_sample_out "concepts" = Some (JArr l) /\
    Json.get parse_sample_out "metadata" = Some (JObj m) /\
    Json.get m "concept_count" = Some (JNum (inject_Z (Z.of_nat (List.length l)))) /\
    Json.get m "raw_concept_count" = Some (JNum (inject_Z (Z.of_nat raw))) /\
    (List.length l <= raw)%nat /\
    Json.get m "processing_success_rate" = Some (JNum q) /\ (0 <= q <= 1)%Q.
Proof.
  assert (H : Normalizer.parse_response_data std_now parse_sample =
                Orchestrator.Ok (JObj parse_sample_out)) by (vm_compute; reflexivity).
  split; [exact H|].
  exact (parse_response_metadata std_now parse_sample parse_sample_out H).
Defined.

(** ** Short snippets in the learning store *)

Lemma lower_length (s : string) : String.length (Py.lower s) = String.length s.
Proof. induction s; simpl; [reflexivity|]. rewrite IHs. reflexivity. Qed.

Lemma short_preview_no_match (p o n content : string) :
  (String.length p <= 20)%nat -> Learning.entry_matches (Learning.mkEntry p o n) content = false.
Proof.
  intros H. unfold Learning.entry_matches. simpl.
  replace ((20 <? String.length (Py.lower p))%nat) with false
    by (symmetry; apply Nat.ltb_ge; rewrite lower_length; exact H).
  rewrite andb_false_r. reflexivity.
Qed.

Lemma filter_key_absent (d : Learning.store) (k : string) :
  ~ In k (map fst d) -> List.filter (fun kv => negb (String.eqb (fst kv) k)) d = d.
Proof.
  induction d as [|[k0 v0] d IH]; simpl; intros H; [reflexivity|].
  destruct (String.eqb k0 k) eqn:E.
  - apply String.eqb_eq in E. subst. exfalso. apply H. left. reflexivity.
  - simpl. f_equal. apply IH. tauto.
Qed.

(** A correction recorded for a snippet of at most 20 characters is never
    used by [suggest_category_from_learning]: the store then suggests what
    it suggested without the mapping stored under that snippet's key. *)
Theorem short_snippet_never_suggested (md5_hex16 : string -> string) (d : Learning.store)
    (snippet old_cat new_cat content : string) :
  (String.length snippet <= 20)%nat -> List.NoDup (map fst d) ->
  Learning.suggest_category_from_learning
    (Learning.record_manual_update md5_hex16 d snippet old_cat new_cat) content =
  Learning.suggest_category_from_learning
    (List.filter (fun kv => negb (String.eqb (fst kv) (md5_hex16 (Py.lower snippet)))) d)
    content.
Proof.
  intros Hlen Hnd. unfold Learning.record_manual_update.
  set (key := md5_hex16 (Py.lower snippet)).
  assert (Hm : Learning.entry_matches
                 (Learning.mkEntry (Py.take 100 snippet) old_cat new_cat) content = false).
  { apply short_preview_no_match. rewrite take_length. lia. }
  induction d as [|[k0 e0] d IH]; simpl.
  - rewrite Hm. reflexivity.
  - inversion Hnd as [|? ? Hnin Hnd']. subst.
    destruct (String.eqb key k0) eqn:E.
    + apply String.eqb_eq in E. subst k0. rewrite String.eqb_refl. simpl.
      rewrite Hm. rewrite filter_key_absent by exact Hnin. reflexivity.
    + rewrite String.eqb_sym, E. simpl.
      destruct (Learning.entry_matches e0 content); [reflexivity|]. exact (IH Hnd').
Qed.

Lemma short_snippet_never_suggested_witness :
  Learning.suggest_category_from_learning
    (Learning.record_manual_update (fun s => s)
       [("k", Learning.mkEntry "stock portfolio diversification strategies" "General" "Finance")]
       "two sum hashing" "General" "Algorithms")
    "two sum hashing with arrays" =
  Learning.suggest_category_from_learning
    [("k", Learning.mkEntry "stock portfolio diversification strategies" "General" "Finance")]
    "two sum hashing with arrays".
Proof.
  rewrite (short_snippet_never_suggested (fun s => s)
             [("k", Learning.mkEntry "stock portfolio diversification strategies" "General" "Finance")]
             "two sum hashing" "General" "Algorithms" "two sum hashing with arrays").
  - reflexivity.
  - simpl. lia.
  - constructor; [simpl; tauto|constructor].
Defined.
